(** * incus-osd: network configuration synthesis and convergence

    A shallow embedding of [incus-osd/internal/systemd/networkd.go]:
    the pure renderers of systemd-networkd artifacts, the artifact writer,
    the two polling waiters and the apply orchestrator, together with the
    properties the design document states about them. *)

From Stdlib Require Import ZArith Lia List Ascii String Sorted Permutation.
From stdpp Require Import base decidable option list strings gmap pretty.

Local Open Scope Z_scope.


(** ** Go strings

    A Go string is a sequence of bytes; it is embedded as a Rocq [string]. *)
Module strings.

(** The line feed, written [\n] in Go literals. *)
Definition LF_char : ascii := ascii_of_nat 10.
Definition LF : string := String LF_char "".

(** [strings.HasPrefix(s, prefix)]. *)
Fixpoint HasPrefix (s prefix : string) {struct prefix} : bool :=
  match prefix with
  | "" => true
  | String p prefix' =>
      match s with
      | "" => false
      | String c s' => if Ascii.eqb c p then HasPrefix s' prefix' else false
      end
  end.

(** [strings.Contains(s, substr)]: [substr] occurs at some offset of [s]. *)
Fixpoint Contains (s substr : string) : bool :=
  if HasPrefix s substr then true
  else match s with
       | "" => false
       | String _ s' => Contains s' substr
       end.

(** [strings.ReplaceAll(s, ":", "")], the only instance the program uses:
    every colon byte is dropped. *)
Fixpoint RemoveColons (s : string) : string :=
  match s with
  | "" => ""
  | String c s' => if Ascii.eqb c ":"%char then RemoveColons s' else String c (RemoveColons s')
  end.

Definition is_upper (c : ascii) : bool :=
  let n := nat_of_ascii c in (65 <=? n)%nat && (n <=? 90)%nat.

Definition lower_char (c : ascii) : ascii :=
  if is_upper c then ascii_of_nat (nat_of_ascii c + 32) else c.

(** The first test of [strings.ToLower]: every byte of [s] is below
    [utf8.RuneSelf] (0x80). *)
Definition isASCII (s : string) : bool :=
  forallb (fun c => (nat_of_ascii c <? 128)%nat) (list_ascii_of_string s).

(** [strings.ToLower(s)] along the path the library takes when [isASCII s]:
    the letters [A]..[Z] are mapped to [a]..[z]; every other byte is kept.
    On a string with a byte from 0x80 on the library maps [unicode.ToLower]
    over the runes instead, through the case tables of package [unicode];
    those tables are not embedded, so whatever is stated below about the
    value of [ToLower], or of a name derived from it, is stated for ASCII
    strings. *)
Fixpoint ToLower (s : string) : string :=
  match s with
  | "" => ""
  | String c s' => String (lower_char c) (ToLower s')
  end.

(** [strings.Join(elems, sep)]. *)
Fixpoint Join (elems : list string) (sep : string) : string :=
  match elems with
  | [] => ""
  | [e] => e
  | e :: rest => e +:+ sep +:+ Join rest sep
  end.

End strings.

Import strings.

(** [fmt.Sprintf("%d", n)] for a Go [int]. *)
Definition fmt_d (n : Z) : string := pretty n.

(** [strconv.FormatBool]. *)
Definition FormatBool (b : bool) : string := if b then "true" else "false".

(** ** The configuration model (package [api]) *)

(** Modelled from the spec: the declaration of [api.SystemNetworkRoute] is
    in package [api], outside [networkd.go]; section 3 of the design gives
    the fields [To] and [Via]. *)
Record SystemNetworkRoute := {
  To : string;
  Via : string
}.

(** Modelled from the spec: the declaration of [api.SystemNetworkInterface]
    is in package [api], outside [networkd.go]; the fields are those of
    section 3 of the design, which are the ones [networkd.go] reads. *)
Record SystemNetworkInterface := {
  iName : string;
  iHwaddr : string;
  iMTU : Z;
  iAddresses : list string;
  iRoutes : list SystemNetworkRoute;
  iLLDP : bool;
  iVLAN : Z;
  iVLANTags : list Z
}.

(** Modelled from the spec: the declaration of [api.SystemNetworkBond] is
    in package [api], outside [networkd.go]; it mirrors the interface and
    adds [Members] and [Mode] (section 3). *)
Record SystemNetworkBond := {
  bName : string;
  bHwaddr : string;
  bMTU : Z;
  bAddresses : list string;
  bRoutes : list SystemNetworkRoute;
  bLLDP : bool;
  bVLAN : Z;
  bVLANTags : list Z;
  bMembers : list string;
  bMode : string
}.

(** Modelled from the spec: the declaration of [api.SystemNetworkVLAN] is in
    package [api], outside [networkd.go] (section 3). *)
Record SystemNetworkVLAN := {
  vName : string;
  vParent : string;
  vID : Z;
  vAddresses : list string;
  vRoutes : list SystemNetworkRoute;
  vMTU : Z
}.

(** Modelled from the spec: [api.SystemNetworkDNS] (section 3). *)
Record SystemNetworkDNS := {
  Hostname : string;
  Domain : string;
  SearchDomains : list string;
  Nameservers : list string
}.

(** Modelled from the spec: [api.SystemNetworkNTP] (section 3). *)
Record SystemNetworkNTP := {
  Timeservers : list string
}.

(** Modelled from the spec: [api.SystemNetworkProxy]; the program only
    passes it on to [UpdateEnvironment], so its content is kept opaque. *)
Record SystemNetworkProxy := {
  proxySettings : list (string * string)
}.

(** Modelled from the spec: [api.SystemNetworkConfig], the root aggregate of
    section 3.  [DNS], [NTP] and [Proxy] are pointers that may be nil. *)
Record SystemNetworkConfig := {
  Interfaces : list SystemNetworkInterface;
  Bonds : list SystemNetworkBond;
  VLANs : list SystemNetworkVLAN;
  DNS : option SystemNetworkDNS;
  NTP : option SystemNetworkNTP;
  Proxy : option SystemNetworkProxy
}.

(** [networkdConfigFile]: a file name and its contents. *)
Record networkdConfigFile := {
  Name : string;
  Contents : string
}.

(** ** The synthesizer: pure renderers *)

(** [strings.ToLower(strings.ReplaceAll(hwaddr, ":", ""))]; like [ToLower],
    it follows the library on ASCII addresses. *)
Definition strippedHwaddr (hwaddr : string) : string :=
  ToLower (RemoveColons hwaddr).

(** The [.link] template shared by interfaces and bond members. *)
Definition linkContents (hwaddr : string) : string :=
  "[Match]" +:+ LF +:+
  "PermanentMACAddress=" +:+ hwaddr +:+ LF +:+
  LF +:+
  "[Link]" +:+ LF +:+
  "NamePolicy=" +:+ LF +:+
  "Name=en" +:+ strippedHwaddr hwaddr +:+ LF.

Definition interfaceLink (i : SystemNetworkInterface) : networkdConfigFile :=
  {| Name := "00-en" +:+ strippedHwaddr (iHwaddr i) +:+ ".link";
     Contents := linkContents (iHwaddr i) |}.

Definition memberLink (member : string) : networkdConfigFile :=
  {| Name := "01-en" +:+ strippedHwaddr member +:+ ".link";
     Contents := linkContents member |}.

(** [generateLinkFileContents]: one file per interface, then one per bond
    member, in declaration order. *)
Definition generateLinkFileContents (networkCfg : SystemNetworkConfig)
  : list networkdConfigFile :=
  let ret := [] in
  let ret := foldl (fun ret i => ret ++ [interfaceLink i]) ret (Interfaces networkCfg) in
  let ret := foldl (fun ret b =>
                      foldl (fun ret member => ret ++ [memberLink member]) ret (bMembers b))
                   ret (Bonds networkCfg) in
  ret.

(** [mtuString]: empty, or [MTUBytes=<mtu>] when the MTU is set. *)
Definition mtuString (mtu : Z) : string :=
  if mtu =? 0 then "" else "MTUBytes=" +:+ fmt_d mtu.

(** The bridge [.netdev] template (interfaces and bonds). *)
Definition bridgeNetdev (name mac mtu : string) : string :=
  "[NetDev]" +:+ LF +:+
  "Name=" +:+ name +:+ LF +:+
  "Kind=bridge" +:+ LF +:+
  "MACAddress=" +:+ mac +:+ LF +:+
  mtu +:+ LF +:+
  LF +:+
  "[Bridge]" +:+ LF +:+
  "VLANFiltering=true" +:+ LF.

Definition bondNetdev (stripped mac mtu mode : string) : string :=
  "[NetDev]" +:+ LF +:+
  "Name=bn" +:+ stripped +:+ LF +:+
  "Kind=bond" +:+ LF +:+
  "MACAddress=" +:+ mac +:+ LF +:+
  mtu +:+ LF +:+
  LF +:+
  "[Bond]" +:+ LF +:+
  "Mode=" +:+ mode +:+ LF.

Definition vlanNetdev (name mac mtu : string) : string :=
  "[NetDev]" +:+ LF +:+
  "Name=" +:+ name +:+ LF +:+
  "Kind=veth" +:+ LF +:+
  "MACAddress=" +:+ mac +:+ LF +:+
  mtu +:+ LF +:+
  LF +:+
  "[Peer]" +:+ LF +:+
  "Name=vl" +:+ name +:+ LF.

(** [bondMacAddr := b.Hwaddr; if bondMacAddr == "" { bondMacAddr = b.Members[0] }].
    Indexing an empty [Members] slice is a run-time panic: [None]. *)
Definition bondMacAddr (b : SystemNetworkBond) : option string :=
  if String.eqb (bHwaddr b) "" then head (bMembers b) else Some (bHwaddr b).

(** The first loop of the VLAN parent resolution: scan the interfaces, stop
    at the first one whose name is the parent. *)
Fixpoint interfaceParentMAC (parent : string) (ifaces : list SystemNetworkInterface)
  : string :=
  match ifaces with
  | [] => ""
  | i :: rest =>
      if String.eqb (iName i) parent then iHwaddr i
      else interfaceParentMAC parent rest
  end.

(** The second loop: scan the bonds, stop at the first one whose name is the
    parent; its MAC is the override or else [Members[0]]. *)
Fixpoint bondParentMAC (parent : string) (bonds : list SystemNetworkBond)
  : option string :=
  match bonds with
  | [] => Some ""
  | b :: rest =>
      if String.eqb (bName b) parent then
        (if negb (String.eqb (bHwaddr b) "") then Some (bHwaddr b)
         else head (bMembers b))
      else bondParentMAC parent rest
  end.

(** [parentMACAddress] of a VLAN: the bonds are scanned only when the scan of
    the interfaces left the address empty. *)
Definition parentMACAddress (networkCfg : SystemNetworkConfig) (v : SystemNetworkVLAN)
  : option string :=
  let parentMAC := interfaceParentMAC (vParent v) (Interfaces networkCfg) in
  if String.eqb parentMAC "" then bondParentMAC (vParent v) (Bonds networkCfg)
  else Some parentMAC.

Definition interfaceNetdev (i : SystemNetworkInterface) : networkdConfigFile :=
  {| Name := "10-br" +:+ strippedHwaddr (iHwaddr i) +:+ ".netdev";
     Contents := bridgeNetdev (iName i) (iHwaddr i) (mtuString (iMTU i)) |}.

Definition bondNetdevs (b : SystemNetworkBond) (mac : string) : list networkdConfigFile :=
  [ {| Name := "11-bn" +:+ strippedHwaddr mac +:+ ".netdev";
       Contents := bondNetdev (strippedHwaddr mac) mac (mtuString (bMTU b)) (bMode b) |};
    {| Name := "11-br" +:+ strippedHwaddr mac +:+ ".netdev";
       Contents := bridgeNetdev (bName b) mac (mtuString (bMTU b)) |} ].

Definition vlanNetdevFile (v : SystemNetworkVLAN) (mac : string) : networkdConfigFile :=
  {| Name := "12-" +:+ vName v +:+ ".netdev";
     Contents := vlanNetdev (vName v) mac (mtuString (vMTU v)) |}.

(** [generateNetdevFileContents]; [None] when the function panics. *)
Definition generateNetdevFileContents (networkCfg : SystemNetworkConfig)
  : option (list networkdConfigFile) :=
  let ret := [] in
  let ret := foldl (fun ret i => ret ++ [interfaceNetdev i]) ret (Interfaces networkCfg) in
  ret ← foldl (fun acc b =>
                 ret ← acc; mac ← bondMacAddr b; Some (ret ++ bondNetdevs b mac))
              (Some ret) (Bonds networkCfg);
  foldl (fun acc v =>
           ret ← acc; mac ← parentMACAddress networkCfg v;
           Some (ret ++ [vlanNetdevFile v mac]))
        (Some ret) (VLANs networkCfg).

(** [processAddresses]. *)
Definition processAddresses (addresses : list string) : string :=
  let ret := "" in
  let ret :=
    if negb (length addresses =? 0)%nat then ret +:+ "LinkLocalAddressing=ipv6" +:+ LF
    else (ret +:+ "LinkLocalAddressing=no" +:+ LF) +:+ "ConfigureWithoutCarrier=yes" +:+ LF in
  let '(ret, hasDHCP4, hasDHCP6, acceptIPv6RA) :=
    foldl (fun '(ret, hasDHCP4, hasDHCP6, acceptIPv6RA) addr =>
             if String.eqb addr "dhcp4" then (ret, true, hasDHCP6, acceptIPv6RA)
             else if String.eqb addr "dhcp6" then (ret, hasDHCP4, true, acceptIPv6RA)
             else if String.eqb addr "slaac" then (ret, hasDHCP4, hasDHCP6, true)
             else (ret +:+ "Address=" +:+ addr +:+ LF, hasDHCP4, hasDHCP6, acceptIPv6RA))
          (ret, false, false, false) addresses in
  let ret :=
    if acceptIPv6RA then ret +:+ "IPv6AcceptRA=true" +:+ LF
    else ret +:+ "IPv6AcceptRA=false" +:+ LF in
  if hasDHCP4 && hasDHCP6 then ret +:+ "DHCP=yes" +:+ LF
  else if hasDHCP4 then ret +:+ "DHCP=ipv4" +:+ LF
  else if hasDHCP6 then ret +:+ "DHCP=ipv6" +:+ LF
  else ret.

(** [processRoutes]. *)
Definition processRoutes (routes : list SystemNetworkRoute) : string :=
  foldl (fun ret route =>
           let ret := ret +:+ LF +:+ "[Route]" +:+ LF in
           let ret :=
             if String.eqb (Via route) "dhcp4" then ret +:+ "Gateway=_dhcp4" +:+ LF
             else if String.eqb (Via route) "slaac" then ret +:+ "Gateway=_ipv6ra" +:+ LF
             else ret +:+ "Gateway=" +:+ Via route +:+ LF in
           ret +:+ "Destination=" +:+ To route +:+ LF)
        "" routes.

(** [generateNetworkSectionContents]. *)
Definition generateNetworkSectionContents
  (dns : option SystemNetworkDNS) (ntp : option SystemNetworkNTP) : string :=
  let ret := "" in
  let ret :=
    match dns with
    | Some dns =>
        let ret :=
          if (0 <? length (SearchDomains dns))%nat
          then ret +:+ "Domains=" +:+ Join (SearchDomains dns) " " +:+ LF
          else ret in
        foldl (fun ret ns => ret +:+ "DNS=" +:+ ns +:+ LF) ret (Nameservers dns)
    | None => ret
    end in
  match ntp with
  | Some ntp => foldl (fun ret ts => ret +:+ "NTP=" +:+ ts +:+ LF) ret (Timeservers ntp)
  | None => ret
  end.

(** [generateTimesyncContents]. *)
Definition generateTimesyncContents (ntp : SystemNetworkNTP) : string :=
  if (length (Timeservers ntp) =? 0)%nat then ""
  else "[Time]" +:+ LF +:+ "FallbackNTP=" +:+ Join (Timeservers ntp) " " +:+ LF.

(** ** Package [slices] on [[]int] *)
Module slices.

Fixpoint insert_sorted (x : Z) (s : list Z) : list Z :=
  match s with
  | [] => [x]
  | y :: rest => if x <=? y then x :: s else y :: insert_sorted x rest
  end.

(** [slices.Sort]: the ascending rearrangement of the slice (on integers
    the result does not depend on the sorting algorithm). *)
Definition Sort (s : list Z) : list Z := foldr insert_sorted [] s.

Fixpoint compact_after (last : Z) (s : list Z) : list Z :=
  match s with
  | [] => []
  | x :: rest =>
      if x =? last then compact_after last rest else x :: compact_after x rest
  end.

(** [slices.Compact]: every run of equal consecutive elements is replaced
    by its first element. *)
Definition Compact (s : list Z) : list Z :=
  match s with
  | [] => []
  | x :: rest => x :: compact_after x rest
  end.

End slices.

(** The tags a bridge carries, as [generateBridgeVLANContents] collects them
    before rendering: primary VLAN (when set), additional tags, then the ID
    of every VLAN parented to the bridge; sorted and compacted. *)
Definition bridgeVLANTags (bridgeName : string) (specificVLAN : Z)
  (additionalVLANTags : list Z) (vlans : list SystemNetworkVLAN) : list Z :=
  let vlanTags := [] in
  let vlanTags := if negb (specificVLAN =? 0) then vlanTags ++ [specificVLAN] else vlanTags in
  let vlanTags := vlanTags ++ additionalVLANTags in
  let vlanTags :=
    foldl (fun vlanTags vlan =>
             if String.eqb (vParent vlan) bridgeName then vlanTags ++ [vID vlan]
             else vlanTags)
          vlanTags vlans in
  slices.Compact (slices.Sort vlanTags).

(** [generateBridgeVLANContents]. *)
Definition generateBridgeVLANContents (bridgeName : string) (specificVLAN : Z)
  (additionalVLANTags : list Z) (vlans : list SystemNetworkVLAN) : string :=
  let vlanTags := bridgeVLANTags bridgeName specificVLAN additionalVLANTags vlans in
  let ret := "" in
  if (0 <? length vlanTags)%nat then
    let ret :=
      if negb (specificVLAN =? 0) then
        ((ret +:+ LF +:+ "[BridgeVLAN]" +:+ LF)
           +:+ "PVID=" +:+ fmt_d specificVLAN +:+ LF)
          +:+ "EgressUntagged=" +:+ fmt_d specificVLAN +:+ LF
      else ret in
    foldl (fun ret tag =>
             (ret +:+ LF +:+ "[BridgeVLAN]" +:+ LF) +:+ "VLAN=" +:+ fmt_d tag +:+ LF)
          ret vlanTags
  else ret.

(** [generateLinkSectionContents]. *)
Definition generateLinkSectionContents (addresses : list string) : string :=
  if (length addresses =? 0)%nat then "RequiredForOnline=no"
  else
    let '(expectsIPv4, expectsIPv6) :=
      foldl (fun '(expectsIPv4, expectsIPv6) addr =>
               if String.eqb addr "dhcp4" then (true, expectsIPv6)
               else if String.eqb addr "dhcp6" || String.eqb addr "slaac"
               then (expectsIPv4, true)
               else
                 let expectsIPv4 := if Contains addr "." then true else expectsIPv4 in
                 let expectsIPv6 := if Contains addr ":" then true else expectsIPv6 in
                 (expectsIPv4, expectsIPv6))
            (false, false) addresses in
    if expectsIPv4 && expectsIPv6
    then "RequiredForOnline=yes" +:+ LF +:+ "RequiredFamilyForOnline=both"
    else if expectsIPv4
    then "RequiredForOnline=yes" +:+ LF +:+ "RequiredFamilyForOnline=ipv4"
    else "RequiredForOnline=yes" +:+ LF +:+ "RequiredFamilyForOnline=ipv6".

(** The addressing policy shared by interfaces, bonds and VLANs: the
    [[Match]]/[[Link]]/[[DHCP]]/[[Network]] template, then the addresses and,
    when there are any, the routes. *)
Definition policyContents (networkCfg : SystemNetworkConfig) (name : string)
  (addresses : list string) (routes : list SystemNetworkRoute) : string :=
  let cfgString :=
    "[Match]" +:+ LF +:+
    "Name=" +:+ name +:+ LF +:+
    LF +:+
    "[Link]" +:+ LF +:+
    generateLinkSectionContents addresses +:+ LF +:+
    LF +:+
    "[DHCP]" +:+ LF +:+
    "ClientIdentifier=mac" +:+ LF +:+
    "RouteMetric=100" +:+ LF +:+
    "UseMTU=true" +:+ LF +:+
    LF +:+
    "[Network]" +:+ LF +:+
    generateNetworkSectionContents (DNS networkCfg) (NTP networkCfg) in
  let cfgString := cfgString +:+ processAddresses addresses in
  if (0 <? length routes)%nat then cfgString +:+ processRoutes routes else cfgString.

Definition interfaceNetworks (networkCfg : SystemNetworkConfig)
  (i : SystemNetworkInterface) : list networkdConfigFile :=
  [ {| Name := "20-" +:+ iName i +:+ ".network";
       Contents := policyContents networkCfg (iName i) (iAddresses i) (iRoutes i) |};
    {| Name := "20-en" +:+ strippedHwaddr (iHwaddr i) +:+ ".network";
       Contents :=
         ("[Match]" +:+ LF +:+
          "Name=en" +:+ strippedHwaddr (iHwaddr i) +:+ LF +:+
          LF +:+
          "[Network]" +:+ LF +:+
          "Bridge=" +:+ iName i +:+ LF +:+
          "LLDP=" +:+ FormatBool (iLLDP i) +:+ LF +:+
          "EmitLLDP=" +:+ FormatBool (iLLDP i) +:+ LF)
         +:+ generateBridgeVLANContents (iName i) (iVLAN i) (iVLANTags i)
               (VLANs networkCfg) |} ].

Definition bondMemberNetwork (b : SystemNetworkBond) (stripped : string)
  (index : nat) (member : string) : networkdConfigFile :=
  {| Name := "21-bn" +:+ stripped +:+ "-dev" +:+ fmt_d (Z.of_nat index) +:+ ".network";
     Contents :=
       "[Match]" +:+ LF +:+
       "Name=en" +:+ strippedHwaddr member +:+ LF +:+
       LF +:+
       "[Network]" +:+ LF +:+
       "Bond=bn" +:+ stripped +:+ LF +:+
       "LLDP=" +:+ FormatBool (bLLDP b) +:+ LF +:+
       "EmitLLDP=" +:+ FormatBool (bLLDP b) +:+ LF |}.

Definition bondNetworks (networkCfg : SystemNetworkConfig)
  (b : SystemNetworkBond) (mac : string) : list networkdConfigFile :=
  [ {| Name := "21-" +:+ bName b +:+ ".network";
       Contents := policyContents networkCfg (bName b) (bAddresses b) (bRoutes b) |};
    {| Name := "21-bn" +:+ strippedHwaddr mac +:+ ".network";
       Contents :=
         ("[Match]" +:+ LF +:+
          "Name=bn" +:+ strippedHwaddr mac +:+ LF +:+
          LF +:+
          "[Network]" +:+ LF +:+
          "Bridge=" +:+ bName b +:+ LF)
         +:+ generateBridgeVLANContents (bName b) (bVLAN b) (bVLANTags b)
               (VLANs networkCfg) |} ]
  ++ imap (bondMemberNetwork b (strippedHwaddr mac)) (bMembers b).

Definition vlanNetworks (networkCfg : SystemNetworkConfig)
  (v : SystemNetworkVLAN) : list networkdConfigFile :=
  [ {| Name := "22-vl" +:+ vName v +:+ ".network";
       Contents :=
         "[Match]" +:+ LF +:+
         "Name=vl" +:+ vName v +:+ LF +:+
         LF +:+
         "[Network]" +:+ LF +:+
         "Bridge=" +:+ vParent v +:+ LF +:+
         LF +:+
         "[BridgeVLAN]" +:+ LF +:+
         "VLAN=" +:+ fmt_d (vID v) +:+ LF +:+
         "PVID=" +:+ fmt_d (vID v) +:+ LF +:+
         "EgressUntagged=" +:+ fmt_d (vID v) +:+ LF |};
    {| Name := "22-" +:+ vName v +:+ ".network";
       Contents := policyContents networkCfg (vName v) (vAddresses v) (vRoutes v) |} ].

(** [generateNetworkFileContents]; [None] when the function panics on a bond
    that has neither an address override nor a member. *)
Definition generateNetworkFileContents (networkCfg : SystemNetworkConfig)
  : option (list networkdConfigFile) :=
  let ret := [] in
  let ret := foldl (fun ret i => ret ++ interfaceNetworks networkCfg i)
                   ret (Interfaces networkCfg) in
  ret ← foldl (fun acc b =>
                 ret ← acc; mac ← bondMacAddr b;
                 Some (ret ++ bondNetworks networkCfg b mac))
              (Some ret) (Bonds networkCfg);
  Some (foldl (fun ret v => ret ++ vlanNetworks networkCfg v) ret (VLANs networkCfg)).

(** ** The regular expression of [getNumberOfIPs]

    [regexp.MustCompile(`inet6? (.+)/\d+ `)] under Go's leftmost-first
    semantics, on the bytes of the subject.  Every function returns the text
    captured by the group together with the number of bytes the match
    consumed. *)
Module ipAddressRegex.

Definition is_digit (c : ascii) : bool :=
  let n := nat_of_ascii c in (48 <=? n)%nat && (n <=? 57)%nat.

(** [\d* ] (digits as long as there are any, then a space): the number of
    bytes consumed. *)
Fixpoint digits_space (s : string) : option nat :=
  match s with
  | "" => None
  | String c s' =>
      if is_digit c then S <$> digits_space s'
      else if Ascii.eqb c " "%char then Some 1%nat
      else None
  end.

(** [/\d+ ]. *)
Definition slash_digits_space (s : string) : option nat :=
  match s with
  | String c1 (String c2 s') =>
      if Ascii.eqb c1 "/"%char && is_digit c2
      then (fun n => S (S n)) <$> digits_space s'
      else None
  | _ => None
  end.

(** [.*/\d+ ]: the star is greedy, so one more byte is taken whenever the
    rest of the pattern still matches afterwards; a dot does not match a
    line feed. *)
Fixpoint dots_then_tail (s : string) : option (string * nat) :=
  let here := (fun n => ("", n)) <$> slash_digits_space s in
  match s with
  | "" => here
  | String c s' =>
      if Ascii.eqb c LF_char then here
      else match dots_then_tail s' with
           | Some (captured, n) => Some (String c captured, S n)
           | None => here
           end
  end.

(** [(.+)/\d+ ]. *)
Definition group_then_tail (s : string) : option (string * nat) :=
  match s with
  | "" => None
  | String c s' =>
      if Ascii.eqb c LF_char then None
      else '(captured, n) ← dots_then_tail s'; Some (String c captured, S n)
  end.

(** The whole pattern, anchored at the start of [s]. *)
Definition match_here (s : string) : option (string * nat) :=
  match s with
  | String "i" (String "n" (String "e" (String "t" rest))) =>
      match rest with
      | String "6" (String " " rest') =>
          '(captured, n) ← group_then_tail rest'; Some (captured, (6 + n)%nat)
      | String " " rest' =>
          '(captured, n) ← group_then_tail rest'; Some (captured, (5 + n)%nat)
      | _ => None
      end
  | _ => None
  end.

(** The scan of [FindAllStringSubmatch(s, -1)]: successive non-overlapping
    matches, leftmost first; [skip] counts the bytes of the previous match
    still to be passed over. *)
Fixpoint scan (skip : nat) (s : string) : list string :=
  match s with
  | "" => []
  | String _ s' =>
      match skip with
      | S skip' => scan skip' s'
      | O =>
          match match_here s with
          | Some (captured, n) => captured :: scan (Nat.pred n) s'
          | None => scan 0 s'
          end
      end
  end.

(** The first capture group ([addr[1]]) of every match. *)
Definition FindAllStringSubmatch (s : string) : list string := scan 0 s.

End ipAddressRegex.

(** ** The environment: clock, subprocesses, file system, sibling units

    Every interaction of the program with the outside is a [Call]; the
    [history] is the sequence of calls made so far, oldest first.  What a
    call returns is decided by the environment, as an arbitrary function of
    the history that precedes it. *)

(** A Go [error] value: built by [errors.New], or handed back by a
    collaborator (subprocess, file system, sibling function). *)
Inductive error : Type :=
| errors_New (msg : string)
| external_error (detail : string).

(** File modes, written [0o644] and [0o755] in the source. *)
Definition perm_0o644 : Z := 6 * 64 + 4 * 8 + 4.
Definition perm_0o755 : Z := 7 * 64 + 5 * 8 + 5.

(** [time.Duration]: a count of nanoseconds. *)
Definition Millisecond : Z := 1000000.
Definition Second : Z := 1000 * Millisecond.

Inductive Call : Type :=
| CallNow                                          (* time.Now() *)
| CallSleep (d : Z)                                (* time.Sleep(d) *)
| CallRun (argv : list string)                     (* subprocess.RunCommandContext(ctx, argv...) *)
| CallSetHostname (hostname : string)              (* SetHostname(ctx, hostname) *)
| CallUpdateEnvironment (proxy : option SystemNetworkProxy)
| CallRestartUnit (unit : string)                  (* RestartUnit(ctx, unit) *)
| CallRemoveAll (path : string)                    (* os.RemoveAll *)
| CallMkdir (path : string) (perm : Z)             (* os.Mkdir *)
| CallWriteFile (path : string) (data : string) (perm : Z)   (* os.WriteFile *)
| CallRemove (path : string).                      (* os.Remove *)

Abbreviation history := (list Call).

Record Env : Type := {
  (** the instant [time.Now()] reads after the given history (nanoseconds) *)
  clock : history -> Z;
  (** output or error of a subprocess started after the given history; a
      cancelled context shows as an error *)
  command_result : history -> list string -> string + error;
  (** the [error] result (nil is [None]) of every other call *)
  call_error : history -> Call -> option error;
  (** the order in which a [range] over the device map visits its entries *)
  range_order : history -> list (string * Z) -> list (string * Z);
  range_order_perm : forall h l, range_order h l ≡ₚ l
}.

(** How a computation ends: it returns a value, it panics, or the model ran
    out of loop iterations ([Unfinished]). *)
Inductive outcome (A : Type) : Type :=
| Returns (a : A) (h : history)
| Panics (h : history)
| Unfinished.
Arguments Returns {A} a h.
Arguments Panics {A} h.
Arguments Unfinished {A}.

Definition M (A : Type) : Type := history -> outcome A.

#[global] Instance M_ret : MRet M := fun A a h => Returns a h.
#[global] Instance M_bind : MBind M := fun A B f m h =>
  match m h with
  | Returns a h' => f a h'
  | Panics h' => Panics h'
  | Unfinished => Unfinished
  end.

(** Check an [error] result the Go way: [if err != nil { return err }]. *)
Definition orReturn (step : M (option error)) (rest : M (option error))
  : M (option error) :=
  err ← step;
  match err with
  | Some e => mret (Some e)
  | None => rest
  end.
Notation "'try' step ';;;' rest" := (orReturn step rest)
  (at level 100, step at next level, rest at level 200, right associativity,
   format "'[v' 'try'  step  ';;;' '/' rest ']'").

Section Effects.
Context (env : Env).

Definition time_Now : M Z := fun h => Returns (clock env h) (h ++ [CallNow]).

Definition time_Sleep (d : Z) : M unit := fun h => Returns tt (h ++ [CallSleep d]).

Definition RunCommandContext (argv : list string) : M (string + error) :=
  fun h => Returns (command_result env h argv) (h ++ [CallRun argv]).

(** A call whose only result is an [error]. *)
Definition perform (c : Call) : M (option error) :=
  fun h => Returns (call_error env h c) (h ++ [c]).

Definition SetHostname (hostname : string) := perform (CallSetHostname hostname).
Definition UpdateEnvironment (proxy : option SystemNetworkProxy) :=
  perform (CallUpdateEnvironment proxy).
Definition RestartUnit (unit : string) := perform (CallRestartUnit unit).
Definition os_RemoveAll (path : string) := perform (CallRemoveAll path).
Definition os_Mkdir (path : string) (perm : Z) := perform (CallMkdir path perm).
Definition os_WriteFile (path data : string) (perm : Z) :=
  perform (CallWriteFile path data perm).
Definition os_Remove (path : string) := perform (CallRemove path).

(** A panic raised by a pure renderer. *)
Definition orPanic {A} (r : option A) : M A :=
  fun h => match r with Some a => Returns a h | None => Panics h end.

(** *** [waitForUdevInterfaceRename] *)

Definition renameTimeout : error :=
  errors_New "timed out waiting for udev to rename interface(s)".

Definition udevadmTrigger : list string := ["udevadm"; "trigger"; "--action=add"].
Definition udevadmSettle : list string := ["udevadm"; "settle"].
Definition journalctlRenamed : list string :=
  ["journalctl"; "-t"; "kernel"; "-g"; "en[[:xdigit:]]{12}: renamed from "].

(** The [for] loop; [fuel] bounds the number of iterations. *)
Fixpoint renameLoop (fuel : nat) (endTime : Z) : M (option error) :=
  match fuel with
  | O => fun _ => Unfinished
  | S fuel =>
      now ← time_Now;
      if endTime <? now then mret (Some renameTimeout)
      else
        r ← RunCommandContext udevadmTrigger;
        match r with
        | inr err => mret (Some err)
        | inl _ =>
            r ← RunCommandContext udevadmSettle;
            match r with
            | inr err => mret (Some err)
            | inl _ =>
                r ← RunCommandContext journalctlRenamed;
                match r with
                | inl _ => mret None
                | inr _ => time_Sleep (500 * Millisecond);; renameLoop fuel endTime
                end
            end
        end
  end.

Definition waitForUdevInterfaceRename (fuel : nat) (timeout : Z) : M (option error) :=
  now ← time_Now;
  let endTime := now + timeout in
  renameLoop fuel endTime.

(** *** [waitForNetworkOnline] *)

Definition isOnline (name : string) : M bool :=
  r ← RunCommandContext ["networkctl"; "status"; name];
  match r with
  | inr _ => mret false
  | inl output => mret (Contains output "Online state: online")
  end.

(** The counting loop of [getNumberOfIPs] over the matches. *)
Definition countIPs (matches : list string) : Z :=
  foldl (fun numIPs addr => if HasPrefix addr "fe80:" then numIPs else numIPs + 1)
        0 matches.

Definition getNumberOfIPs (name : string) : M Z :=
  r ← RunCommandContext ["ip"; "address"; "show"; name];
  match r with
  | inr _ => mret (-1)
  | inl output => mret (countIPs (ipAddressRegex.FindAllStringSubmatch output))
  end.

(** One step of the three loops that fill [devicesToCheck]. *)
Definition checkDevice (devicesToCheck : gmap string Z) (name : string)
  (addresses : list string) : gmap string Z :=
  if (length addresses =? 0)%nat then devicesToCheck
  else <[name := Z.of_nat (length addresses)]> devicesToCheck.

Definition devicesToCheck (networkCfg : SystemNetworkConfig) : gmap string Z :=
  let devices := ∅ in
  let devices := foldl (fun m i => checkDevice m (iName i) (iAddresses i))
                       devices (Interfaces networkCfg) in
  let devices := foldl (fun m b => checkDevice m (bName b) (bAddresses b))
                       devices (Bonds networkCfg) in
  let devices := foldl (fun m v => checkDevice m (vName v) (vAddresses v))
                       devices (VLANs networkCfg) in
  devices.

(** The inner [for name, numIPs := range devicesToCheck] with its [break],
    over the entries in the order the range visits them. *)
Fixpoint allDevicesOnline (devices : list (string * Z)) : M bool :=
  match devices with
  | [] => mret true
  | (name, numIPs) :: rest =>
      online ← isOnline name;
      if negb online then mret false
      else
        n ← getNumberOfIPs name;
        if negb (n =? numIPs) then mret false
        else allDevicesOnline rest
  end.

Definition rangeMap (devices : gmap string Z) : M (list (string * Z)) :=
  fun h => Returns (range_order env h (map_to_list devices)) h.

Definition onlineTimeout : error :=
  errors_New "timed out waiting for network to come online".

Fixpoint onlineLoop (fuel : nat) (endTime : Z) (devices : gmap string Z)
  : M (option error) :=
  match fuel with
  | O => fun _ => Unfinished
  | S fuel =>
      now ← time_Now;
      if endTime <? now then mret (Some onlineTimeout)
      else
        entries ← rangeMap devices;
        allOnline ← allDevicesOnline entries;
        if (allOnline : bool) then mret None
        else time_Sleep (500 * Millisecond);; onlineLoop fuel endTime devices
  end.

Definition waitForNetworkOnline (fuel : nat) (networkCfg : SystemNetworkConfig)
  (timeout : Z) : M (option error) :=
  now ← time_Now;
  let endTime := now + timeout in
  onlineLoop fuel endTime (devicesToCheck networkCfg).

(** *** [generateNetworkConfiguration] *)

(** Package-level names declared in other files of package [systemd]. *)
Context (SystemdNetworkConfigPath SystemdTimesyncConfigFile : string).
Context (filepath_Join : string -> string -> string).

(** [for _, cfg := range files { err := os.WriteFile(...); if err != nil { return err } }] *)
Fixpoint writeFiles (files : list networkdConfigFile) : M (option error) :=
  match files with
  | [] => mret None
  | cfg :: rest =>
      try os_WriteFile (filepath_Join SystemdNetworkConfigPath (Name cfg))
                       (Contents cfg) perm_0o644 ;;;
      writeFiles rest
  end.

(** The tail of the function, from the [ntpCfg := ""] line on. *)
Definition writeTimesync (networkCfg : SystemNetworkConfig) : M (option error) :=
  let ntpCfg :=
    match NTP networkCfg with
    | Some ntp => generateTimesyncContents ntp
    | None => ""
    end in
  try (match NTP networkCfg with
       | Some _ =>
           if negb (String.eqb ntpCfg "")
           then os_WriteFile SystemdTimesyncConfigFile ntpCfg perm_0o644
           else mret None
       | None => mret None
       end) ;;;
  (if bool_decide (NTP networkCfg = None) || String.eqb ntpCfg ""
   then _ ← os_Remove SystemdTimesyncConfigFile; mret None
   else mret None).

(** The head of the function, up to the [.network] files: wipe the
    directory, recreate it, write the three classes of artifacts. *)
Definition writeArtifacts (networkCfg : SystemNetworkConfig) : M (option error) :=
  try os_RemoveAll SystemdNetworkConfigPath ;;;
  try os_Mkdir SystemdNetworkConfigPath perm_0o755 ;;;
  try writeFiles (generateLinkFileContents networkCfg) ;;;
  try (files ← orPanic (generateNetdevFileContents networkCfg); writeFiles files) ;;;
  (files ← orPanic (generateNetworkFileContents networkCfg); writeFiles files).

Definition generateNetworkConfiguration (networkCfg : SystemNetworkConfig)
  : M (option error) :=
  try writeArtifacts networkCfg ;;;
  writeTimesync networkCfg.

(** *** [ApplyNetworkConfiguration] *)

(** The hostname handed to [SetHostname]. *)
Definition targetHostname (dns : option SystemNetworkDNS) : string :=
  let hostname := "" in
  match dns with
  | Some dns =>
      if negb (String.eqb (Hostname dns) "") then
        let hostname := Hostname dns in
        if negb (String.eqb (Domain dns) "")
        then hostname +:+ "." +:+ Domain dns
        else hostname
      else hostname
  | None => hostname
  end.

Definition noConfiguration : error := errors_New "no network configuration provided".

Definition ApplyNetworkConfiguration (fuel : nat)
  (networkCfg : option SystemNetworkConfig) (timeout : Z) : M (option error) :=
  match networkCfg with
  | None => mret (Some noConfiguration)
  | Some networkCfg =>
      let hostname := targetHostname (DNS networkCfg) in
      try SetHostname hostname ;;;
      try UpdateEnvironment (Proxy networkCfg) ;;;
      try generateNetworkConfiguration networkCfg ;;;
      try waitForUdevInterfaceRename fuel (5 * Second) ;;;
      try RestartUnit "systemd-networkd" ;;;
      try RestartUnit "systemd-timesyncd" ;;;
      waitForNetworkOnline fuel networkCfg timeout
  end.

End Effects.

(** ** Notions used to state the properties *)

(** The lines of a text: the pieces between line feeds. *)
Fixpoint lines (s : string) : list string :=
  match s with
  | "" => [""]
  | String c s' =>
      if Ascii.eqb c LF_char then "" :: lines s'
      else match lines s' with
           | l :: ls => String c l :: ls
           | [] => [String c ""]
           end
  end.

(** A text made of the given lines, each ended by a line feed. *)
Definition unlines (ls : list string) : string :=
  foldr (fun l rest => l +:+ LF +:+ rest) "" ls.

(** The three address tokens; every other entry is a literal address. *)
Definition isLiteral (addr : string) : bool :=
  negb (String.eqb addr "dhcp4" || String.eqb addr "dhcp6" || String.eqb addr "slaac").

(** The [DHCP=] line of the combination table. *)
Definition dhcpLine (dhcp4 dhcp6 : bool) : list string :=
  match dhcp4, dhcp6 with
  | true, true => ["DHCP=yes"]
  | true, false => ["DHCP=ipv4"]
  | false, true => ["DHCP=ipv6"]
  | false, false => []
  end.

(** The lines of a rendered addressing policy, following section 4.1 of the
    design: link-local header, one [Address=] line per literal entry, the
    router-advertisement switch, then the [DHCP=] line of the table. *)
Definition policyLines (addresses : list string) : list string :=
  (match addresses with
   | [] => ["LinkLocalAddressing=no"; "ConfigureWithoutCarrier=yes"]
   | _ => ["LinkLocalAddressing=ipv6"]
   end)
  ++ map (fun addr => "Address=" +:+ addr) (List.filter isLiteral addresses)
  ++ [if existsb (String.eqb "slaac") addresses
      then "IPv6AcceptRA=true" else "IPv6AcceptRA=false"]
  ++ dhcpLine (existsb (String.eqb "dhcp4") addresses)
              (existsb (String.eqb "dhcp6") addresses).

(** An address entry asks for IPv4 / IPv6 connectivity. *)
Definition wantsIPv4 (addr : string) : bool :=
  String.eqb addr "dhcp4" || Contains addr ".".
Definition wantsIPv6 (addr : string) : bool :=
  String.eqb addr "dhcp6" || String.eqb addr "slaac" || Contains addr ":".

(** The [[BridgeVLAN]] blocks of a bridge. *)
Definition pvidBlock (vlan : Z) : string :=
  LF +:+ "[BridgeVLAN]" +:+ LF +:+
  "PVID=" +:+ fmt_d vlan +:+ LF +:+
  "EgressUntagged=" +:+ fmt_d vlan +:+ LF.
Definition tagBlock (tag : Z) : string :=
  LF +:+ "[BridgeVLAN]" +:+ LF +:+ "VLAN=" +:+ fmt_d tag +:+ LF.

(** The concatenation of rendered blocks, in order. *)
Definition concatBlocks (blocks : list string) : string :=
  foldr String.append "" blocks.

(** The tags a bridge has to carry, before any ordering: its primary VLAN
    when set, its additional tags, and the ID of every VLAN parented to it. *)
Definition carriesTag (bridgeName : string) (specificVLAN : Z)
  (additionalVLANTags : list Z) (vlans : list SystemNetworkVLAN) (tag : Z) : Prop :=
  (tag = specificVLAN /\ specificVLAN <> 0)
  \/ In tag additionalVLANTags
  \/ exists vlan, In vlan vlans /\ vParent vlan = bridgeName /\ vID vlan = tag.

(** Names are unique across interfaces, bonds and VLANs (the invariant of
    the configuration model, section 3). *)
Definition deviceNames (networkCfg : SystemNetworkConfig) : list string :=
  map iName (Interfaces networkCfg) ++ map bName (Bonds networkCfg)
  ++ map vName (VLANs networkCfg).
Definition uniqueNames (networkCfg : SystemNetworkConfig) : Prop :=
  NoDup (deviceNames networkCfg).

(** Every device of the configuration with its declared address entries. *)
Definition declaredDevices (networkCfg : SystemNetworkConfig)
  : list (string * list string) :=
  map (fun i => (iName i, iAddresses i)) (Interfaces networkCfg)
  ++ map (fun b => (bName b, bAddresses b)) (Bonds networkCfg)
  ++ map (fun v => (vName v, vAddresses v)) (VLANs networkCfg).

(** The name lookup of a VLAN parent as the design words it: the first
    interface of that name, else the first bond of that name, else empty. *)
Definition lookupParentMAC (networkCfg : SystemNetworkConfig) (parent : string)
  : option string :=
  match List.find (fun i => String.eqb (iName i) parent) (Interfaces networkCfg) with
  | Some i => Some (iHwaddr i)
  | None =>
      match List.find (fun b => String.eqb (bName b) parent) (Bonds networkCfg) with
      | Some b => bondMacAddr b
      | None => Some ""
      end
  end.

(** The calls a computation adds to the history all satisfy [P]. *)
Definition emits {A : Type} (P : Call -> Prop) (m : M A) : Prop :=
  forall h,
    match m h with
    | Returns _ h' | Panics h' => exists calls, h' = h ++ calls /\ Forall P calls
    | Unfinished => True
    end.

(** A computation that always returns. *)
Definition total {A : Type} (m : M A) : Prop :=
  forall h, exists a h', m h = Returns a h'.

(** Calls other than setting the hostname. *)
Definition notHostnameCall (c : Call) : Prop :=
  forall hostname, c <> CallSetHostname hostname.

Definition isFileCall (c : Call) : Prop :=
  match c with
  | CallRemoveAll _ | CallMkdir _ _ | CallWriteFile _ _ _ | CallRemove _ => True
  | _ => False
  end.

(** The time a call is guaranteed to take: [time.Sleep(d)] pauses for at
    least [d]. *)
Definition pause (c : Call) : Z :=
  match c with
  | CallSleep d => Z.max 0 d
  | _ => 0
  end.

(** The clock never runs backwards and a sleep lasts as long as asked. *)
Definition clockAdvances (env : Env) : Prop :=
  forall h c, clock env h + pause c <= clock env (h ++ [c]).

(** A number of poll cycles that outlasts a deadline [timeout] away, at one
    cycle per 500 ms. *)
Definition enoughCycles (timeout : Z) : nat :=
  (Z.to_nat (timeout / (500 * Millisecond)) + 2)%nat.

(** The two queries of the online waiter about a device. *)
Definition statusCall (name : string) : Call := CallRun ["networkctl"; "status"; name].
Definition addressCall (name : string) : Call := CallRun ["ip"; "address"; "show"; name].

(** The number of addresses an [ip address show] output reports, link-local
    ones ([fe80:]) left out. *)
Definition nonLinkLocal (output : string) : Z :=
  Z.of_nat (length (List.filter (fun addr => negb (HasPrefix addr "fe80:"))
                                (ipAddressRegex.FindAllStringSubmatch output))).

(** In the last poll cycle of history [h] (no sleep since), device [name] was
    queried, reported the online state and showed [n] addresses that are not
    link-local. *)
Definition observedOnline (env : Env) (h : history) (name : string) (n : Z) : Prop :=
  exists before after status addresses,
    h = before ++ statusCall name :: addressCall name :: after
    /\ (forall d, ~ In (CallSleep d) after)
    /\ command_result env before ["networkctl"; "status"; name] = inl status
    /\ Contains status "Online state: online" = true
    /\ command_result env (before ++ [statusCall name]) ["ip"; "address"; "show"; name]
       = inl addresses
    /\ nonLinkLocal addresses = n.

(** A query about one of the given devices. *)
Definition isQueryOf (devices : list (string * Z)) (c : Call) : Prop :=
  exists name n, In (name, n) devices /\ (c = statusCall name \/ c = addressCall name).

(** The calls the online waiter may make for a configuration: clock
    readings, 500 ms sleeps, and queries about devices that declare at least
    one address. *)
Definition isOnlineWaitCall (networkCfg : SystemNetworkConfig) (c : Call) : Prop :=
  c = CallNow \/ c = CallSleep (500 * Millisecond)
  \/ exists name addresses,
       In (name, addresses) (declaredDevices networkCfg) /\ addresses <> []
       /\ (c = statusCall name \/ c = addressCall name).

(** Steps run strictly in order, each from the history the previous one
    left; the first error (or panic) ends the run and is its outcome, and no
    later step is started. *)
Inductive runsInOrder : list (M (option error)) -> history -> outcome (option error) -> Prop :=
| rio_done h :
    runsInOrder [] h (Returns None h)
| rio_next step rest h h' o :
    step h = Returns None h' -> runsInOrder rest h' o ->
    runsInOrder (step :: rest) h o
| rio_error step rest h e h' :
    step h = Returns (Some e) h' ->
    runsInOrder (step :: rest) h (Returns (Some e) h')
| rio_panic step rest h h' :
    step h = Panics h' ->
    runsInOrder (step :: rest) h (Panics h')
| rio_unfinished step rest h :
    step h = Unfinished ->
    runsInOrder (step :: rest) h Unfinished.

(** The steps of the apply orchestrator, in the order of section 4.5. *)
Definition applySteps (env : Env)
  (SystemdNetworkConfigPath SystemdTimesyncConfigFile : string)
  (filepath_Join : string -> string -> string)
  (fuel : nat) (networkCfg : SystemNetworkConfig) (timeout : Z)
  : list (M (option error)) :=
  [ SetHostname env (targetHostname (DNS networkCfg));
    UpdateEnvironment env (Proxy networkCfg);
    generateNetworkConfiguration env SystemdNetworkConfigPath
      SystemdTimesyncConfigFile filepath_Join networkCfg;
    waitForUdevInterfaceRename env fuel (5 * Second);
    RestartUnit env "systemd-networkd";
    RestartUnit env "systemd-timesyncd";
    waitForNetworkOnline env fuel networkCfg timeout ].

(** How the rename waiter can end: with success right after a kernel-log
    query that found the rename; with the timeout error at a clock reading
    past the deadline; with the error of a trigger or settle command, right
    after that command. *)
Definition renameEnding (env : Env) (deadline : Z) (r : option error) (h' : history)
  : Prop :=
  exists before,
    (r = None /\ h' = before ++ [CallRun journalctlRenamed]
     /\ exists out, command_result env before journalctlRenamed = inl out)
    \/ (r = Some renameTimeout /\ h' = before ++ [CallNow]
        /\ deadline < clock env before)
    \/ (exists err, r = Some err
        /\ ((h' = before ++ [CallRun udevadmTrigger]
             /\ command_result env before udevadmTrigger = inr err)
            \/ (h' = before ++ [CallRun udevadmSettle]
                /\ command_result env before udevadmSettle = inr err))).

(** ** A sample configuration and sample environments *)

Definition exampleInterface : SystemNetworkInterface :=
  {| iName := "br0"; iHwaddr := "00:11:22:33:44:55"; iMTU := 0;
     iAddresses := ["dhcp4"]; iRoutes := []; iLLDP := false;
     iVLAN := 20; iVLANTags := [30; 20; 10] |}.

Definition exampleBond : SystemNetworkBond :=
  {| bName := "bond0"; bHwaddr := ""; bMTU := 0; bAddresses := []; bRoutes := [];
     bLLDP := false; bVLAN := 0; bVLANTags := [];
     bMembers := ["aa:bb:cc:dd:ee:ff"; "11:22:33:44:55:66"]; bMode := "802.3ad" |}.

Definition exampleVLAN : SystemNetworkVLAN :=
  {| vName := "mgmt"; vParent := "bond0"; vID := 30; vAddresses := [];
     vRoutes := []; vMTU := 0 |}.

Definition exampleTaggedVLAN : SystemNetworkVLAN :=
  {| vName := "lab"; vParent := "br0"; vID := 30; vAddresses := [];
     vRoutes := []; vMTU := 0 |}.

Definition exampleDNS : SystemNetworkDNS :=
  {| Hostname := "host"; Domain := "example.org"; SearchDomains := [];
     Nameservers := [] |}.

Definition exampleConfig : SystemNetworkConfig :=
  {| Interfaces := [exampleInterface]; Bonds := [exampleBond];
     VLANs := [exampleVLAN]; DNS := Some exampleDNS; NTP := None; Proxy := None |}.

Definition exampleConfigPath : string := "/run/systemd/network".
Definition exampleTimesyncFile : string := "/run/systemd/timesyncd.conf.d/fallback.conf".
Definition exampleJoin (dir name : string) : string := dir +:+ "/" +:+ name.

(** A clock that only moves while the program sleeps. *)
Definition pausedClock (h : history) : Z := foldr (fun c t => pause c + t) 0 h.

(** Every device is online with one IPv4 and one link-local address; the
    kernel log never shows a rename. *)
Definition exampleOnlineEnv : Env :=
  {| clock := pausedClock;
     command_result := fun _ argv =>
       match argv with
       | ["networkctl"; "status"; _] =>
           inl ("        State: routable (configured)" +:+ LF +:+
                " Online state: online" +:+ LF)
       | ["ip"; "address"; "show"; _] =>
           inl ("    inet 10.0.0.5/24 metric 100 brd 10.0.0.255 scope global" +:+ LF +:+
                "    inet6 fe80::211:22ff:fe33:4455/64 scope link " +:+ LF)
       | ["udevadm"; _] | ["udevadm"; _; _] => inl ""
       | _ => inr (external_error "exit status 1")
       end;
     call_error := fun _ _ => None;
     range_order := fun _ l => l;
     range_order_perm := fun _ l => Permutation_refl l |}.

(** The configuration directory cannot be recreated. *)
Definition exampleReadOnlyEnv : Env :=
  {| clock := pausedClock;
     command_result := fun _ _ => inr (external_error "exit status 1");
     call_error := fun _ c =>
       match c with
       | CallMkdir _ _ => Some (external_error "read-only file system")
       | _ => None
       end;
     range_order := fun _ l => l;
     range_order_perm := fun _ l => Permutation_refl l |}.

(** There is no stale fallback file to remove. *)
Definition exampleNoFallbackEnv : Env :=
  {| clock := pausedClock;
     command_result := fun _ _ => inr (external_error "exit status 1");
     call_error := fun _ c =>
       match c with
       | CallRemove _ => Some (external_error "no such file or directory")
       | _ => None
       end;
     range_order := fun _ l => l;
     range_order_perm := fun _ l => Permutation_refl l |}.

(** ** Further samples *)

(** A bond without address override and without member. *)
Definition exampleBrokenBond : SystemNetworkBond :=
  {| bName := "bond1"; bHwaddr := ""; bMTU := 0; bAddresses := []; bRoutes := [];
     bLLDP := false; bVLAN := 0; bVLANTags := []; bMembers := []; bMode := "802.3ad" |}.

Definition exampleBrokenConfig : SystemNetworkConfig :=
  {| Interfaces := [exampleInterface]; Bonds := [exampleBrokenBond]; VLANs := [];
     DNS := None; NTP := None; Proxy := None |}.

Definition exampleEmptyConfig : SystemNetworkConfig :=
  {| Interfaces := []; Bonds := []; VLANs := []; DNS := None; NTP := None;
     Proxy := None |}.

(** Devices that declare no address. *)
Definition exampleIdleConfig : SystemNetworkConfig :=
  {| Interfaces := []; Bonds := [exampleBond]; VLANs := [exampleVLAN];
     DNS := None; NTP := None; Proxy := None |}.

(** An interface and a VLAN under the same name. *)
Definition exampleDuplicateConfig : SystemNetworkConfig :=
  {| Interfaces := [exampleInterface];
     Bonds := [];
     VLANs := [ {| vName := "br0"; vParent := "br0"; vID := 30;
                   vAddresses := ["dhcp4"; "slaac"]; vRoutes := []; vMTU := 0 |} ];
     DNS := None; NTP := None; Proxy := None |}.

Definition exampleRoutes : list SystemNetworkRoute :=
  [ {| To := "0.0.0.0/0"; Via := "dhcp4" |};
    {| To := "10.1.0.0/16"; Via := "10.0.0.254" |} ].

(** Every call succeeds and the kernel log shows a rename. *)
Definition exampleRenamedEnv : Env :=
  {| clock := pausedClock;
     command_result := fun _ argv =>
       match argv with
       | ["networkctl"; "status"; _] => inl (" Online state: online" +:+ LF)
       | ["ip"; "address"; "show"; _] => inl ("    inet 10.0.0.5/24 scope global" +:+ LF)
       | _ => inl "kernel: en001122334455: renamed from eth0"
       end;
     call_error := fun _ _ => None;
     range_order := fun _ l => l;
     range_order_perm := fun _ l => Permutation_refl l |}.

(** ** Further notions: routes, name resolution, writes, sleeps *)

(** The [Gateway=] line of a route. *)
Definition routeGateway (route : SystemNetworkRoute) : string :=
  if String.eqb (Via route) "dhcp4" then "Gateway=_dhcp4"
  else if String.eqb (Via route) "slaac" then "Gateway=_ipv6ra"
  else "Gateway=" +:+ Via route.

(** The lines of one [[Route]] block: an empty line, the section header,
    the gateway and the destination. *)
Definition routeLines (route : SystemNetworkRoute) : list string :=
  [""; "[Route]"; routeGateway route; "Destination=" +:+ To route].

(** The lines of the name-resolution and time part of a [[Network]]
    section. *)
Definition networkSectionLines (dns : option SystemNetworkDNS)
  (ntp : option SystemNetworkNTP) : list string :=
  match dns with
  | Some dns =>
      match SearchDomains dns with
      | [] => []
      | _ => ["Domains=" +:+ Join (SearchDomains dns) " "]
      end
      ++ map (fun ns => "DNS=" +:+ ns) (Nameservers dns)
  | None => []
  end
  ++ match ntp with
     | Some ntp => map (fun ts => "NTP=" +:+ ts) (Timeservers ntp)
     | None => []
     end.

(** A bond the renderers cannot give an address: no override, no member. *)
Definition lacksMAC (b : SystemNetworkBond) : Prop :=
  bHwaddr b = "" /\ bMembers b = [].

(** The call that writes one artifact into the configuration directory. *)
Definition writeCall (dir : string) (join : string -> string -> string)
  (f : networkdConfigFile) : Call :=
  CallWriteFile (join dir (Name f)) (Contents f) perm_0o644.

(** Calls other than restarting a unit. *)
Definition notRestartCall (c : Call) : Prop :=
  forall unit, c <> CallRestartUnit unit.

(** Predicates that hold of every call the two waiters can make. *)
Definition waiterCalls (P : Call -> Prop) : Prop :=
  P CallNow /\ (forall argv, P (CallRun argv)) /\ (forall d, P (CallSleep d)).

(** The number of sleeps among some calls. *)
Definition sleepCount (calls : history) : nat :=
  length (List.filter (fun c => match c with CallSleep _ => true | _ => false end) calls).

(** The calls of an iteration of the rename waiter whose kernel-log query
    found nothing, and of [n] such iterations in a row. *)
Definition failedCycle : history :=
  [ CallNow; CallRun udevadmTrigger; CallRun udevadmSettle; CallRun journalctlRenamed;
    CallSleep (500 * Millisecond) ].
Definition failedCycles (n : nat) : history := concat (replicate n failedCycle).

(** The kernel log shows the rename only once the program has slept. *)
Definition exampleLateRenameEnv : Env :=
  {| clock := pausedClock;
     command_result := fun h argv =>
       match argv with
       | "journalctl" :: _ =>
           if (0 <? sleepCount h)%nat
           then inl "kernel: en001122334455: renamed from eth0"
           else inr (external_error "exit status 1")
       | _ => inl ""
       end;
     call_error := fun _ _ => None;
     range_order := fun _ l => l;
     range_order_perm := fun _ l => Permutation_refl l |}.

(** ** Strings: basic facts *)
Section StringFacts.

Lemma append_cons c s t : String c s +:+ t = String c (s +:+ t).
Proof. reflexivity. Qed.

Lemma append_nil_l s : "" +:+ s = s.
Proof. reflexivity. Qed.

Lemma append_nil_r s : s +:+ "" = s.
Proof. induction s as [|c s IH]; [done|]. by rewrite append_cons, IH. Qed.

Lemma append_assoc s t u : (s +:+ t) +:+ u = s +:+ t +:+ u.
Proof. induction s as [|c s IH]; [done|]. by rewrite !append_cons, IH. Qed.

Lemma lines_nonempty s : lines s <> [].
Proof.
  destruct s as [|c s]; simpl; [done|].
  destruct (Ascii.eqb c LF_char); [done|]. by destruct (lines s).
Qed.

(** Splitting at a line feed is compositional. *)
Lemma lines_app_LF s t : lines (s +:+ LF +:+ t) = lines s ++ lines t.
Proof.
  induction s as [|c s IH].
  - reflexivity.
  - rewrite append_cons. simpl. destruct (Ascii.eqb c LF_char).
    + by rewrite IH.
    + rewrite IH. pose proof (lines_nonempty s). by destruct (lines s).
Qed.

Lemma Contains_LF_cons c s :
  Contains (String c s) LF = Ascii.eqb c LF_char || Contains s LF.
Proof. cbn [Contains HasPrefix LF]. by destruct (Ascii.eqb c LF_char). Qed.

(** A text without line feed is a single line. *)
Lemma lines_single s : Contains s LF = false -> lines s = [s].
Proof.
  induction s as [|c s IH]; [done|].
  rewrite Contains_LF_cons. intros [Hc Hs]%orb_false_iff.
  simpl. rewrite Hc, (IH Hs). done.
Qed.

Lemma lines_unlines_in l ls :
  In l ls -> Contains l LF = false -> In l (lines (unlines ls)).
Proof.
  induction ls as [|l' ls IH]; [done|].
  intros [->|Hin] Hl; simpl; rewrite lines_app_LF; apply in_or_app.
  - left. rewrite (lines_single _ Hl). by left.
  - right. by apply IH.
Qed.

Lemma lines_unlines ls :
  Forall (fun l => Contains l LF = false) ls -> lines (unlines ls) = ls ++ [""].
Proof.
  induction 1 as [|l ls Hl _ IH]; [done|].
  simpl. by rewrite lines_app_LF, (lines_single _ Hl), IH.
Qed.

Lemma unlines_app ls1 ls2 : unlines (ls1 ++ ls2) = unlines ls1 +:+ unlines ls2.
Proof.
  induction ls1 as [|l ls1 IH]; [done|].
  simpl. by rewrite IH, !append_assoc.
Qed.

Lemma Contains_append_LF s t :
  Contains (s +:+ t) LF = Contains s LF || Contains t LF.
Proof.
  induction s as [|c s IH]; [done|].
  by rewrite append_cons, !Contains_LF_cons, IH, orb_assoc.
Qed.

End StringFacts.

(** ** Loops that append to a slice *)
Section AppendLoops.
Context {A B : Type}.

Lemma foldl_append_one (f : B -> A) (l : list B) (acc : list A) :
  foldl (fun ret x => ret ++ [f x]) acc l = acc ++ map f l.
Proof.
  revert acc. induction l as [|x l IH]; intros acc; simpl.
  - by rewrite app_nil_r.
  - by rewrite IH, <- app_assoc.
Qed.

Lemma foldl_append_many (f : B -> list A) (l : list B) (acc : list A) :
  foldl (fun ret x => ret ++ f x) acc l = acc ++ concat (map f l).
Proof.
  revert acc. induction l as [|x l IH]; intros acc; simpl.
  - by rewrite app_nil_r.
  - by rewrite IH, <- app_assoc.
Qed.

End AppendLoops.

(** ** Link-match artifacts *)
Section LinkFiles.

Lemma generateLinkFileContents_eq cfg :
  generateLinkFileContents cfg =
    map interfaceLink (Interfaces cfg)
    ++ concat (map (fun b => map memberLink (bMembers b)) (Bonds cfg)).
Proof.
  unfold generateLinkFileContents.
  rewrite foldl_append_one. simpl.
  generalize (map interfaceLink (Interfaces cfg)) as acc.
  induction (Bonds cfg) as [|b bs IH]; intros acc; simpl.
  - by rewrite app_nil_r.
  - rewrite foldl_append_one, IH. by rewrite <- app_assoc.
Qed.

Lemma lower_char_not_upper c : is_upper (lower_char c) = false.
Proof. by destruct c as [[] [] [] [] [] [] [] []]. Qed.

Lemma lower_char_not_colon c : c <> ":"%char -> lower_char c <> ":"%char.
Proof. by destruct c as [[] [] [] [] [] [] [] []]. Qed.

Lemma strippedHwaddr_chars hwaddr :
  list_ascii_of_string (strippedHwaddr hwaddr) =
    map lower_char
        (List.filter (fun c => negb (Ascii.eqb c ":")) (list_ascii_of_string hwaddr)).
Proof.
  unfold strippedHwaddr. induction hwaddr as [|c s IH]; [done|].
  cbn [RemoveColons list_ascii_of_string List.filter].
  destruct (Ascii.eqb c ":"); cbn [negb]; [done|].
  cbn [ToLower list_ascii_of_string map]. by rewrite IH.
Qed.

Lemma strippedHwaddr_clean hwaddr c :
  In c (list_ascii_of_string (strippedHwaddr hwaddr)) ->
  c <> ":"%char /\ is_upper c = false.
Proof.
  rewrite strippedHwaddr_chars, in_map_iff.
  intros (c0 & <- & [_ Hc]%filter_In).
  split; [|apply lower_char_not_upper].
  apply lower_char_not_colon. intros ->. done.
Qed.

(** C7: every interface yields exactly one [00-] artifact (the bond members'
    artifacts are [01-]); for an interface whose address is ASCII text it
    matches on the interface's permanent MAC, clears [NamePolicy] and names
    the device [en] followed by the MAC lower-cased with its colons
    removed; [AA:BB:CC:DD:EE:FF] gives [enaabbccddeeff]. *)
Theorem link_match_per_interface (cfg : SystemNetworkConfig) :
  List.filter (fun f => HasPrefix (Name f) "00-") (generateLinkFileContents cfg)
    = map interfaceLink (Interfaces cfg)
  /\ (forall i,
        isASCII (iHwaddr i) = true ->
        Name (interfaceLink i) = "00-en" +:+ strippedHwaddr (iHwaddr i) +:+ ".link"
        /\ Contents (interfaceLink i) =
             unlines [ "[Match]";
                       "PermanentMACAddress=" +:+ iHwaddr i;
                       "";
                       "[Link]";
                       "NamePolicy=";
                       "Name=en" +:+ strippedHwaddr (iHwaddr i) ])
  /\ (forall hwaddr,
        isASCII hwaddr = true ->
        list_ascii_of_string (strippedHwaddr hwaddr) =
          map lower_char
              (List.filter (fun c => negb (Ascii.eqb c ":"))
                           (list_ascii_of_string hwaddr))
        /\ forall c, In c (list_ascii_of_string (strippedHwaddr hwaddr)) ->
                     c <> ":"%char /\ is_upper c = false)
  /\ "en" +:+ strippedHwaddr "AA:BB:CC:DD:EE:FF" = "enaabbccddeeff".
Proof.
  split; [|split; [|split]].
  - rewrite generateLinkFileContents_eq, List.filter_app.
    assert (Hi : forall l, List.filter (fun f => HasPrefix (Name f) "00-")
                             (map interfaceLink l) = map interfaceLink l).
    { induction l as [|i l IH]; [done|]. cbn [map List.filter].
      change (HasPrefix (Name (interfaceLink i)) "00-") with true.
      by rewrite IH. }
    assert (Hm : forall l, List.filter (fun f => HasPrefix (Name f) "00-")
                             (map memberLink l) = []).
    { induction l as [|m l IH]; [done|]. cbn [map List.filter].
      change (HasPrefix (Name (memberLink m)) "00-") with false.
      exact IH. }
    rewrite Hi.
    induction (Bonds cfg) as [|b bs IH]; simpl; [by rewrite app_nil_r|].
    rewrite List.filter_app, Hm. simpl. exact IH.
  - intros i _. split; reflexivity.
  - intros hwaddr _. split; [apply strippedHwaddr_chars|apply strippedHwaddr_clean].
  - reflexivity.
Qed.

End LinkFiles.

(** ** Address lists: online requirement and addressing policy *)
Section Addresses.

Lemma existsb_eqb_In (token : string) (l : list string) :
  existsb (String.eqb token) l = true <-> In token l.
Proof.
  rewrite existsb_exists. split.
  - intros (x & Hx & ->%String.eqb_eq). done.
  - intros H. exists token. by rewrite String.eqb_refl.
Qed.

Lemma existsb_eqb_not_In (token : string) (l : list string) :
  existsb (String.eqb token) l = false <-> ~ In token l.
Proof. rewrite <- existsb_eqb_In. by destruct (existsb _ l). Qed.

(** The flags of [generateLinkSectionContents] after its loop. *)
Lemma link_section_flags (l : list string) (e4 e6 : bool) :
  foldl (fun '(expectsIPv4, expectsIPv6) addr =>
           if String.eqb addr "dhcp4" then (true, expectsIPv6)
           else if String.eqb addr "dhcp6" || String.eqb addr "slaac"
           then (expectsIPv4, true)
           else
             let expectsIPv4 := if Contains addr "." then true else expectsIPv4 in
             let expectsIPv6 := if Contains addr ":" then true else expectsIPv6 in
             (expectsIPv4, expectsIPv6))
        (e4, e6) l
  = (e4 || existsb wantsIPv4 l, e6 || existsb wantsIPv6 l).
Proof.
  revert e4 e6. induction l as [|addr l IH]; intros e4 e6.
  - simpl. by rewrite !orb_false_r.
  - cbn [foldl existsb]. unfold wantsIPv4 at 1, wantsIPv6 at 1.
    destruct (String.eqb_spec addr "dhcp4") as [->|_].
    { rewrite IH. by destruct e4, e6. }
    destruct (String.eqb_spec addr "dhcp6") as [->|_].
    { cbn [orb]. rewrite IH. by destruct e4, e6. }
    destruct (String.eqb_spec addr "slaac") as [->|_].
    { cbn [orb]. rewrite IH. by destruct e4, e6. }
    cbn [orb]. rewrite IH.
    by destruct (Contains addr "."), (Contains addr ":"), e4, e6.
Qed.

(** C6: the online requirement of a device follows from the address
    families its entries ask for: [dhcp4] or a literal with a dot asks for
    IPv4; [dhcp6], [slaac] or a literal with a colon asks for IPv6; no
    entry at all makes the device not required for online. *)
Theorem required_family_for_online :
  generateLinkSectionContents ["dhcp4"]
    = "RequiredForOnline=yes" +:+ LF +:+ "RequiredFamilyForOnline=ipv4"
  /\ generateLinkSectionContents ["slaac"]
    = "RequiredForOnline=yes" +:+ LF +:+ "RequiredFamilyForOnline=ipv6"
  /\ generateLinkSectionContents ["dhcp4"; "slaac"]
    = "RequiredForOnline=yes" +:+ LF +:+ "RequiredFamilyForOnline=both"
  /\ generateLinkSectionContents [] = "RequiredForOnline=no"
  /\ (forall addr rest,
        let addresses := addr :: rest in
        generateLinkSectionContents addresses =
          "RequiredForOnline=yes" +:+ LF +:+ "RequiredFamilyForOnline=" +:+
          (if existsb wantsIPv4 addresses && existsb wantsIPv6 addresses then "both"
           else if existsb wantsIPv4 addresses then "ipv4"
           else "ipv6"))
  /\ (forall addr, isLiteral addr = true ->
        wantsIPv4 addr = Contains addr "." /\ wantsIPv6 addr = Contains addr ":").
Proof.
  repeat split; try reflexivity.
  - intros addr rest addresses. unfold generateLinkSectionContents.
    change (length addresses =? 0)%nat with false. cbv iota.
    rewrite link_section_flags. cbn [orb].
    by destruct (existsb wantsIPv4 addresses), (existsb wantsIPv6 addresses).
  - unfold isLiteral, wantsIPv4 in *.
    by destruct (String.eqb addr "dhcp4").
  - unfold isLiteral, wantsIPv6 in *.
    by destruct (String.eqb addr "dhcp4"), (String.eqb addr "dhcp6"),
         (String.eqb addr "slaac").
Qed.

(** The state of [processAddresses] after its loop. *)
Lemma process_addresses_loop (l : list string) (ret : string) (h4 h6 ra : bool) :
  foldl (fun '(ret, hasDHCP4, hasDHCP6, acceptIPv6RA) addr =>
           if String.eqb addr "dhcp4" then (ret, true, hasDHCP6, acceptIPv6RA)
           else if String.eqb addr "dhcp6" then (ret, hasDHCP4, true, acceptIPv6RA)
           else if String.eqb addr "slaac" then (ret, hasDHCP4, hasDHCP6, true)
           else (ret +:+ "Address=" +:+ addr +:+ LF, hasDHCP4, hasDHCP6, acceptIPv6RA))
        (ret, h4, h6, ra) l
  = (ret +:+ unlines (map (fun addr => "Address=" +:+ addr) (List.filter isLiteral l)),
     h4 || existsb (String.eqb "dhcp4") l,
     h6 || existsb (String.eqb "dhcp6") l,
     ra || existsb (String.eqb "slaac") l).
Proof.
  revert ret h4 h6 ra. induction l as [|addr l IH]; intros ret h4 h6 ra.
  - simpl. by rewrite append_nil_r, !orb_false_r.
  - cbn [foldl existsb List.filter]. unfold isLiteral at 1.
    rewrite (String.eqb_sym "dhcp4"), (String.eqb_sym "dhcp6"),
      (String.eqb_sym "slaac").
    destruct (String.eqb_spec addr "dhcp4") as [->|_].
    { rewrite IH. by destruct h4, h6, ra. }
    destruct (String.eqb_spec addr "dhcp6") as [->|_].
    { rewrite IH. by destruct h4, h6, ra. }
    destruct (String.eqb_spec addr "slaac") as [->|_].
    { rewrite IH. by destruct h4, h6, ra. }
    rewrite IH. cbn [orb negb map unlines foldr].
    by rewrite !append_assoc.
Qed.

(** The rendered policy is the text of [policyLines]. *)
Lemma processAddresses_lines (addresses : list string) :
  processAddresses addresses = unlines (policyLines addresses).
Proof.
  unfold processAddresses, policyLines.
  rewrite process_addresses_loop. cbn [orb].
  rewrite !unlines_app.
  set (lits := unlines (map _ (List.filter isLiteral addresses))).
  destruct addresses as [|a l]; cbn [length Nat.eqb negb];
    destruct (existsb (String.eqb "slaac") _),
      (existsb (String.eqb "dhcp4") _), (existsb (String.eqb "dhcp6") _);
    cbn [andb dhcpLine unlines foldr]; rewrite ?append_assoc, ?append_nil_r;
    reflexivity.
Qed.

Lemma policyLines_no_LF (addresses : list string) :
  Forall (fun a => Contains a LF = false) addresses ->
  Forall (fun l => Contains l LF = false) (policyLines addresses).
Proof.
  intros Hall. unfold policyLines. repeat apply Forall_app_2.
  - destruct addresses; repeat constructor.
  - apply Forall_forall. intros l (a & <- & [Ha _]%filter_In)%list_elem_of_In%in_map_iff.
    rewrite Contains_append_LF. rewrite Forall_forall in Hall.
    by rewrite (Hall a) by (by apply list_elem_of_In).
  - by destruct (existsb _ addresses); repeat constructor.
  - by destruct (existsb _ addresses), (existsb _ addresses); repeat constructor.
Qed.

Lemma policyLines_dhcp_lines (addresses : list string) :
  List.filter (fun l => HasPrefix l "DHCP=") (policyLines addresses ++ [""])
  = dhcpLine (existsb (String.eqb "dhcp4") addresses)
             (existsb (String.eqb "dhcp6") addresses).
Proof.
  unfold policyLines. rewrite !List.filter_app.
  assert (Hlit : forall l, List.filter (fun l => HasPrefix l "DHCP=")
                             (map (fun addr => "Address=" +:+ addr) l) = []).
  { induction l as [|a l IH]; [done|]. exact IH. }
  rewrite Hlit.
  destruct addresses as [|a l]; cbn [app];
    destruct (existsb (String.eqb "slaac") _),
      (existsb (String.eqb "dhcp4") _), (existsb (String.eqb "dhcp6") _);
    reflexivity.
Qed.

(** C5: the DHCP combination table, the verbatim [Address=] lines and the
    router-advertisement switch of a rendered addressing policy. *)
Theorem dhcp_combination_table (addresses : list string) :
  let out := processAddresses addresses in
  (In "dhcp4" addresses -> ~ In "dhcp6" addresses -> In "DHCP=ipv4" (lines out))
  /\ (In "dhcp6" addresses -> ~ In "dhcp4" addresses -> In "DHCP=ipv6" (lines out))
  /\ (In "dhcp4" addresses -> In "dhcp6" addresses -> In "DHCP=yes" (lines out))
  /\ (~ In "dhcp4" addresses -> ~ In "dhcp6" addresses ->
      Forall (fun a => Contains a LF = false) addresses ->
      forall l, In l (lines out) -> HasPrefix l "DHCP=" = false)
  /\ (Forall (fun a => Contains a LF = false) addresses ->
      List.filter (fun l => HasPrefix l "DHCP=") (lines out)
      = dhcpLine (existsb (String.eqb "dhcp4") addresses)
                 (existsb (String.eqb "dhcp6") addresses))
  /\ (forall a, In a addresses -> isLiteral a = true -> Contains a LF = false ->
                In ("Address=" +:+ a) (lines out))
  /\ (In "slaac" addresses -> In "IPv6AcceptRA=true" (lines out))
  /\ (~ In "slaac" addresses -> In "IPv6AcceptRA=false" (lines out))
  /\ out = unlines (policyLines addresses).
Proof.
  intros out. unfold out. rewrite processAddresses_lines.
  assert (Hdhcp : forall l, In l (dhcpLine (existsb (String.eqb "dhcp4") addresses)
                                    (existsb (String.eqb "dhcp6") addresses)) ->
                            Contains l LF = false ->
                            In l (lines (unlines (policyLines addresses)))).
  { intros l Hl Hlf. apply lines_unlines_in; [|done].
    unfold policyLines. rewrite !in_app_iff. auto. }
  assert (Hfilter : Forall (fun a => Contains a LF = false) addresses ->
            List.filter (fun l => HasPrefix l "DHCP=")
                        (lines (unlines (policyLines addresses)))
            = dhcpLine (existsb (String.eqb "dhcp4") addresses)
                       (existsb (String.eqb "dhcp6") addresses)).
  { intros Hall. rewrite lines_unlines by by apply policyLines_no_LF.
    apply policyLines_dhcp_lines. }
  repeat split.
  - intros H4%existsb_eqb_In H6%existsb_eqb_not_In.
    apply Hdhcp; [|done]. rewrite H4, H6. by left.
  - intros H6%existsb_eqb_In H4%existsb_eqb_not_In.
    apply Hdhcp; [|done]. rewrite H4, H6. by left.
  - intros H4%existsb_eqb_In H6%existsb_eqb_In.
    apply Hdhcp; [|done]. rewrite H4, H6. by left.
  - intros H4%existsb_eqb_not_In H6%existsb_eqb_not_In Hall l Hl.
    specialize (Hfilter Hall). rewrite H4, H6 in Hfilter.
    destruct (HasPrefix l "DHCP=") eqn:Hp; [|done].
    assert (Hin : In l (dhcpLine false false)); [|done].
    rewrite <- Hfilter. apply filter_In. by rewrite Hp.
  - exact Hfilter.
  - intros a Ha Hlit Hlf. apply lines_unlines_in.
    + unfold policyLines. rewrite !in_app_iff. right. left.
      apply in_map_iff. exists a. split; [done|]. by apply filter_In.
    + by rewrite Contains_append_LF, Hlf.
  - intros Hs%existsb_eqb_In. apply lines_unlines_in; [|done].
    unfold policyLines. rewrite !in_app_iff. right. right. left.
    rewrite Hs. by left.
  - intros Hs%existsb_eqb_not_In. apply lines_unlines_in; [|done].
    unfold policyLines. rewrite !in_app_iff. right. right. left.
    rewrite Hs. by left.
Qed.

End Addresses.

(** ** Sorting and compacting tag slices *)
Section Slices.
Import slices.

Lemma insert_sorted_perm x s : Permutation (insert_sorted x s) (x :: s).
Proof.
  induction s as [|y s IH]; simpl; [done|].
  destruct (x <=? y); [done|].
  rewrite IH. apply perm_swap.
Qed.

Lemma Sort_perm s : Permutation (Sort s) s.
Proof.
  induction s as [|x s IH]; simpl; [done|].
  fold (Sort s). by rewrite insert_sorted_perm, IH.
Qed.

Lemma insert_sorted_sorted x s :
  StronglySorted Z.le s -> StronglySorted Z.le (insert_sorted x s).
Proof.
  induction 1 as [|y s Hs IH Hy]; simpl.
  - repeat constructor.
  - destruct (Z.leb_spec x y) as [Hxy|Hxy].
    + constructor; [by constructor|].
      constructor; [done|]. eapply Forall_impl; [exact Hy|].
      simpl. intros z Hz. lia.
    + constructor; [done|].
      eapply Permutation_Forall; [symmetry; apply insert_sorted_perm|].
      constructor; [lia|done].
Qed.

Lemma Sort_sorted s : StronglySorted Z.le (Sort s).
Proof.
  induction s as [|x s IH]; simpl; [constructor|].
  by apply insert_sorted_sorted.
Qed.

Lemma compact_after_spec last s :
  StronglySorted Z.le (last :: s) ->
  StronglySorted Z.lt (last :: compact_after last s)
  /\ forall t, In t (compact_after last s) <-> In t s /\ t <> last.
Proof.
  revert last. induction s as [|x s IH]; intros last Hs.
  - simpl. split; [repeat constructor|]. intros t. tauto.
  - apply StronglySorted_inv in Hs as [Hxs Hlast].
    apply Forall_cons in Hlast as [Hlx Hls]. simpl.
    destruct (Z.eqb_spec x last) as [->|Hne].
    + destruct (IH last) as [IH1 IH2].
      { constructor; [by apply StronglySorted_inv in Hxs as [? _]|done]. }
      split; [done|]. intros t. rewrite IH2. intuition congruence.
    + destruct (IH x Hxs) as [IH1 IH2].
      assert (Hgt : Forall (Z.lt last) (x :: compact_after x s)).
      { apply StronglySorted_inv in IH1 as [_ Hx].
        constructor; [lia|]. eapply Forall_impl; [exact Hx|].
        simpl. intros z Hz. lia. }
      split; [by constructor|].
      intros t. simpl. rewrite IH2.
      apply StronglySorted_inv in Hxs as [_ Hx]. rewrite Forall_forall in Hx.
      split.
      * intros [<-|[Ht Hne']]; [by auto|].
        split; [by auto|]. apply list_elem_of_In, Hx in Ht. lia.
      * intros [[<-|Ht] Hne']; [by auto|].
        destruct (Z.eq_dec t x) as [->|?]; auto.
Qed.

Lemma Compact_spec s :
  StronglySorted Z.le s ->
  StronglySorted Z.lt (Compact s) /\ forall t, In t (Compact s) <-> In t s.
Proof.
  destruct s as [|x s]; intros Hs; simpl.
  - split; [constructor|done].
  - destruct (compact_after_spec x s Hs) as [H1 H2].
    split; [done|]. intros t. rewrite H2.
    destruct (Z.eq_dec x t); intuition congruence.
Qed.

(** A strictly ascending slice is determined by its elements. *)
Lemma ascending_unique (l1 l2 : list Z) :
  StronglySorted Z.lt l1 -> StronglySorted Z.lt l2 ->
  (forall t, In t l1 <-> In t l2) -> l1 = l2.
Proof.
  intros H1. revert l2. induction H1 as [|x l1 Hl1 IH Hx]; intros l2 H2 Hin.
  - destruct l2 as [|y l2]; [done|]. destruct (proj2 (Hin y)). by left.
  - destruct H2 as [|y l2 Hl2 Hy].
    { destruct (proj1 (Hin x)). by left. }
    rewrite Forall_forall in Hx, Hy.
    assert (x = y) as <-.
    { destruct (proj1 (Hin x)) as [?|Hx2]; [by left|done|].
      destruct (proj2 (Hin y)) as [?|Hy1]; [by left|done|].
      apply list_elem_of_In, Hy in Hx2. apply list_elem_of_In, Hx in Hy1. lia. }
    f_equal. apply IH; [done|]. intros t. split; intros Ht.
    + destruct (proj1 (Hin t)) as [<-|?]; [by right| |done].
      apply list_elem_of_In, Hx in Ht. lia.
    + destruct (proj2 (Hin t)) as [<-|?]; [by right| |done].
      apply list_elem_of_In, Hy in Ht. lia.
Qed.

End Slices.

(** ** VLAN tags of a bridge *)
Section BridgeVLAN.

Lemma parented_ids_loop (bridgeName : string) (vlans : list SystemNetworkVLAN)
  (acc : list Z) :
  foldl (fun vlanTags vlan =>
           if String.eqb (vParent vlan) bridgeName then vlanTags ++ [vID vlan]
           else vlanTags) acc vlans
  = acc ++ map vID (List.filter (fun vlan => String.eqb (vParent vlan) bridgeName) vlans).
Proof.
  revert acc. induction vlans as [|v vlans IH]; intros acc; simpl.
  - by rewrite app_nil_r.
  - rewrite IH. destruct (String.eqb (vParent v) bridgeName); [|done].
    by rewrite <- app_assoc.
Qed.

Lemma bridgeVLANTags_spec bridgeName specificVLAN additionalVLANTags vlans :
  StronglySorted Z.lt (bridgeVLANTags bridgeName specificVLAN additionalVLANTags vlans)
  /\ forall tag,
       In tag (bridgeVLANTags bridgeName specificVLAN additionalVLANTags vlans)
       <-> carriesTag bridgeName specificVLAN additionalVLANTags vlans tag.
Proof.
  unfold bridgeVLANTags. rewrite parented_ids_loop.
  match goal with |- context [slices.Sort ?l] => set (raw := l) end.
  destruct (Compact_spec (slices.Sort raw) (Sort_sorted raw)) as [Hsorted Hin].
  split; [done|]. intros tag. rewrite Hin.
  assert (Hperm : In tag (slices.Sort raw) <-> In tag raw).
  { split; apply Permutation_in; [|symmetry]; apply Sort_perm. }
  rewrite Hperm. unfold raw, carriesTag. rewrite !in_app_iff, in_map_iff.
  assert (Hp : In tag (if negb (specificVLAN =? 0) then [] ++ [specificVLAN] else [])
               <-> tag = specificVLAN /\ specificVLAN <> 0).
  { destruct (Z.eqb_spec specificVLAN 0); simpl; intuition congruence. }
  rewrite Hp.
  assert (Hv : (exists v, vID v = tag /\
                   In v (List.filter (fun vlan => String.eqb (vParent vlan) bridgeName)
                                     vlans))
               <-> exists vlan, In vlan vlans /\ vParent vlan = bridgeName
                                /\ vID vlan = tag).
  { split.
    - intros (v & ? & [? ?%String.eqb_eq]%filter_In). eauto.
    - intros (v & ? & ?%String.eqb_eq & ?). exists v. by rewrite filter_In. }
  rewrite Hv. tauto.
Qed.

Lemma tag_blocks_loop (tags : list Z) (ret : string) :
  foldl (fun ret tag =>
           (ret +:+ LF +:+ "[BridgeVLAN]" +:+ LF) +:+ "VLAN=" +:+ fmt_d tag +:+ LF)
        ret tags
  = ret +:+ concatBlocks (map tagBlock tags).
Proof.
  revert ret. induction tags as [|t tags IH]; intros ret; simpl.
  - by rewrite append_nil_r.
  - rewrite IH. unfold tagBlock. by rewrite !append_assoc.
Qed.

Lemma generateBridgeVLANContents_blocks bridgeName specificVLAN additionalVLANTags vlans :
  generateBridgeVLANContents bridgeName specificVLAN additionalVLANTags vlans
  = (if specificVLAN =? 0 then "" else pvidBlock specificVLAN)
    +:+ concatBlocks
          (map tagBlock
               (bridgeVLANTags bridgeName specificVLAN additionalVLANTags vlans)).
Proof.
  unfold generateBridgeVLANContents.
  destruct (bridgeVLANTags_spec bridgeName specificVLAN additionalVLANTags vlans)
    as [_ Hin].
  destruct (bridgeVLANTags _ _ _ _) as [|t tags] eqn:Htags.
  - cbn [length Nat.ltb Nat.leb map concatBlocks foldr].
    destruct (Z.eqb_spec specificVLAN 0) as [|Hne]; [done|].
    destruct (proj2 (Hin specificVLAN)). left. done.
  - change (0 <? length (t :: tags))%nat with true. cbv iota.
    rewrite tag_blocks_loop.
    destruct (specificVLAN =? 0); cbn [negb]; [done|].
    unfold pvidBlock. by rewrite !append_assoc.
Qed.

(** C3: the tags rendered for a bridge are exactly its primary VLAN (when
    nonzero), its additional tags and the IDs of the VLANs parented to it,
    ascending and without repetition, so the output only depends on these
    as sets; a nonzero primary VLAN adds the PVID/EgressUntagged block. *)
Theorem bridge_vlan_tag_set bridgeName specificVLAN additionalVLANTags vlans :
  let tags := bridgeVLANTags bridgeName specificVLAN additionalVLANTags vlans in
  StronglySorted Z.lt tags
  /\ (forall tag, In tag tags
                  <-> carriesTag bridgeName specificVLAN additionalVLANTags vlans tag)
  /\ generateBridgeVLANContents bridgeName specificVLAN additionalVLANTags vlans
     = (if specificVLAN =? 0 then "" else pvidBlock specificVLAN)
       +:+ concatBlocks (map tagBlock tags)
  /\ (forall additionalVLANTags' vlans',
        (forall tag, In tag additionalVLANTags' <-> In tag additionalVLANTags) ->
        (forall vlan, In vlan vlans' <-> In vlan vlans) ->
        generateBridgeVLANContents bridgeName specificVLAN additionalVLANTags' vlans'
        = generateBridgeVLANContents bridgeName specificVLAN additionalVLANTags vlans)
  /\ (forall vlan, vParent vlan = "br0" -> vID vlan = 30 ->
        bridgeVLANTags "br0" 20 [30; 20; 10] [vlan] = [10; 20; 30]
        /\ generateBridgeVLANContents "br0" 20 [30; 20; 10] [vlan]
           = pvidBlock 20 +:+ tagBlock 10 +:+ tagBlock 20 +:+ tagBlock 30).
Proof.
  intros tags.
  destruct (bridgeVLANTags_spec bridgeName specificVLAN additionalVLANTags vlans)
    as [Hsorted Hin].
  split; [done|]. split; [done|].
  split; [apply generateBridgeVLANContents_blocks|]. split.
  - intros add' vlans' Hadd Hvlans.
    rewrite !generateBridgeVLANContents_blocks. do 3 f_equal.
    destruct (bridgeVLANTags_spec bridgeName specificVLAN add' vlans')
      as [Hsorted' Hin'].
    apply ascending_unique; [done..|].
    intros tag. rewrite Hin', Hin. unfold carriesTag. rewrite Hadd.
    split; (intros [?|[?|(v & Hv & ? & ?)]]; [by auto|by auto|]);
      right; right; exists v; (split; [by apply Hvlans|done]).
  - intros vlan Hparent Hid.
    assert (Htags : bridgeVLANTags "br0" 20 [30; 20; 10] [vlan] = [10; 20; 30]).
    { unfold bridgeVLANTags. rewrite parented_ids_loop.
      cbn [List.filter]. rewrite Hparent.
      change (String.eqb "br0" "br0") with true. cbn [map]. rewrite Hid.
      reflexivity. }
    split; [done|].
    rewrite generateBridgeVLANContents_blocks, Htags.
    cbn [Z.eqb map concatBlocks foldr]. by rewrite append_nil_r.
Qed.

End BridgeVLAN.

(** ** Hardware addresses of bonds and VLAN parents *)
Section MACDerivation.

(** A loop that appends rendered files and may panic on the way. *)
Lemma foldl_option_append {A B C : Type} (g : B -> option C)
  (k : B -> C -> list A) (l : list B) (acc : option (list A)) (out : list A) :
  foldl (fun acc x => ret ← acc; m ← g x; Some (ret ++ k x m)) acc l = Some out ->
  exists ret0, acc = Some ret0
    /\ (forall a, In a ret0 -> In a out)
    /\ forall x, In x l -> exists m, g x = Some m /\ forall a, In a (k x m) -> In a out.
Proof.
  revert acc. induction l as [|x l IH]; intros acc Hout; simpl in Hout.
  - exists out. by subst.
  - apply IH in Hout as (ret1 & Hstep & Hret1 & Hl).
    destruct acc as [ret0|]; [|done]. simpl in Hstep.
    destruct (g x) as [m|] eqn:Hg; [|done]. simpl in Hstep.
    injection Hstep as <-.
    exists ret0. split; [done|]. split.
    + intros a Ha. apply Hret1, in_or_app. by left.
    + intros y [<-|Hy]; [|by apply Hl].
      exists m. split; [done|]. intros a Ha. apply Hret1, in_or_app. by right.
Qed.

Lemma interfaceParentMAC_find parent ifaces :
  interfaceParentMAC parent ifaces =
    match List.find (fun i => String.eqb (iName i) parent) ifaces with
    | Some i => iHwaddr i
    | None => ""
    end.
Proof.
  induction ifaces as [|i ifaces IH]; [done|].
  simpl. by destruct (String.eqb (iName i) parent).
Qed.

Lemma bondParentMAC_find parent bonds :
  bondParentMAC parent bonds =
    match List.find (fun b => String.eqb (bName b) parent) bonds with
    | Some b => bondMacAddr b
    | None => Some ""
    end.
Proof.
  induction bonds as [|b bonds IH]; [done|].
  simpl. destruct (String.eqb (bName b) parent); [|done].
  unfold bondMacAddr. by destruct (String.eqb (bHwaddr b) "").
Qed.

Lemma find_none_iff {A} (p : A -> bool) (l : list A) :
  List.find p l = None <-> forall x, In x l -> p x = false.
Proof.
  split; [apply find_none|].
  induction l as [|x l IH]; [done|]. intros H. simpl.
  rewrite (H x) by by left. apply IH. intros y Hy. apply H. by right.
Qed.

Lemma parentMACAddress_lookup cfg v :
  uniqueNames cfg -> parentMACAddress cfg v = lookupParentMAC cfg (vParent v).
Proof.
  intros Huniq. unfold parentMACAddress, lookupParentMAC.
  rewrite interfaceParentMAC_find, bondParentMAC_find.
  destruct (List.find _ (Interfaces cfg)) as [i|] eqn:Hi; [|done].
  destruct (String.eqb_spec (iHwaddr i) "") as [Hempty|_]; [|done].
  apply find_some in Hi as [Hin Hname%String.eqb_eq].
  assert (Hnone : List.find (fun b => String.eqb (bName b) (vParent v)) (Bonds cfg)
                  = None).
  { apply find_none_iff. intros b Hb. apply String.eqb_neq. intros Hbn.
    unfold uniqueNames, deviceNames in Huniq.
    apply NoDup_app in Huniq as (_ & Hdisj & _).
    apply (Hdisj (vParent v)).
    - apply list_elem_of_In. rewrite <- Hname. by apply in_map.
    - apply elem_of_app. left. apply list_elem_of_In. rewrite <- Hbn. by apply in_map. }
  by rewrite Hnone, Hempty.
Qed.

Lemma foldl_option_append_none {A B C : Type} (g : B -> option C)
  (k : B -> C -> list A) (l : list B) (acc : option (list A)) :
  foldl (fun acc x => ret ← acc; m ← g x; Some (ret ++ k x m)) acc l = None
  <-> acc = None \/ exists x, In x l /\ g x = None.
Proof.
  revert acc. induction l as [|x l IH]; intros acc; simpl.
  - split; [by left|]. by intros [?|(x & [] & _)].
  - rewrite IH. split.
    + intros [Hstep|(y & Hy & Hg)]; [|by right; exists y; auto].
      destruct acc as [ret|]; [|by left]. right. exists x. split; [by left|].
      simpl in Hstep. by destruct (g x).
    + intros [->|(y & [<-|Hy] & Hg)]; [by left| |by right; exists y].
      left. destruct acc; [|done]. simpl. by rewrite Hg.
Qed.

Lemma bondMacAddr_none b : bondMacAddr b = None <-> lacksMAC b.
Proof.
  unfold bondMacAddr, lacksMAC.
  destruct (String.eqb_spec (bHwaddr b) "") as [He|Hne].
  - destruct (bMembers b) as [|m l]; simpl; intuition congruence.
  - split; [done|]. by intros [? _].
Qed.

Lemma parentMACAddress_none cfg v :
  parentMACAddress cfg v = None -> exists b, In b (Bonds cfg) /\ lacksMAC b.
Proof.
  unfold parentMACAddress. destruct (String.eqb _ ""); [|done].
  rewrite bondParentMAC_find.
  destruct (List.find _ (Bonds cfg)) as [b|] eqn:Hfind; [|done].
  intros Hnone%bondMacAddr_none. apply find_some in Hfind as [Hin _]. eauto.
Qed.

Lemma generateNetdevFileContents_none cfg :
  generateNetdevFileContents cfg = None <-> exists b, In b (Bonds cfg) /\ lacksMAC b.
Proof.
  unfold generateNetdevFileContents. rewrite foldl_append_one. cbn [app].
  destruct (foldl _ (Some _) (Bonds cfg)) as [ret|] eqn:Hbonds; simpl.
  - split.
    + intros [?|(v & _ & Hv)]%foldl_option_append_none; [done|].
      by eapply parentMACAddress_none.
    + intros (b & Hb & Hlacks%bondMacAddr_none).
      assert (Hnone : foldl (fun acc b => ret ← acc; mac ← bondMacAddr b;
                                          Some (ret ++ bondNetdevs b mac))
                        (Some (map interfaceNetdev (Interfaces cfg))) (Bonds cfg)
                      = None).
      { apply foldl_option_append_none. right. eauto. }
      congruence.
  - split; [|done]. intros _.
    apply foldl_option_append_none in Hbonds as [?|(b & Hb & Hnone)]; [done|].
    exists b. by rewrite <- bondMacAddr_none.
Qed.

(** What a successful rendering of the virtual devices holds. *)
Lemma generateNetdevFileContents_files cfg files :
  generateNetdevFileContents cfg = Some files ->
  (forall b, In b (Bonds cfg) ->
     exists mac, bondMacAddr b = Some mac
                 /\ forall f, In f (bondNetdevs b mac) -> In f files)
  /\ (forall v, In v (VLANs cfg) ->
        exists mac, parentMACAddress cfg v = Some mac
                    /\ In (vlanNetdevFile v mac) files).
Proof.
  intros Hfiles. unfold generateNetdevFileContents in Hfiles.
  destruct (foldl _ (Some _) (Bonds cfg)) as [ret|] eqn:Hbonds; [|done].
  simpl in Hfiles.
  apply foldl_option_append in Hfiles as (ret0 & [= <-] & Hret & Hvlans).
  apply foldl_option_append in Hbonds as (_ & _ & _ & Hbonds).
  split.
  - intros b Hb. destruct (Hbonds b Hb) as (mac & Hmac & Hin). eauto.
  - intros v Hv. destruct (Hvlans v Hv) as (mac & Hmac & Hin).
    exists mac. split; [done|]. apply Hin. by left.
Qed.

Lemma MACAddress_line mac : Contains mac LF = false -> Contains ("MACAddress=" +:+ mac) LF = false.
Proof. intros Hmac. by rewrite Contains_append_LF, Hmac. Qed.

(** C4: a bond renders with its address override or else its first
    member's address; a VLAN takes the address of the first interface, else
    of the first bond, that bears its parent's name, and the empty address
    when no device does.  When every bond has an override or a member the
    virtual devices are rendered, and the files of every bond and of every
    VLAN carry that address on their [MACAddress=] line. *)
Theorem bond_and_parent_mac (cfg : SystemNetworkConfig) :
  (forall b, bHwaddr b <> "" -> bondMacAddr b = Some (bHwaddr b))
  /\ (forall b member rest,
        bHwaddr b = "" -> bMembers b = member :: rest -> bondMacAddr b = Some member)
  /\ (forall files, generateNetdevFileContents cfg = Some files ->
        (forall b, In b (Bonds cfg) ->
           exists mac, bondMacAddr b = Some mac
                       /\ forall f, In f (bondNetdevs b mac) -> In f files)
        /\ (forall v, In v (VLANs cfg) ->
              exists mac, parentMACAddress cfg v = Some mac
                          /\ In (vlanNetdevFile v mac) files))
  /\ (uniqueNames cfg ->
      forall v, parentMACAddress cfg v = lookupParentMAC cfg (vParent v))
  /\ (forall v i,
        List.find (fun i => String.eqb (iName i) (vParent v)) (Interfaces cfg) = Some i ->
        iHwaddr i <> "" ->
        parentMACAddress cfg v = Some (iHwaddr i))
  /\ (forall v,
        List.find (fun i => String.eqb (iName i) (vParent v)) (Interfaces cfg) = None ->
        parentMACAddress cfg v
        = match List.find (fun b => String.eqb (bName b) (vParent v)) (Bonds cfg) with
          | Some b => bondMacAddr b
          | None => Some ""
          end)
  /\ (forall v,
        (forall i, In i (Interfaces cfg) -> iName i <> vParent v) ->
        (forall b, In b (Bonds cfg) -> bName b <> vParent v) ->
        parentMACAddress cfg v = Some "")
  /\ (forall b,
        bHwaddr b = "" -> bMembers b = ["aa:bb:cc:dd:ee:ff"; "11:22:33:44:55:66"] ->
        bondMacAddr b = Some "aa:bb:cc:dd:ee:ff"
        /\ map Name (bondNetdevs b "aa:bb:cc:dd:ee:ff")
           = ["11-bnaabbccddeeff.netdev"; "11-braabbccddeeff.netdev"]
        /\ forall f, In f (bondNetdevs b "aa:bb:cc:dd:ee:ff") ->
                     In "MACAddress=aa:bb:cc:dd:ee:ff" (lines (Contents f)))
  /\ ((forall b, In b (Bonds cfg) -> ~ lacksMAC b) ->
      exists files,
        generateNetdevFileContents cfg = Some files
        /\ (forall b, In b (Bonds cfg) ->
              exists mac,
                ((bHwaddr b <> "" /\ mac = bHwaddr b)
                 \/ (bHwaddr b = "" /\ head (bMembers b) = Some mac))
                /\ forall f, In f (bondNetdevs b mac) -> In f files)
        /\ (forall v, In v (VLANs cfg) ->
              exists mac, parentMACAddress cfg v = Some mac
                          /\ In (vlanNetdevFile v mac) files))
  /\ (forall mac,
        Contains mac LF = false ->
        (forall b f, In f (bondNetdevs b mac) ->
                     In ("MACAddress=" +:+ mac) (lines (Contents f)))
        /\ (forall v, In ("MACAddress=" +:+ mac) (lines (Contents (vlanNetdevFile v mac))))).
Proof.
  assert (Hoverride : forall b, bHwaddr b <> "" -> bondMacAddr b = Some (bHwaddr b)).
  { intros b Hne. unfold bondMacAddr. by destruct (String.eqb_spec (bHwaddr b) ""). }
  assert (Hmember : forall b member rest, bHwaddr b = "" ->
                      bMembers b = member :: rest -> bondMacAddr b = Some member).
  { intros b member rest He Hm. unfold bondMacAddr. by rewrite He, Hm. }
  split; [done|]. split; [done|].
  split; [|split; [|split; [|split; [|split; [|split; [|split]]]]]].
  - intros files Hfiles. by apply generateNetdevFileContents_files.
  - intros Huniq v. by apply parentMACAddress_lookup.
  - intros v i Hfind Hne. unfold parentMACAddress.
    rewrite interfaceParentMAC_find, Hfind.
    by destruct (String.eqb_spec (iHwaddr i) "").
  - intros v Hfind. unfold parentMACAddress.
    by rewrite interfaceParentMAC_find, bondParentMAC_find, Hfind.
  - intros v Hi Hb. unfold parentMACAddress.
    rewrite interfaceParentMAC_find, bondParentMAC_find.
    assert (List.find (fun i => String.eqb (iName i) (vParent v)) (Interfaces cfg)
            = None) as ->.
    { apply find_none_iff. intros i Hin. by apply String.eqb_neq, Hi. }
    assert (List.find (fun b => String.eqb (bName b) (vParent v)) (Bonds cfg)
            = None) as ->; [|done].
    apply find_none_iff. intros b Hin. by apply String.eqb_neq, Hb.
  - intros b He Hm. split; [by eapply Hmember|]. split; [done|].
    intros f [<-|[<-|[]]].
    + apply (lines_unlines_in _
               [ "[NetDev]"; "Name=bnaabbccddeeff"; "Kind=bond";
                 "MACAddress=aa:bb:cc:dd:ee:ff"; mtuString (bMTU b); "";
                 "[Bond]"; "Mode=" +:+ bMode b ]); [|done].
      simpl. tauto.
    + apply (lines_unlines_in _
               [ "[NetDev]"; "Name=" +:+ bName b; "Kind=bridge";
                 "MACAddress=aa:bb:cc:dd:ee:ff"; mtuString (bMTU b); "";
                 "[Bridge]"; "VLANFiltering=true" ]); [|done].
      simpl. tauto.
  - intros Hmacs.
    destruct (generateNetdevFileContents cfg) as [files|] eqn:Hfiles.
    2:{ apply generateNetdevFileContents_none in Hfiles as (b & Hb & Hlacks).
        by destruct (Hmacs b Hb). }
    exists files. split; [done|].
    apply generateNetdevFileContents_files in Hfiles as [Hbonds Hvlans].
    split; [|done].
    intros b Hb. destruct (Hbonds b Hb) as (mac & Hmac & Hin).
    exists mac. split; [|done].
    unfold bondMacAddr in Hmac.
    destruct (String.eqb_spec (bHwaddr b) "") as [He|Hne].
    + by right.
    + left. split; [done|]. congruence.
  - intros mac Hmac%MACAddress_line. split.
    + intros b f [<-|[<-|[]]].
      * apply (lines_unlines_in _
                 [ "[NetDev]"; "Name=bn" +:+ strippedHwaddr mac; "Kind=bond";
                   "MACAddress=" +:+ mac; mtuString (bMTU b); "";
                   "[Bond]"; "Mode=" +:+ bMode b ]); [|done].
        simpl. tauto.
      * apply (lines_unlines_in _
                 [ "[NetDev]"; "Name=" +:+ bName b; "Kind=bridge";
                   "MACAddress=" +:+ mac; mtuString (bMTU b); "";
                   "[Bridge]"; "VLANFiltering=true" ]); [|done].
        simpl. tauto.
    + intros v.
      apply (lines_unlines_in _
               [ "[NetDev]"; "Name=" +:+ vName v; "Kind=veth";
                 "MACAddress=" +:+ mac; mtuString (vMTU v); "";
                 "[Peer]"; "Name=vl" +:+ vName v ]); [|done].
      simpl. tauto.
Qed.

End MACDerivation.

(** ** Computations and their histories *)
Section EffectFacts.
Context (env : Env).

Lemma bind_returns {A B} (m : M A) (f : A -> M B) h a h' :
  m h = Returns a h' -> (m ≫= f) h = f a h'.
Proof. unfold mbind, M_bind. by intros ->. Qed.

Lemma orReturn_ok step rest h h' :
  step h = Returns None h' -> orReturn step rest h = rest h'.
Proof. unfold orReturn. intros H. by rewrite (bind_returns _ _ _ _ _ H). Qed.

Lemma orReturn_error step rest h e h' :
  step h = Returns (Some e) h' -> orReturn step rest h = Returns (Some e) h'.
Proof. unfold orReturn. intros H. by rewrite (bind_returns _ _ _ _ _ H). Qed.

Lemma orReturn_panics step rest h h' :
  step h = Panics h' -> orReturn step rest h = Panics h'.
Proof. unfold orReturn, mbind, M_bind. by intros ->. Qed.

Lemma orReturn_unfinished step rest h :
  step h = Unfinished -> orReturn step rest h = Unfinished.
Proof. unfold orReturn, mbind, M_bind. by intros ->. Qed.

Lemma emits_ret {A} P (a : A) : emits P (mret a).
Proof. intros h. exists []. by rewrite app_nil_r. Qed.

Lemma emits_bind {A B} P (m : M A) (f : A -> M B) :
  emits P m -> (forall a, emits P (f a)) -> emits P (m ≫= f).
Proof.
  intros Hm Hf h. specialize (Hm h). unfold mbind, M_bind.
  destruct (m h) as [a h1|h1|]; [|done..].
  destruct Hm as (c1 & -> & Hc1). specialize (Hf a (h ++ c1)).
  destruct (f a (h ++ c1)) as [b h2|h2|]; [| |done];
    destruct Hf as (c2 & -> & Hc2); exists (c1 ++ c2);
    (split; [by rewrite app_assoc|by apply Forall_app]).
Qed.

Lemma emits_impl {A} (P Q : Call -> Prop) (m : M A) :
  (forall c, P c -> Q c) -> emits P m -> emits Q m.
Proof.
  intros HPQ Hm h. specialize (Hm h).
  destruct (m h) as [a h1|h1|]; [| |done];
    destruct Hm as (calls & -> & Hcalls); exists calls;
    (split; [done|]); eapply Forall_impl; eauto.
Qed.

Lemma emits_orReturn P step rest :
  emits P step -> emits P rest -> emits P (orReturn step rest).
Proof.
  intros Hs Hr. apply emits_bind; [done|].
  intros [e|]; [apply emits_ret|done].
Qed.

Lemma emits_perform (P : Call -> Prop) c : P c -> emits P (perform env c).
Proof. intros Hc h. exists [c]. split; [done|]. by constructor. Qed.

Lemma emits_RunCommandContext (P : Call -> Prop) argv :
  P (CallRun argv) -> emits P (RunCommandContext env argv).
Proof. intros Hc h. exists [CallRun argv]. split; [done|]. by constructor. Qed.

Lemma emits_time_Now (P : Call -> Prop) : P CallNow -> emits P (time_Now env).
Proof. intros Hc h. exists [CallNow]. split; [done|]. by constructor. Qed.

Lemma emits_time_Sleep (P : Call -> Prop) d :
  P (CallSleep d) -> emits P (time_Sleep d).
Proof. intros Hc h. exists [CallSleep d]. split; [done|]. by constructor. Qed.

Lemma emits_orPanic {A} P (r : option A) : emits P (orPanic r).
Proof. intros h. unfold orPanic. destruct r; exists []; by rewrite app_nil_r. Qed.

Lemma emits_returns {A} P (m : M A) h a h' :
  emits P m -> m h = Returns a h' -> exists calls, h' = h ++ calls /\ Forall P calls.
Proof. intros Hm Hr. specialize (Hm h). by rewrite Hr in Hm. Qed.

(** The clock along a growing history. *)
Lemma clock_monotone h calls :
  clockAdvances env -> clock env h <= clock env (h ++ calls).
Proof.
  intros Hclock. induction calls as [|c calls IH] using rev_ind.
  - by rewrite app_nil_r.
  - rewrite app_assoc. specialize (Hclock (h ++ calls) c).
    assert (0 <= pause c) by (destruct c; simpl; lia). lia.
Qed.

Lemma clock_after_sleep h d :
  clockAdvances env -> clock env h + d <= clock env (h ++ [CallSleep d]).
Proof. intros Hclock. specialize (Hclock h (CallSleep d)). simpl in Hclock. lia. Qed.

Lemma enoughCycles_outlasts timeout fuel :
  (enoughCycles timeout <= fuel)%nat ->
  (1 <= fuel)%nat /\ timeout < (Z.of_nat fuel - 1) * (500 * Millisecond).
Proof.
  unfold enoughCycles, Millisecond. intros Hfuel. split; [lia|].
  destruct (Z.le_gt_cases 0 timeout) as [Hpos|Hneg].
  - pose proof (Z.mul_succ_div_gt timeout (500 * 1000000) ltac:(lia)).
    assert (Z.of_nat (Z.to_nat (timeout / (500 * 1000000)))
            = timeout / (500 * 1000000)).
    { apply Z2Nat.id, Z.div_pos; lia. }
    nia.
  - nia.
Qed.

End EffectFacts.

(** ** The artifact writer *)
Section ArtifactWriter.
Context (env : Env).
Context (SystemdNetworkConfigPath SystemdTimesyncConfigFile : string).
Context (filepath_Join : string -> string -> string).

Lemma generateTimesyncContents_empty ntp :
  generateTimesyncContents ntp = "" <-> Timeservers ntp = [].
Proof.
  unfold generateTimesyncContents. by destruct (Timeservers ntp).
Qed.

Lemma writeTimesync_absent cfg h :
  NTP cfg = None \/ (exists ntp, NTP cfg = Some ntp /\ Timeservers ntp = []) ->
  writeTimesync env SystemdTimesyncConfigFile cfg h
  = Returns None (h ++ [CallRemove SystemdTimesyncConfigFile]).
Proof.
  unfold writeTimesync. intros [Hnone|(ntp & Hsome & Hts)].
  - by rewrite Hnone.
  - rewrite Hsome. apply generateTimesyncContents_empty in Hts. by rewrite Hts.
Qed.

Lemma writeTimesync_configured cfg ntp h :
  NTP cfg = Some ntp -> Timeservers ntp <> [] ->
  let write := CallWriteFile SystemdTimesyncConfigFile
                 (generateTimesyncContents ntp) perm_0o644 in
  writeTimesync env SystemdTimesyncConfigFile cfg h
  = Returns (call_error env h write) (h ++ [write]).
Proof.
  intros Hsome Hts write. unfold writeTimesync. rewrite Hsome.
  assert (Hne : String.eqb (generateTimesyncContents ntp) "" = false).
  { apply String.eqb_neq. by rewrite generateTimesyncContents_empty. }
  rewrite Hne. cbn [negb orb].
  unfold orReturn, os_WriteFile, perform, mbind, M_bind. fold write.
  replace (bool_decide (Some ntp = None)) with false by by rewrite bool_decide_eq_false_2.
  by destruct (call_error env h write).
Qed.

Lemma emits_writeFiles files :
  emits isFileCall (writeFiles env SystemdNetworkConfigPath filepath_Join files).
Proof.
  induction files as [|cfg files IH]; [apply emits_ret|].
  apply emits_orReturn; [by apply emits_perform|done].
Qed.

(** The writer only touches the file system. *)
Lemma emits_generateNetworkConfiguration cfg :
  emits isFileCall
        (generateNetworkConfiguration env SystemdNetworkConfigPath
           SystemdTimesyncConfigFile filepath_Join cfg).
Proof.
  unfold generateNetworkConfiguration, writeArtifacts, writeTimesync.
  repeat first
    [ apply emits_orReturn
    | apply emits_bind; [|intros ?]
    | by apply emits_perform
    | apply emits_writeFiles
    | apply emits_orPanic
    | apply emits_ret
    | match goal with |- emits _ (match ?x with _ => _ end) => destruct x end ].
Qed.

(** C10: once the artifacts are written, a configuration without
    timeservers has the stale fallback file removed and the writer
    succeeds whatever that removal returns; with timeservers the fallback
    file is written, the outcome of that write is the writer's result, and
    nothing is removed. *)
Theorem timesync_fallback_file (cfg : SystemNetworkConfig) (h h1 : history) :
  writeArtifacts env SystemdNetworkConfigPath filepath_Join cfg h = Returns None h1 ->
  (NTP cfg = None \/ (exists ntp, NTP cfg = Some ntp /\ generateTimesyncContents ntp = "") ->
   generateNetworkConfiguration env SystemdNetworkConfigPath SystemdTimesyncConfigFile
     filepath_Join cfg h
   = Returns None (h1 ++ [CallRemove SystemdTimesyncConfigFile]))
  /\ (forall ntp,
        NTP cfg = Some ntp -> Timeservers ntp <> [] ->
        let write := CallWriteFile SystemdTimesyncConfigFile
                       (generateTimesyncContents ntp) perm_0o644 in
        generateNetworkConfiguration env SystemdNetworkConfigPath
          SystemdTimesyncConfigFile filepath_Join cfg h
        = Returns (call_error env h1 write) (h1 ++ [write]))
  /\ (forall ntp, generateTimesyncContents ntp = "" <-> Timeservers ntp = []).
Proof.
  intros Hartifacts. unfold generateNetworkConfiguration.
  rewrite (orReturn_ok _ _ _ _ Hartifacts).
  split; [|split].
  - intros Habsent. apply writeTimesync_absent.
    destruct Habsent as [?|(ntp & ? & ?%generateTimesyncContents_empty)]; eauto.
  - intros ntp Hsome Hts. by apply writeTimesync_configured.
  - apply generateTimesyncContents_empty.
Qed.

End ArtifactWriter.

(** ** The rename convergence waiter *)
Section RenameWait.
Context (env : Env).

(** One iteration of the loop. *)
Lemma renameLoop_step fuel endTime h :
  renameLoop env (S fuel) endTime h =
    let h1 := h ++ [CallNow] in
    if endTime <? clock env h then Returns (Some renameTimeout) h1
    else
      match command_result env h1 udevadmTrigger with
      | inr err => Returns (Some err) (h1 ++ [CallRun udevadmTrigger])
      | inl _ =>
          let h2 := h1 ++ [CallRun udevadmTrigger] in
          match command_result env h2 udevadmSettle with
          | inr err => Returns (Some err) (h2 ++ [CallRun udevadmSettle])
          | inl _ =>
              let h3 := h2 ++ [CallRun udevadmSettle] in
              match command_result env h3 journalctlRenamed with
              | inl _ => Returns None (h3 ++ [CallRun journalctlRenamed])
              | inr _ =>
                  renameLoop env fuel endTime
                    ((h3 ++ [CallRun journalctlRenamed])
                       ++ [CallSleep (500 * Millisecond)])
              end
          end
      end.
Proof.
  cbn [renameLoop]. unfold mbind, M_bind, time_Now, RunCommandContext, time_Sleep, mret, M_ret.
  cbv zeta. destruct (endTime <? clock env h); [done|].
  destruct (command_result env (h ++ [CallNow]) udevadmTrigger); [|done].
  destruct (command_result env ((h ++ [CallNow]) ++ [CallRun udevadmTrigger]) udevadmSettle); [|done].
  by destruct (command_result env _ journalctlRenamed).
Qed.

Lemma renameLoop_ending fuel endTime h r h' :
  renameLoop env fuel endTime h = Returns r h' -> renameEnding env endTime r h'.
Proof.
  revert h. induction fuel as [|fuel IH]; intros h; [done|].
  rewrite renameLoop_step. cbv zeta.
  destruct (Z.ltb_spec endTime (clock env h)) as [Hlate|_].
  { intros [= <- <-]. exists h. right. left. done. }
  destruct (command_result env (h ++ [CallNow]) udevadmTrigger) as [?|err] eqn:Htrigger.
  2:{ intros [= <- <-]. exists (h ++ [CallNow]). right. right. exists err. auto. }
  destruct (command_result env _ udevadmSettle) as [?|err] eqn:Hsettle.
  2:{ intros [= <- <-]. eexists. right. right. exists err. split; [done|]. right. eauto. }
  destruct (command_result env _ journalctlRenamed) as [out|?] eqn:Hjournal.
  - intros [= <- <-]. eexists. left. eauto.
  - apply IH.
Qed.

Lemma renameLoop_returns fuel endTime h :
  clockAdvances env ->
  (1 <= fuel)%nat ->
  endTime < clock env h + (Z.of_nat fuel - 1) * (500 * Millisecond) ->
  exists r h', renameLoop env fuel endTime h = Returns r h'.
Proof.
  intros Hclock. revert h. induction fuel as [|fuel IH]; intros h Hfuel Hend; [lia|].
  rewrite renameLoop_step. cbv zeta.
  destruct (Z.ltb_spec endTime (clock env h)) as [Hlate|Hearly]; [by eauto|].
  destruct (command_result env (h ++ [CallNow]) udevadmTrigger); [|by eauto].
  destruct (command_result env _ udevadmSettle); [|by eauto].
  destruct (command_result env _ journalctlRenamed); [by eauto|].
  apply IH.
  - unfold Millisecond in *. lia.
  - pose proof (clock_after_sleep env
                  (((h ++ [CallNow]) ++ [CallRun udevadmTrigger]) ++ [CallRun udevadmSettle]
                     ++ [CallRun journalctlRenamed])
                  (500 * Millisecond) Hclock) as Hsleep.
    pose proof (clock_monotone env h
                  ([CallNow] ++ [CallRun udevadmTrigger] ++ [CallRun udevadmSettle]
                     ++ [CallRun journalctlRenamed]) Hclock) as Hmono.
    rewrite <- !app_assoc in *. simpl in *. unfold Millisecond in *. lia.
Qed.

(** The loop returns success from the first iteration whose kernel-log
    query finds the rename, when the iterations up to it start within the
    deadline and their trigger and settle commands succeed. *)
Lemma renameLoop_success n fuel endTime h :
  (forall k, (k <= n)%nat ->
     clock env (h ++ failedCycles k) <= endTime
     /\ (exists out, command_result env (h ++ failedCycles k ++ [CallNow])
                       udevadmTrigger = inl out)
     /\ (exists out, command_result env
                       (h ++ failedCycles k ++ [CallNow; CallRun udevadmTrigger])
                       udevadmSettle = inl out)) ->
  (forall k, (k < n)%nat ->
     exists err, command_result env
                   (h ++ failedCycles k
                      ++ [CallNow; CallRun udevadmTrigger; CallRun udevadmSettle])
                   journalctlRenamed = inr err) ->
  (exists out, command_result env
                 (h ++ failedCycles n
                    ++ [CallNow; CallRun udevadmTrigger; CallRun udevadmSettle])
                 journalctlRenamed = inl out) ->
  renameLoop env (S (n + fuel)) endTime h
  = Returns None
      (h ++ failedCycles n
         ++ [CallNow; CallRun udevadmTrigger; CallRun udevadmSettle;
             CallRun journalctlRenamed]).
Proof.
  revert h. induction n as [|n IH]; intros h Hok Hfail Hfound.
  - destruct (Hok 0%nat ltac:(lia)) as (Hearly & [out1 Htrigger] & [out2 Hsettle]).
    destruct Hfound as [out Hfound].
    cbn [failedCycles replicate concat app] in *. rewrite app_nil_r in Hearly.
    rewrite renameLoop_step. cbv zeta.
    rewrite (proj2 (Z.ltb_ge _ _) Hearly), Htrigger.
    rewrite <- !app_assoc. cbn [app]. by rewrite Hsettle, Hfound.
  - destruct (Hok 0%nat ltac:(lia)) as (Hearly & [out1 Htrigger] & [out2 Hsettle]).
    destruct (Hfail 0%nat ltac:(lia)) as [err Hnothing].
    cbn [failedCycles replicate concat app] in Hearly, Htrigger, Hsettle, Hnothing.
    rewrite app_nil_r in Hearly.
    cbn [Nat.add]. rewrite renameLoop_step. cbv zeta.
    rewrite (proj2 (Z.ltb_ge _ _) Hearly), Htrigger.
    rewrite <- !app_assoc. cbn [app]. rewrite Hsettle, Hnothing.
    change (h ++ [CallNow; CallRun udevadmTrigger; CallRun udevadmSettle;
                  CallRun journalctlRenamed; CallSleep (500 * Millisecond)])
      with (h ++ failedCycle).
    assert (Hshift : forall k calls,
               (h ++ failedCycle) ++ failedCycles k ++ calls
               = h ++ failedCycles (S k) ++ calls).
    { intros k calls. unfold failedCycles. cbn [replicate concat].
      by rewrite <- !app_assoc. }
    rewrite IH.
    + by rewrite Hshift.
    + intros k Hk. destruct (Hok (S k) ltac:(lia)) as (Hk1 & Hk2 & Hk3).
      rewrite !Hshift.
      pose proof (Hshift k []) as Hnil. rewrite !app_nil_r in Hnil.
      by rewrite Hnil.
    + intros k Hk. rewrite Hshift. apply Hfail. lia.
    + by rewrite Hshift.
Qed.

(** C8: the rename waiter ends in one of three ways: with success right
    after a kernel-log query that found the rename, with the timeout error
    at a clock reading past the deadline, or with the error of a trigger
    or settle command right after that command (no retry).  A log query
    that finds nothing is followed by a 500 ms sleep and a new iteration;
    a log query that finds the rename ends the wait with success, in the
    first iteration or after any number of iterations that found nothing.
    Under a clock that advances, the waiter returns, and returns the
    timeout error when no query ever finds the rename. *)
Theorem rename_wait_outcomes :
  (forall fuel timeout h r h',
      waitForUdevInterfaceRename env fuel timeout h = Returns r h' ->
      renameEnding env (clock env h + timeout) r h')
  /\ (forall fuel endTime h err,
        clock env h <= endTime ->
        command_result env (h ++ [CallNow]) udevadmTrigger = inr err ->
        renameLoop env (S fuel) endTime h
        = Returns (Some err) (h ++ [CallNow; CallRun udevadmTrigger]))
  /\ (forall fuel endTime h out err,
        clock env h <= endTime ->
        command_result env (h ++ [CallNow]) udevadmTrigger = inl out ->
        command_result env (h ++ [CallNow; CallRun udevadmTrigger]) udevadmSettle = inr err ->
        renameLoop env (S fuel) endTime h
        = Returns (Some err) (h ++ [CallNow; CallRun udevadmTrigger; CallRun udevadmSettle]))
  /\ (forall fuel endTime h out1 out2 err,
        clock env h <= endTime ->
        command_result env (h ++ [CallNow]) udevadmTrigger = inl out1 ->
        command_result env (h ++ [CallNow; CallRun udevadmTrigger]) udevadmSettle = inl out2 ->
        command_result env (h ++ [CallNow; CallRun udevadmTrigger; CallRun udevadmSettle])
          journalctlRenamed = inr err ->
        renameLoop env (S fuel) endTime h
        = renameLoop env fuel endTime
            (h ++ [CallNow; CallRun udevadmTrigger; CallRun udevadmSettle;
                   CallRun journalctlRenamed; CallSleep (500 * Millisecond)]))
  /\ (clockAdvances env ->
      forall fuel timeout h,
        (enoughCycles timeout <= fuel)%nat ->
        exists r h', waitForUdevInterfaceRename env fuel timeout h = Returns r h')
  /\ (clockAdvances env ->
      (forall h, exists out, command_result env h udevadmTrigger = inl out) ->
      (forall h, exists out, command_result env h udevadmSettle = inl out) ->
      (forall h, exists err, command_result env h journalctlRenamed = inr err) ->
      forall fuel timeout h,
        (enoughCycles timeout <= fuel)%nat ->
        exists h', waitForUdevInterfaceRename env fuel timeout h
                   = Returns (Some renameTimeout) h')
  /\ (forall fuel endTime h out1 out2 out,
        clock env h <= endTime ->
        command_result env (h ++ [CallNow]) udevadmTrigger = inl out1 ->
        command_result env (h ++ [CallNow; CallRun udevadmTrigger]) udevadmSettle = inl out2 ->
        command_result env (h ++ [CallNow; CallRun udevadmTrigger; CallRun udevadmSettle])
          journalctlRenamed = inl out ->
        renameLoop env (S fuel) endTime h
        = Returns None
            (h ++ [CallNow; CallRun udevadmTrigger; CallRun udevadmSettle;
                   CallRun journalctlRenamed]))
  /\ (forall n fuel timeout h,
        (forall k, (k <= n)%nat ->
           clock env (h ++ CallNow :: failedCycles k) <= clock env h + timeout
           /\ (exists out,
                 command_result env (h ++ CallNow :: failedCycles k ++ [CallNow])
                   udevadmTrigger = inl out)
           /\ (exists out,
                 command_result env
                   (h ++ CallNow :: failedCycles k ++ [CallNow; CallRun udevadmTrigger])
                   udevadmSettle = inl out)) ->
        (forall k, (k < n)%nat ->
           exists err,
             command_result env
               (h ++ CallNow :: failedCycles k
                  ++ [CallNow; CallRun udevadmTrigger; CallRun udevadmSettle])
               journalctlRenamed = inr err) ->
        (exists out,
           command_result env
             (h ++ CallNow :: failedCycles n
                ++ [CallNow; CallRun udevadmTrigger; CallRun udevadmSettle])
             journalctlRenamed = inl out) ->
        waitForUdevInterfaceRename env (S (n + fuel)) timeout h
        = Returns None
            (h ++ CallNow :: failedCycles n
               ++ [CallNow; CallRun udevadmTrigger; CallRun udevadmSettle;
                   CallRun journalctlRenamed])).
Proof.
  assert (Hending : forall fuel timeout h r h',
             waitForUdevInterfaceRename env fuel timeout h = Returns r h' ->
             renameEnding env (clock env h + timeout) r h').
  { intros fuel timeout h r h'. unfold waitForUdevInterfaceRename.
    unfold mbind, M_bind, time_Now. apply renameLoop_ending. }
  assert (Hreturns : clockAdvances env -> forall fuel timeout h,
             (enoughCycles timeout <= fuel)%nat ->
             exists r h', waitForUdevInterfaceRename env fuel timeout h = Returns r h').
  { intros Hclock fuel timeout h [Hfuel Hlast]%enoughCycles_outlasts.
    unfold waitForUdevInterfaceRename, mbind, M_bind, time_Now.
    apply renameLoop_returns; [done..|].
    pose proof (clock_monotone env h [CallNow] Hclock). lia. }
  split; [done|]. split; [|split; [|split; [|split; [done|split; [|split]]]]].
  - intros fuel endTime h err Hearly Htrigger. rewrite renameLoop_step. cbv zeta.
    rewrite (proj2 (Z.ltb_ge _ _) Hearly), Htrigger. by rewrite <- app_assoc.
  - intros fuel endTime h out err Hearly Htrigger Hsettle.
    rewrite renameLoop_step. cbv zeta.
    rewrite (proj2 (Z.ltb_ge _ _) Hearly), Htrigger.
    rewrite <- !app_assoc. cbn [app]. by rewrite Hsettle.
  - intros fuel endTime h out1 out2 err Hearly Htrigger Hsettle Hjournal.
    rewrite renameLoop_step. cbv zeta.
    rewrite (proj2 (Z.ltb_ge _ _) Hearly), Htrigger.
    rewrite <- !app_assoc. cbn [app]. by rewrite Hsettle, Hjournal.
  - intros Hclock Htrigger Hsettle Hjournal fuel timeout h Hfuel.
    destruct (Hreturns Hclock fuel timeout h Hfuel) as (r & h' & Hrun).
    exists h'. rewrite Hrun. f_equal.
    destruct (Hending _ _ _ _ _ Hrun) as
      (before & [(_ & _ & out & Hout)|[(-> & _)|(err & _ & [[_ Herr]|[_ Herr]])]]).
    + destruct (Hjournal before) as (err & Herr). congruence.
    + done.
    + destruct (Htrigger before) as (out & Hout). congruence.
    + destruct (Hsettle before) as (out & Hout). congruence.
  - intros fuel endTime h out1 out2 out Hearly Htrigger Hsettle Hfound.
    rewrite renameLoop_step. cbv zeta.
    rewrite (proj2 (Z.ltb_ge _ _) Hearly), Htrigger.
    rewrite <- !app_assoc. cbn [app]. by rewrite Hsettle, Hfound.
  - intros n fuel timeout h Hok Hfail Hfound.
    assert (Hcons : forall calls, h ++ CallNow :: calls = (h ++ [CallNow]) ++ calls).
    { intros calls. by rewrite <- app_assoc. }
    unfold waitForUdevInterfaceRename, mbind, M_bind, time_Now.
    rewrite (Hcons (failedCycles n ++ _)). apply renameLoop_success.
    + intros k Hk. destruct (Hok k Hk) as (Hk1 & Hk2 & Hk3).
      rewrite <- !(Hcons (failedCycles k ++ _)).
      pose proof (Hcons (failedCycles k)) as Hnil. by rewrite <- Hnil.
    + intros k Hk. rewrite <- (Hcons (failedCycles k ++ _)). by apply Hfail.
    + by rewrite <- (Hcons (failedCycles n ++ _)).
Qed.

End RenameWait.

(** ** The online convergence waiter *)
Section OnlineWait.
Context (env : Env).

(** *** The device map *)

Lemma foldl_map {A B C} (f : A -> B -> A) (g : C -> B) (l : list C) (a : A) :
  foldl f a (map g l) = foldl (fun a x => f a (g x)) a l.
Proof. revert a. induction l as [|x l IH]; intros a; simpl; [done|apply IH]. Qed.

Lemma devicesToCheck_declared cfg :
  devicesToCheck cfg
  = foldl (fun m d => checkDevice m d.1 d.2) ∅ (declaredDevices cfg).
Proof.
  unfold devicesToCheck, declaredDevices.
  by rewrite !foldl_app, !foldl_map.
Qed.

Lemma checkDevice_lookup (m : gmap string Z) name addresses name' :
  checkDevice m name addresses !! name'
  = if decide (name = name' /\ addresses <> [])
    then Some (Z.of_nat (length addresses))
    else m !! name'.
Proof.
  unfold checkDevice. destruct addresses as [|a l]; cbn [length Nat.eqb].
  - by destruct (decide _) as [[_ ?]|_].
  - rewrite lookup_insert. destruct (decide (name = name')) as [->|Hne].
    + by rewrite decide_True.
    + rewrite decide_False; [done|]. by intros [? _].
Qed.

Lemma checked_devices_untouched (l : list (string * list string))
  (m : gmap string Z) name :
  ~ In name (map fst l) ->
  foldl (fun m d => checkDevice m d.1 d.2) m l !! name = m !! name.
Proof.
  revert m. induction l as [|[name0 addrs0] l IH]; intros m Hnot; [done|].
  simpl in *. rewrite IH by tauto. rewrite checkDevice_lookup.
  rewrite decide_False; [done|]. intros [-> _]. tauto.
Qed.

Lemma checked_devices_lookup (l : list (string * list string))
  (m : gmap string Z) name addresses :
  NoDup (map fst l) -> In (name, addresses) l -> addresses <> [] ->
  foldl (fun m d => checkDevice m d.1 d.2) m l !! name
  = Some (Z.of_nat (length addresses)).
Proof.
  revert m. induction l as [|[name0 addrs0] l IH]; intros m Hnodup Hin Hne; [done|].
  simpl in Hnodup. apply NoDup_cons in Hnodup as [Hfresh Hnodup].
  destruct Hin as [[= -> ->]|Hin]; simpl.
  - rewrite checked_devices_untouched by (by rewrite <- list_elem_of_In).
    rewrite checkDevice_lookup. by rewrite decide_True.
  - by apply IH.
Qed.

Lemma checked_devices_origin (l : list (string * list string))
  (m : gmap string Z) name n :
  foldl (fun m d => checkDevice m d.1 d.2) m l !! name = Some n ->
  m !! name = Some n
  \/ exists addresses, In (name, addresses) l /\ addresses <> []
                       /\ n = Z.of_nat (length addresses).
Proof.
  revert m. induction l as [|[name0 addrs0] l IH]; intros m Hlook; [by left|].
  simpl in Hlook. apply IH in Hlook as [Hlook|(addrs & Hin & Hne & ->)].
  - rewrite checkDevice_lookup in Hlook. case_decide as Hd.
    + destruct Hd as [<- Hne]. injection Hlook as <-.
      right. exists addrs0. split; [by left|done].
    + by left.
  - right. exists addrs. split; [by right|done].
Qed.

Lemma devicesToCheck_lookup cfg name addresses :
  uniqueNames cfg -> In (name, addresses) (declaredDevices cfg) -> addresses <> [] ->
  devicesToCheck cfg !! name = Some (Z.of_nat (length addresses)).
Proof.
  intros Huniq. rewrite devicesToCheck_declared. apply checked_devices_lookup.
  unfold uniqueNames, deviceNames in Huniq. unfold declaredDevices.
  by rewrite !map_app, !map_map.
Qed.

Lemma devicesToCheck_origin cfg name n :
  devicesToCheck cfg !! name = Some n ->
  exists addresses, In (name, addresses) (declaredDevices cfg) /\ addresses <> []
                    /\ n = Z.of_nat (length addresses).
Proof.
  rewrite devicesToCheck_declared. intros [Hlook|?]%checked_devices_origin; [|done].
  by rewrite lookup_empty in Hlook.
Qed.

(** *** Counting addresses *)

Lemma countIPs_loop matches acc :
  foldl (fun numIPs addr => if HasPrefix addr "fe80:" then numIPs else numIPs + 1)
        acc matches
  = acc + Z.of_nat (length (List.filter (fun addr => negb (HasPrefix addr "fe80:"))
                                        matches)).
Proof.
  revert acc. induction matches as [|addr l IH]; intros acc.
  - simpl. lia.
  - cbn [foldl List.filter]. rewrite IH.
    destruct (HasPrefix addr "fe80:"); cbn [negb length]; lia.
Qed.

Lemma countIPs_filter matches :
  countIPs matches
  = Z.of_nat (length (List.filter (fun addr => negb (HasPrefix addr "fe80:")) matches)).
Proof. unfold countIPs. rewrite countIPs_loop. lia. Qed.

(** *** One poll cycle *)

Lemma allDevicesOnline_step name numIPs rest h :
  allDevicesOnline env ((name, numIPs) :: rest) h =
    let h1 := h ++ [statusCall name] in
    let h2 := h1 ++ [addressCall name] in
    match command_result env h ["networkctl"; "status"; name] with
    | inr _ => Returns false h1
    | inl status =>
        if Contains status "Online state: online" then
          let n := match command_result env h1 ["ip"; "address"; "show"; name] with
                   | inr _ => -1
                   | inl addresses =>
                       countIPs (ipAddressRegex.FindAllStringSubmatch addresses)
                   end in
          if n =? numIPs then allDevicesOnline env rest h2 else Returns false h2
        else Returns false h1
    end.
Proof.
  cbn [allDevicesOnline].
  unfold isOnline, getNumberOfIPs, mbind, M_bind, RunCommandContext, mret, M_ret,
    statusCall, addressCall.
  cbv zeta.
  destruct (command_result env h _) as [status|]; [|done].
  destruct (Contains status _); [|done]. cbn [negb].
  destruct (command_result env _ _) as [addresses|];
    by destruct (_ =? numIPs).
Qed.

Lemma isQueryOf_cons d devices c : isQueryOf devices c -> isQueryOf (d :: devices) c.
Proof. intros (name & n & Hin & Hc). exists name, n. split; [by right|done]. Qed.

Lemma isQueryOf_not_sleep devices c d : isQueryOf devices c -> c <> CallSleep d.
Proof. by intros (name & n & _ & [-> | ->]). Qed.

(** A cycle always completes, and only queries the given devices. *)
Lemma allDevicesOnline_calls devices h :
  exists b calls,
    allDevicesOnline env devices h = Returns b (h ++ calls)
    /\ Forall (isQueryOf devices) calls.
Proof.
  revert h. induction devices as [|[name numIPs] rest IH]; intros h.
  { exists true, []. by rewrite app_nil_r. }
  assert (Hstatus : isQueryOf ((name, numIPs) :: rest) (statusCall name)).
  { exists name, numIPs. split; [by left|by left]. }
  assert (Haddress : isQueryOf ((name, numIPs) :: rest) (addressCall name)).
  { exists name, numIPs. split; [by left|by right]. }
  rewrite allDevicesOnline_step. cbv zeta.
  destruct (command_result env h _) as [status|].
  2:{ exists false, [statusCall name]. split; [done|by constructor]. }
  destruct (Contains status _).
  2:{ exists false, [statusCall name]. split; [done|by constructor]. }
  destruct (_ =? numIPs).
  2:{ exists false, [statusCall name; addressCall name].
      split; [by rewrite <- app_assoc|by repeat constructor]. }
  destruct (IH ((h ++ [statusCall name]) ++ [addressCall name]))
    as (b & calls & -> & Hcalls).
  exists b, (statusCall name :: addressCall name :: calls). split.
  - by rewrite <- !app_assoc.
  - repeat (constructor; [done|]).
    eapply Forall_impl; [exact Hcalls|]. apply isQueryOf_cons.
Qed.

(** A cycle that reports all devices online has observed each of them. *)
Lemma allDevicesOnline_true devices h h' :
  Forall (fun d => d.2 <> -1) devices ->
  allDevicesOnline env devices h = Returns true h' ->
  forall name n, In (name, n) devices -> observedOnline env h' name n.
Proof.
  revert h. induction devices as [|[name0 n0] rest IH]; intros h Hvalid Hrun name n Hin;
    [done|].
  apply Forall_cons in Hvalid as [Hn0 Hvalid]. simpl in Hn0.
  rewrite allDevicesOnline_step in Hrun. cbv zeta in Hrun.
  destruct (command_result env h _) as [status|] eqn:Hstatus; [|done].
  destruct (Contains status _) eqn:Honline; [|done].
  destruct (command_result env (h ++ [statusCall name0]) _)
    as [addresses|] eqn:Haddresses.
  2:{ destruct (Z.eqb_spec (-1) n0); [by subst|done]. }
  destruct (Z.eqb_spec (countIPs (ipAddressRegex.FindAllStringSubmatch addresses)) n0)
    as [Hcount|]; [|done].
  destruct Hin as [[= -> ->]|Hin]; [|by eapply IH].
  destruct (allDevicesOnline_calls rest
              ((h ++ [statusCall name]) ++ [addressCall name]))
    as (b & after & Hafter & Hqueries).
  rewrite Hafter in Hrun. injection Hrun as _ <-.
  exists h, after, status, addresses.
  split; [by rewrite <- !app_assoc|]. split.
  { intros d Hd. rewrite Forall_forall in Hqueries.
    apply list_elem_of_In, Hqueries in Hd. by eapply isQueryOf_not_sleep. }
  split; [done|]. split; [done|]. split; [done|].
  unfold nonLinkLocal. by rewrite <- countIPs_filter.
Qed.

(** *** The polling loop *)

Lemma onlineLoop_step fuel endTime devices h :
  onlineLoop env (S fuel) endTime devices h =
    let h1 := h ++ [CallNow] in
    if endTime <? clock env h then Returns (Some onlineTimeout) h1
    else
      match allDevicesOnline env (range_order env h1 (map_to_list devices)) h1 with
      | Returns true h2 => Returns None h2
      | Returns false h2 =>
          onlineLoop env fuel endTime devices (h2 ++ [CallSleep (500 * Millisecond)])
      | Panics h2 => Panics h2
      | Unfinished => Unfinished
      end.
Proof.
  cbn [onlineLoop]. unfold mbind, M_bind, time_Now, rangeMap, time_Sleep, mret, M_ret.
  cbv zeta. destruct (endTime <? clock env h); [done|].
  by destruct (allDevicesOnline env _ _) as [[] ?| |].
Qed.

Lemma range_order_In h (devices : gmap string Z) name n :
  In (name, n) (range_order env h (map_to_list devices)) <-> devices !! name = Some n.
Proof.
  rewrite <- elem_of_map_to_list, <- list_elem_of_In.
  by rewrite (range_order_perm env h (map_to_list devices)).
Qed.

Lemma onlineLoop_outcome fuel endTime (devices : gmap string Z) h r h' :
  (forall name n, devices !! name = Some n -> n <> -1) ->
  onlineLoop env fuel endTime devices h = Returns r h' ->
  (r = None \/ r = Some onlineTimeout)
  /\ (exists calls,
        h' = h ++ calls
        /\ Forall (fun c => c = CallNow \/ c = CallSleep (500 * Millisecond)
                            \/ exists name n, devices !! name = Some n
                                 /\ (c = statusCall name \/ c = addressCall name))
                  calls)
  /\ (r = None -> forall name n, devices !! name = Some n -> observedOnline env h' name n)
  /\ (r = Some onlineTimeout ->
      exists before, h' = before ++ [CallNow] /\ endTime < clock env before).
Proof.
  intros Hvalid. revert h. induction fuel as [|fuel IH]; intros h; [done|].
  rewrite onlineLoop_step. cbv zeta.
  destruct (Z.ltb_spec endTime (clock env h)) as [Hlate|_].
  { intros [= <- <-]. split; [by right|]. split; [|split; [done|]].
    - exists [CallNow]. split; [done|]. constructor; [by left|done].
    - intros _. by exists h. }
  set (entries := range_order env (h ++ [CallNow]) (map_to_list devices)).
  destruct (allDevicesOnline_calls entries (h ++ [CallNow]))
    as (b & calls & Hcycle & Hcalls).
  rewrite Hcycle.
  assert (Hcalls' : Forall (fun c => c = CallNow \/ c = CallSleep (500 * Millisecond)
                       \/ exists name n, devices !! name = Some n
                            /\ (c = statusCall name \/ c = addressCall name))
                      ([CallNow] ++ calls)).
  { apply Forall_app. split; [constructor; [by left|done]|].
    eapply Forall_impl; [exact Hcalls|]. intros c (name & n & Hin & Hc).
    right. right. exists name, n. split; [|done]. by eapply range_order_In. }
  destruct b.
  - intros [= <- <-]. split; [by left|]. split; [|split; [|done]].
    + exists ([CallNow] ++ calls). by rewrite app_assoc.
    + intros _ name n Hlook.
      eapply allDevicesOnline_true; [|exact Hcycle|by apply range_order_In].
      apply Forall_forall. intros [name' n'] Hin%list_elem_of_In%range_order_In.
      simpl. by eapply Hvalid.
  - intros (Hr & (calls' & -> & Hcalls'') & Hobs & Hlate)%IH.
    split; [done|]. split; [|done].
    exists (([CallNow] ++ calls) ++ [CallSleep (500 * Millisecond)] ++ calls').
    split; [by rewrite <- !app_assoc|].
    apply Forall_app. split; [done|].
    apply Forall_app. split; [|done]. constructor; [|done]. right. by left.
Qed.

Lemma onlineLoop_returns fuel endTime (devices : gmap string Z) h :
  clockAdvances env ->
  (1 <= fuel)%nat ->
  endTime < clock env h + (Z.of_nat fuel - 1) * (500 * Millisecond) ->
  exists r h', onlineLoop env fuel endTime devices h = Returns r h'.
Proof.
  intros Hclock. revert h. induction fuel as [|fuel IH]; intros h Hfuel Hend; [lia|].
  rewrite onlineLoop_step. cbv zeta.
  destruct (Z.ltb_spec endTime (clock env h)) as [Hlate|Hearly]; [by eauto|].
  destruct (allDevicesOnline_calls
              (range_order env (h ++ [CallNow]) (map_to_list devices)) (h ++ [CallNow]))
    as (b & calls & -> & _).
  destruct b; [by eauto|].
  apply IH.
  - unfold Millisecond in *. lia.
  - pose proof (clock_after_sleep env ((h ++ [CallNow]) ++ calls)
                  (500 * Millisecond) Hclock) as Hsleep.
    pose proof (clock_monotone env h ([CallNow] ++ calls) Hclock) as Hmono.
    rewrite <- !app_assoc in *. unfold Millisecond in *. lia.
Qed.

Lemma onlineLoop_no_panic fuel endTime (devices : gmap string Z) h h' :
  onlineLoop env fuel endTime devices h <> Panics h'.
Proof.
  revert h. induction fuel as [|fuel IH]; intros h; [done|].
  rewrite onlineLoop_step. cbv zeta.
  destruct (endTime <? clock env h); [done|].
  destruct (allDevicesOnline_calls
              (range_order env (h ++ [CallNow]) (map_to_list devices)) (h ++ [CallNow]))
    as (b & calls & -> & _).
  destruct b; [done|apply IH].
Qed.

Lemma declared_names cfg : map fst (declaredDevices cfg) = deviceNames cfg.
Proof. unfold declaredDevices, deviceNames. by rewrite !map_app, !map_map. Qed.

Lemma NoDup_fst_functional {A B} (l : list (A * B)) a b b' :
  NoDup (map fst l) -> In (a, b) l -> In (a, b') l -> b = b'.
Proof.
  induction l as [|[a0 b0] l IH]; [done|].
  simpl. intros [Hfresh Hnodup]%NoDup_cons Hin Hin'.
  destruct Hin as [Heq|Hin], Hin' as [Heq'|Hin'].
  - congruence.
  - injection Heq as -> ->. destruct Hfresh.
    apply list_elem_of_In, in_map_iff. by exists (a, b').
  - injection Heq' as -> ->. destruct Hfresh.
    apply list_elem_of_In, in_map_iff. by exists (a, b).
  - by apply IH.
Qed.

(** C1: the online waiter returns success only from a poll cycle in which
    every device that declares addresses was seen online with exactly as
    many non-link-local addresses as it declares; it never queries a device
    without addresses; a failing query makes the cycle unsuccessful and is
    retried after 500 ms; the only error it returns is the timeout, at a
    clock reading past the deadline; and under a clock that advances it
    does return. *)
Theorem online_wait_outcome (cfg : SystemNetworkConfig) (timeout : Z)
  (fuel : nat) (h : history) :
  (forall r h',
      waitForNetworkOnline env fuel cfg timeout h = Returns r h' ->
      (r = None \/ r = Some onlineTimeout)
      /\ (exists calls,
            h' = h ++ calls /\ Forall (isOnlineWaitCall cfg) calls
            /\ (uniqueNames cfg ->
                forall name, In (name, []) (declaredDevices cfg) ->
                             ~ In (statusCall name) calls
                             /\ ~ In (addressCall name) calls))
      /\ (r = None -> uniqueNames cfg ->
          forall name addresses,
            In (name, addresses) (declaredDevices cfg) -> addresses <> [] ->
            observedOnline env h' name (Z.of_nat (length addresses)))
      /\ (r = Some onlineTimeout ->
          exists before, h' = before ++ [CallNow]
                         /\ clock env h + timeout < clock env before))
  /\ (forall h', waitForNetworkOnline env fuel cfg timeout h <> Panics h')
  /\ (clockAdvances env -> (enoughCycles timeout <= fuel)%nat ->
      exists r h', waitForNetworkOnline env fuel cfg timeout h = Returns r h')
  /\ (forall name h0 output,
        command_result env h0 ["ip"; "address"; "show"; name] = inl output ->
        getNumberOfIPs env name h0
        = Returns (nonLinkLocal output) (h0 ++ [addressCall name]))
  /\ nonLinkLocal ("    inet6 fe80::1/64 scope link " +:+ LF) = 0
  /\ (forall devices name numIPs h0 err,
        command_result env h0 ["networkctl"; "status"; name] = inr err ->
        allDevicesOnline env ((name, numIPs) :: devices) h0
        = Returns false (h0 ++ [statusCall name]))
  /\ (forall devices name numIPs h0 status err,
        command_result env h0 ["networkctl"; "status"; name] = inl status ->
        command_result env (h0 ++ [statusCall name]) ["ip"; "address"; "show"; name]
          = inr err ->
        numIPs <> -1 ->
        exists h1, allDevicesOnline env ((name, numIPs) :: devices) h0
                   = Returns false h1)
  /\ (forall fuel0 endTime (devices : gmap string Z) h0 h1,
        clock env h0 <= endTime ->
        allDevicesOnline env (range_order env (h0 ++ [CallNow]) (map_to_list devices))
          (h0 ++ [CallNow]) = Returns false h1 ->
        onlineLoop env (S fuel0) endTime devices h0
        = onlineLoop env fuel0 endTime devices (h1 ++ [CallSleep (500 * Millisecond)])).
Proof.
  split; [|split; [|split; [|split; [|split; [|split; [|split]]]]]].
  - intros r h'. unfold waitForNetworkOnline, mbind, M_bind, time_Now.
    intros (Hr & (calls & -> & Hcalls) & Hobs & Hlate)%onlineLoop_outcome.
    2:{ intros name n (addrs & _ & _ & ->)%devicesToCheck_origin. lia. }
    assert (Hcalls' : Forall (isOnlineWaitCall cfg) ([CallNow] ++ calls)).
    { apply Forall_app. split; [constructor; [by left|done]|].
      eapply Forall_impl; [exact Hcalls|].
      intros c [->|[->|(name & n & Hlook & Hc)]]; [by left|by right; left|].
      apply devicesToCheck_origin in Hlook as (addrs & Hin & Hne & _).
      right. right. by exists name, addrs. }
    split; [done|]. split; [|split; [|done]].
    + exists ([CallNow] ++ calls). split; [by rewrite app_assoc|]. split; [done|].
      intros Huniq name Hempty.
      rewrite Forall_forall in Hcalls'.
      assert (Hno : forall c, (c = statusCall name \/ c = addressCall name) ->
                              ~ In c ([CallNow] ++ calls)).
      { intros c Hc Hin. apply list_elem_of_In, Hcalls' in Hin.
        destruct Hin as [->|[->|(name' & addrs & Hdecl & Hne & Hc')]];
          [by destruct Hc..|].
        assert (name' = name) as ->.
        { destruct Hc as [->| ->], Hc' as [Hc'|Hc']; by injection Hc'. }
        apply Hne. eapply NoDup_fst_functional; [|exact Hdecl|exact Hempty].
        by rewrite declared_names. }
      split; apply Hno; auto.
    + intros -> Huniq name addrs Hdecl Hne.
      apply Hobs; [done|]. by apply devicesToCheck_lookup.
  - intros h'. unfold waitForNetworkOnline, mbind, M_bind, time_Now.
    apply onlineLoop_no_panic.
  - intros Hclock [Hfuel Hlast]%enoughCycles_outlasts.
    unfold waitForNetworkOnline, mbind, M_bind, time_Now.
    apply onlineLoop_returns; [done..|].
    pose proof (clock_monotone env h [CallNow] Hclock). lia.
  - intros name h0 output Hout.
    unfold getNumberOfIPs, mbind, M_bind, RunCommandContext, mret, M_ret.
    rewrite Hout. unfold nonLinkLocal. by rewrite countIPs_filter.
  - reflexivity.
  - intros devices name numIPs h0 err Herr.
    rewrite allDevicesOnline_step. cbv zeta. by rewrite Herr.
  - intros devices name numIPs h0 status err Hstatus Herr Hne.
    rewrite allDevicesOnline_step. cbv zeta. rewrite Hstatus, Herr.
    destruct (Contains status _); [|by eauto].
    destruct (Z.eqb_spec (-1) numIPs); [by subst|by eauto].
  - intros fuel0 endTime devices h0 h1 Hearly Hcycle.
    rewrite onlineLoop_step. cbv zeta.
    by rewrite (proj2 (Z.ltb_ge _ _) Hearly), Hcycle.
Qed.

End OnlineWait.


(** ** The apply orchestrator *)
Section Orchestrator.
Context (env : Env).
Context (SystemdNetworkConfigPath SystemdTimesyncConfigFile : string).
Context (filepath_Join : string -> string -> string).

Lemma emits_renameLoop fuel endTime : emits notHostnameCall (renameLoop env fuel endTime).
Proof.
  induction fuel as [|fuel IH]; [done|]. cbn [renameLoop].
  apply emits_bind; [by apply emits_time_Now|]. intros now.
  destruct (endTime <? now); [apply emits_ret|].
  apply emits_bind; [by apply emits_RunCommandContext|]. intros [?|?]; [|apply emits_ret].
  apply emits_bind; [by apply emits_RunCommandContext|]. intros [?|?]; [|apply emits_ret].
  apply emits_bind; [by apply emits_RunCommandContext|]. intros [?|?]; [apply emits_ret|].
  apply emits_bind; [by apply emits_time_Sleep|]. intros _. exact IH.
Qed.

Lemma emits_allDevicesOnline devices : emits notHostnameCall (allDevicesOnline env devices).
Proof.
  induction devices as [|[name numIPs] rest IH]; [apply emits_ret|].
  cbn [allDevicesOnline]. unfold isOnline, getNumberOfIPs.
  apply emits_bind.
  { apply emits_bind; [by apply emits_RunCommandContext|]. intros [?|?]; apply emits_ret. }
  intros online. destruct (negb online); [apply emits_ret|].
  apply emits_bind.
  { apply emits_bind; [by apply emits_RunCommandContext|]. intros [?|?]; apply emits_ret. }
  intros n. destruct (negb (n =? numIPs)); [apply emits_ret|done].
Qed.

Lemma emits_onlineLoop fuel endTime devices :
  emits notHostnameCall (onlineLoop env fuel endTime devices).
Proof.
  induction fuel as [|fuel IH]; [done|]. cbn [onlineLoop].
  apply emits_bind; [by apply emits_time_Now|]. intros now.
  destruct (endTime <? now); [apply emits_ret|].
  apply emits_bind.
  { intros h. exists []. by rewrite app_nil_r. }
  intros entries. apply emits_bind; [apply emits_allDevicesOnline|].
  intros [|]; [apply emits_ret|].
  apply emits_bind; [by apply emits_time_Sleep|]. intros _. exact IH.
Qed.

(** Whatever follows the hostname step only adds to the history. *)
Lemma emits_after_hostname fuel cfg timeout :
  emits notHostnameCall
    (try UpdateEnvironment env (Proxy cfg) ;;;
     try generateNetworkConfiguration env SystemdNetworkConfigPath
           SystemdTimesyncConfigFile filepath_Join cfg ;;;
     try waitForUdevInterfaceRename env fuel (5 * Second) ;;;
     try RestartUnit env "systemd-networkd" ;;;
     try RestartUnit env "systemd-timesyncd" ;;;
     waitForNetworkOnline env fuel cfg timeout).
Proof.
  apply emits_orReturn; [by apply emits_perform|].
  apply emits_orReturn.
  { eapply emits_impl; [|apply emits_generateNetworkConfiguration].
    by intros []. }
  apply emits_orReturn.
  { apply emits_bind; [by apply emits_time_Now|]. intros now. apply emits_renameLoop. }
  apply emits_orReturn; [by apply emits_perform|].
  apply emits_orReturn; [by apply emits_perform|].
  apply emits_bind; [by apply emits_time_Now|]. intros now. apply emits_onlineLoop.
Qed.

(** A chain of checked steps runs them in order. *)
Lemma runsInOrder_chain (steps : list (M (option error))) (last : M (option error)) h :
  runsInOrder (steps ++ [last]) h (foldr orReturn last steps h).
Proof.
  revert h. induction steps as [|step steps IH]; intros h; simpl.
  - destruct (last h) as [[err|] h'|h'|] eqn:Hlast.
    + by apply rio_error.
    + eapply rio_next; [done|]. apply rio_done.
    + by apply rio_panic.
    + by apply rio_unfinished.
  - destruct (step h) as [[err|] h'|h'|] eqn:Hstep.
    + rewrite (orReturn_error _ _ _ _ _ Hstep). by apply rio_error.
    + rewrite (orReturn_ok _ _ _ _ Hstep). eapply rio_next; [done|]. apply IH.
    + rewrite (orReturn_panics _ _ _ _ Hstep). by apply rio_panic.
    + rewrite (orReturn_unfinished _ _ _ Hstep). by apply rio_unfinished.
Qed.

Lemma runsInOrder_functional steps h o1 o2 :
  runsInOrder steps h o1 -> runsInOrder steps h o2 -> o1 = o2.
Proof.
  intros H1. revert o2. induction H1; intros o2 H2; inversion H2; subst;
    try congruence.
  apply IHrunsInOrder. congruence.
Qed.

(** C2: without a configuration the orchestrator returns its error at
    once, leaving the history untouched; with one, it runs hostname, proxy
    environment, artifact writing, rename wait, restart of
    systemd-networkd, restart of systemd-timesyncd and online wait in that
    order, stopping at the first step that fails with that step's error;
    when artifact writing fails, the history holds nothing but the hostname
    call, the proxy call and file-system calls. *)
Theorem apply_runs_steps_in_order (fuel : nat) (timeout : Z) (h : history) :
  ApplyNetworkConfiguration env SystemdNetworkConfigPath SystemdTimesyncConfigFile
    filepath_Join fuel None timeout h
  = Returns (Some noConfiguration) h
  /\ (forall cfg o,
        runsInOrder
          (applySteps env SystemdNetworkConfigPath SystemdTimesyncConfigFile
             filepath_Join fuel cfg timeout) h o
        <-> o = ApplyNetworkConfiguration env SystemdNetworkConfigPath
                  SystemdTimesyncConfigFile filepath_Join fuel (Some cfg) timeout h)
  /\ (forall cfg err h3,
        let setHostname := CallSetHostname (targetHostname (DNS cfg)) in
        let updateEnvironment := CallUpdateEnvironment (Proxy cfg) in
        call_error env h setHostname = None ->
        call_error env (h ++ [setHostname]) updateEnvironment = None ->
        generateNetworkConfiguration env SystemdNetworkConfigPath
          SystemdTimesyncConfigFile filepath_Join cfg
          (h ++ [setHostname; updateEnvironment])
        = Returns (Some err) h3 ->
        ApplyNetworkConfiguration env SystemdNetworkConfigPath
          SystemdTimesyncConfigFile filepath_Join fuel (Some cfg) timeout h
        = Returns (Some err) h3
        /\ exists calls,
             h3 = h ++ [setHostname; updateEnvironment] ++ calls
             /\ Forall isFileCall calls).
Proof.
  split; [done|]. split.
  - intros cfg o.
    pose proof (runsInOrder_chain
                  [ SetHostname env (targetHostname (DNS cfg));
                    UpdateEnvironment env (Proxy cfg);
                    generateNetworkConfiguration env SystemdNetworkConfigPath
                      SystemdTimesyncConfigFile filepath_Join cfg;
                    waitForUdevInterfaceRename env fuel (5 * Second);
                    RestartUnit env "systemd-networkd";
                    RestartUnit env "systemd-timesyncd" ]
                  (waitForNetworkOnline env fuel cfg timeout) h) as Hrun.
    split.
    + intros Ho. exact (runsInOrder_functional _ _ _ _ Ho Hrun).
    + intros ->. exact Hrun.
  - intros cfg err h3 setHostname updateEnvironment Hhost Hproxy Hwrite.
    split.
    + unfold ApplyNetworkConfiguration.
      rewrite (orReturn_ok _ _ h (h ++ [setHostname])).
      2:{ unfold SetHostname, perform. fold setHostname. by rewrite Hhost. }
      rewrite (orReturn_ok _ _ _ ((h ++ [setHostname]) ++ [updateEnvironment])).
      2:{ unfold UpdateEnvironment, perform. fold updateEnvironment. by rewrite Hproxy. }
      rewrite <- app_assoc. cbn [app].
      by rewrite (orReturn_error _ _ _ _ _ Hwrite).
    + destruct (emits_returns _ _ _ _ _
                  (emits_generateNetworkConfiguration env SystemdNetworkConfigPath
                     SystemdTimesyncConfigFile filepath_Join cfg) Hwrite)
        as (calls & -> & Hcalls).
      exists calls. split; [|done]. by rewrite <- app_assoc.
Qed.

(** C9: the hostname set is [Hostname.Domain] when both are given,
    [Hostname] alone when the domain is empty, and the empty name (reset to
    the default) when the hostname is empty or there is no DNS section,
    whatever the domain; it is the argument of the orchestrator's first
    call. *)
Theorem target_hostname_derivation :
  (forall dns, Hostname dns <> "" -> Domain dns <> "" ->
               targetHostname (Some dns) = Hostname dns +:+ "." +:+ Domain dns)
  /\ (forall dns, Hostname dns <> "" -> Domain dns = "" ->
                  targetHostname (Some dns) = Hostname dns)
  /\ (forall dns, Hostname dns = "" -> targetHostname (Some dns) = "")
  /\ targetHostname None = ""
  /\ (forall fuel cfg timeout h,
        match ApplyNetworkConfiguration env SystemdNetworkConfigPath
                SystemdTimesyncConfigFile filepath_Join fuel (Some cfg) timeout h with
        | Returns _ h' | Panics h' =>
            exists calls,
              h' = h ++ CallSetHostname (targetHostname (DNS cfg)) :: calls
              /\ forall hostname, In (CallSetHostname hostname) calls -> False
        | Unfinished => True
        end).
Proof.
  split; [|split; [|split; [|split; [done|]]]].
  - intros dns Hh Hd. unfold targetHostname.
    by destruct (String.eqb_spec (Hostname dns) ""), (String.eqb_spec (Domain dns) "").
  - intros dns Hh Hd. unfold targetHostname. rewrite Hd.
    by destruct (String.eqb_spec (Hostname dns) "").
  - intros dns Hh. unfold targetHostname. by rewrite Hh.
  - intros fuel cfg timeout h. unfold ApplyNetworkConfiguration.
    set (setHostname := CallSetHostname (targetHostname (DNS cfg))).
    destruct (call_error env h setHostname) as [err|] eqn:Hhost.
    + rewrite (orReturn_error _ _ h err (h ++ [setHostname])).
      2:{ unfold SetHostname, perform. fold setHostname. by rewrite Hhost. }
      exists []. split; [done|]. by intros hostname [].
    + rewrite (orReturn_ok _ _ h (h ++ [setHostname])).
      2:{ unfold SetHostname, perform. fold setHostname. by rewrite Hhost. }
      pose proof (emits_after_hostname fuel cfg timeout (h ++ [setHostname])) as Hrest.
      destruct (orReturn _ _ (h ++ [setHostname])) as [r h'|h'|]; [| |done];
        destruct Hrest as (calls & -> & Hcalls); exists calls;
        (split; [by rewrite <- app_assoc|]);
        intros hostname Hin; rewrite Forall_forall in Hcalls;
        apply list_elem_of_In in Hin; exact (Hcalls _ Hin hostname eq_refl).
Qed.

End Orchestrator.

(** ** The properties on the sample configuration *)

Lemma pausedClock_advances h c : pausedClock h + pause c <= pausedClock (h ++ [c]).
Proof.
  induction h as [|c0 h IH]; simpl.
  - lia.
  - fold (pausedClock h). fold (pausedClock (h ++ [c])). lia.
Qed.

Lemma online_wait_outcome_witness :
  waitForNetworkOnline exampleOnlineEnv 3 exampleConfig (3 * Second) []
  = Returns None [CallNow; CallNow; statusCall "br0"; addressCall "br0"]
  /\ observedOnline exampleOnlineEnv
       [CallNow; CallNow; statusCall "br0"; addressCall "br0"] "br0" 1.
Proof.
  split; [reflexivity|].
  destruct (online_wait_outcome exampleOnlineEnv exampleConfig (3 * Second) 3 [])
    as [Hreturn _].
  destruct (Hreturn None [CallNow; CallNow; statusCall "br0"; addressCall "br0"]
              eq_refl) as (_ & _ & Hobserved & _).
  refine (Hobserved eq_refl _ "br0" ["dhcp4"] _ _).
  - apply (bool_decide_unpack _). vm_compute. exact I.
  - simpl. tauto.
  - discriminate.
Defined.

Lemma apply_runs_steps_in_order_witness :
  ApplyNetworkConfiguration exampleReadOnlyEnv exampleConfigPath exampleTimesyncFile
    exampleJoin 4 (Some exampleConfig) (30 * Second) []
  = Returns (Some (external_error "read-only file system"))
      [ CallSetHostname "host.example.org"; CallUpdateEnvironment None;
        CallRemoveAll exampleConfigPath; CallMkdir exampleConfigPath perm_0o755 ].
Proof.
  destruct (apply_runs_steps_in_order exampleReadOnlyEnv exampleConfigPath
              exampleTimesyncFile exampleJoin 4 (30 * Second) [])
    as (_ & _ & Hwrite).
  destruct (Hwrite exampleConfig (external_error "read-only file system")
              [ CallSetHostname "host.example.org"; CallUpdateEnvironment None;
                CallRemoveAll exampleConfigPath; CallMkdir exampleConfigPath perm_0o755 ]
              eq_refl eq_refl eq_refl) as [Hresult _].
  exact Hresult.
Defined.

Lemma bridge_vlan_tag_set_witness :
  bridgeVLANTags "br0" 20 [30; 20; 10] [exampleTaggedVLAN] = [10; 20; 30]
  /\ generateBridgeVLANContents "br0" 20 [10; 30; 30; 20] [exampleTaggedVLAN]
     = generateBridgeVLANContents "br0" 20 [30; 20; 10] [exampleTaggedVLAN].
Proof.
  destruct (bridge_vlan_tag_set "br0" 20 [30; 20; 10] [exampleTaggedVLAN])
    as (_ & _ & _ & Hsets & Hexample).
  split.
  - apply (Hexample exampleTaggedVLAN); reflexivity.
  - apply Hsets.
    + intros tag. simpl. tauto.
    + intros vlan. tauto.
Defined.

Lemma bond_and_parent_mac_witness :
  bondMacAddr exampleBond = Some "aa:bb:cc:dd:ee:ff"
  /\ parentMACAddress exampleConfig exampleVLAN
     = lookupParentMAC exampleConfig "bond0"
  /\ (exists files,
        generateNetdevFileContents exampleConfig = Some files
        /\ (forall f, In f (bondNetdevs exampleBond "aa:bb:cc:dd:ee:ff") ->
                      In f files
                      /\ In "MACAddress=aa:bb:cc:dd:ee:ff" (lines (Contents f)))
        /\ In (vlanNetdevFile exampleVLAN "aa:bb:cc:dd:ee:ff") files
        /\ In "MACAddress=aa:bb:cc:dd:ee:ff"
              (lines (Contents (vlanNetdevFile exampleVLAN "aa:bb:cc:dd:ee:ff")))).
Proof.
  destruct (bond_and_parent_mac exampleConfig)
    as (_ & Hmember & _ & Hlookup & _ & _ & _ & _ & Hrendered & Hline).
  split; [|split].
  - apply (Hmember exampleBond "aa:bb:cc:dd:ee:ff" ["11:22:33:44:55:66"]); reflexivity.
  - apply (Hlookup ltac:(apply (bool_decide_unpack _); vm_compute; exact I)
             exampleVLAN).
  - destruct Hrendered as (files & Hfiles & Hbonds & Hvlans).
    { intros b [<-|[]] [_ Hnone]. discriminate Hnone. }
    destruct (Hline "aa:bb:cc:dd:ee:ff" eq_refl) as [Hbondline Hvlanline].
    exists files. split; [exact Hfiles|].
    destruct (Hbonds exampleBond (or_introl eq_refl)) as (mac & Hmac & Hin).
    destruct (Hvlans exampleVLAN (or_introl eq_refl)) as (pmac & Hpmac & Hvin).
    assert (Hmac' : mac = "aa:bb:cc:dd:ee:ff").
    { destruct Hmac as [[Hne _]|[_ Hhead]]; [by destruct Hne|].
      injection Hhead as <-. reflexivity. }
    assert (Hpmac' : pmac = "aa:bb:cc:dd:ee:ff").
    { injection Hpmac as <-. reflexivity. }
    subst mac pmac.
    split; [|split; [exact Hvin|apply Hvlanline]].
    intros f Hf. split; [by apply Hin|by apply (Hbondline exampleBond)].
Defined.

Lemma dhcp_combination_table_witness :
  In "DHCP=ipv4" (lines (processAddresses ["dhcp4"; "10.0.0.2/24"]))
  /\ forall l, In l (lines (processAddresses ["10.0.0.2/24"; "slaac"])) ->
               HasPrefix l "DHCP=" = false.
Proof.
  split.
  - destruct (dhcp_combination_table ["dhcp4"; "10.0.0.2/24"]) as (Hipv4 & _).
    apply Hipv4; simpl; intuition discriminate.
  - destruct (dhcp_combination_table ["10.0.0.2/24"; "slaac"])
      as (_ & _ & _ & Hnone & _).
    apply Hnone; [simpl; intuition discriminate..|].
    repeat constructor.
Defined.

Lemma required_family_for_online_witness :
  wantsIPv4 "192.168.1.2/24" = Contains "192.168.1.2/24" "."
  /\ wantsIPv6 "192.168.1.2/24" = Contains "192.168.1.2/24" ":".
Proof.
  destruct required_family_for_online as (_ & _ & _ & _ & _ & Hliteral).
  apply Hliteral. reflexivity.
Defined.

Lemma link_match_per_interface_witness :
  isASCII "AA:BB:CC:DD:EE:FF" = true
  /\ Name (interfaceLink exampleInterface) = "00-en001122334455.link"
  /\ list_ascii_of_string (strippedHwaddr "AA:BB:CC:DD:EE:FF")
     = list_ascii_of_string "aabbccddeeff"
  /\ ("a"%char <> ":"%char /\ is_upper "a" = false).
Proof.
  destruct (link_match_per_interface exampleConfig) as (_ & Hlink & Hname & _).
  split; [reflexivity|]. split; [|split].
  - destruct (Hlink exampleInterface eq_refl) as [Hfile _]. exact Hfile.
  - destruct (Hname "AA:BB:CC:DD:EE:FF" eq_refl) as [Hchars _]. exact Hchars.
  - destruct (Hname "AA:BB:CC:DD:EE:FF" eq_refl) as [_ Hclean].
    apply Hclean. simpl. tauto.
Defined.

Lemma rename_wait_outcomes_witness :
  (exists h',
     waitForUdevInterfaceRename exampleOnlineEnv 4 (1 * Second) []
     = Returns (Some renameTimeout) h')
  /\ renameLoop exampleRenamedEnv 1 (5 * Second) []
     = Returns None
         [ CallNow; CallRun udevadmTrigger; CallRun udevadmSettle;
           CallRun journalctlRenamed ]
  /\ waitForUdevInterfaceRename exampleRenamedEnv 1 (5 * Second) []
     = Returns None
         [ CallNow; CallNow; CallRun udevadmTrigger; CallRun udevadmSettle;
           CallRun journalctlRenamed ]
  /\ waitForUdevInterfaceRename exampleLateRenameEnv 2 (5 * Second) []
     = Returns None
         [ CallNow;
           CallNow; CallRun udevadmTrigger; CallRun udevadmSettle;
           CallRun journalctlRenamed; CallSleep (500 * Millisecond);
           CallNow; CallRun udevadmTrigger; CallRun udevadmSettle;
           CallRun journalctlRenamed ].
Proof.
  split; [|split; [|split]].
  - destruct (rename_wait_outcomes exampleOnlineEnv) as (_ & _ & _ & _ & _ & Htimeout & _).
    apply Htimeout.
    + exact pausedClock_advances.
    + intros h. by exists "".
    + intros h. by exists "".
    + intros h. by exists (external_error "exit status 1").
    + vm_compute. lia.
  - destruct (rename_wait_outcomes exampleRenamedEnv)
      as (_ & _ & _ & _ & _ & _ & Hfirst & _).
    apply (Hfirst 0%nat (5 * Second) []
             "kernel: en001122334455: renamed from eth0"
             "kernel: en001122334455: renamed from eth0"
             "kernel: en001122334455: renamed from eth0");
      [vm_compute; discriminate|reflexivity..].
  - destruct (rename_wait_outcomes exampleRenamedEnv)
      as (_ & _ & _ & _ & _ & _ & _ & Hfound).
    apply (Hfound 0%nat 0%nat (5 * Second) []).
    + intros k Hk. assert (k = 0%nat) as -> by lia.
      split; [vm_compute; discriminate|]. split; eexists; reflexivity.
    + intros k Hk. lia.
    + eexists. reflexivity.
  - destruct (rename_wait_outcomes exampleLateRenameEnv)
      as (_ & _ & _ & _ & _ & _ & _ & Hfound).
    apply (Hfound 1%nat 0%nat (5 * Second) []).
    + intros k Hk. assert (k = 0%nat \/ k = 1%nat) as [-> | ->] by lia;
        (split; [vm_compute; discriminate|]; split; eexists; reflexivity).
    + intros k Hk. assert (k = 0%nat) as -> by lia. eexists. reflexivity.
    + eexists. reflexivity.
Defined.

Lemma target_hostname_derivation_witness :
  targetHostname (Some exampleDNS) = "host.example.org".
Proof.
  destruct (target_hostname_derivation exampleOnlineEnv exampleConfigPath
              exampleTimesyncFile exampleJoin) as (Hboth & _).
  apply (Hboth exampleDNS); discriminate.
Defined.

Lemma timesync_fallback_file_witness :
  call_error exampleNoFallbackEnv
    [ CallRemoveAll exampleConfigPath; CallMkdir exampleConfigPath perm_0o755 ]
    (CallRemove exampleTimesyncFile)
  = Some (external_error "no such file or directory")
  /\ generateNetworkConfiguration exampleNoFallbackEnv exampleConfigPath
       exampleTimesyncFile exampleJoin
       {| Interfaces := []; Bonds := []; VLANs := []; DNS := None; NTP := None;
          Proxy := None |} []
     = Returns None
         [ CallRemoveAll exampleConfigPath; CallMkdir exampleConfigPath perm_0o755;
           CallRemove exampleTimesyncFile ].
Proof.
  split; [reflexivity|].
  destruct (timesync_fallback_file exampleNoFallbackEnv exampleConfigPath
              exampleTimesyncFile exampleJoin
              {| Interfaces := []; Bonds := []; VLANs := []; DNS := None; NTP := None;
                 Proxy := None |}
              [] [ CallRemoveAll exampleConfigPath; CallMkdir exampleConfigPath perm_0o755 ]
              eq_refl) as (Habsent & _).
  apply Habsent. by left.
Defined.

(** ** Further properties of the synthesizer *)
Section SynthesizerExtras.

Lemma foldl_option_append_length {A B C : Type} (g : B -> option C)
  (k : B -> C -> list A) (len : B -> nat) (l : list B) (ret0 out : list A) :
  (forall x m, length (k x m) = len x) ->
  foldl (fun acc x => ret ← acc; m ← g x; Some (ret ++ k x m)) (Some ret0) l = Some out ->
  length out = (length ret0 + list_sum (map len l))%nat.
Proof.
  intros Hlen. revert ret0. induction l as [|x l IH]; intros ret0 Hout; simpl in *.
  - injection Hout as <-. lia.
  - destruct (g x) as [m|] eqn:Hg; simpl in Hout.
    + apply IH in Hout. rewrite Hout, length_app, Hlen. lia.
    + assert (Hnone : foldl (fun acc x => ret ← acc; m ← g x; Some (ret ++ k x m))
                            None l = None).
      { apply foldl_option_append_none. by left. }
      congruence.
Qed.

(** X1: among the link-match artifacts, the [01-] ones are exactly one per
    bond member, bond after bond in member order; with the [00-] ones they
    make up the whole output, so a bond without members adds none.  For a
    member whose address is ASCII text the artifact matches on that address
    and names the device [en] followed by the address lower-cased with its
    colons removed. *)
Theorem bond_member_links (cfg : SystemNetworkConfig) :
  List.filter (fun f => HasPrefix (Name f) "01-") (generateLinkFileContents cfg)
    = concat (map (fun b => map memberLink (bMembers b)) (Bonds cfg))
  /\ length (generateLinkFileContents cfg)
     = (length (Interfaces cfg)
        + list_sum (map (fun b => length (bMembers b)) (Bonds cfg)))%nat
  /\ (forall member,
        isASCII member = true ->
        Name (memberLink member) = "01-en" +:+ strippedHwaddr member +:+ ".link"
        /\ Contents (memberLink member) =
             unlines [ "[Match]";
                       "PermanentMACAddress=" +:+ member;
                       "";
                       "[Link]";
                       "NamePolicy=";
                       "Name=en" +:+ strippedHwaddr member ]).
Proof.
  rewrite generateLinkFileContents_eq. split; [|split].
  - rewrite List.filter_app.
    assert (Hi : forall l, List.filter (fun f => HasPrefix (Name f) "01-")
                             (map interfaceLink l) = []).
    { induction l as [|i l IH]; [done|]. exact IH. }
    assert (Hm : forall l, List.filter (fun f => HasPrefix (Name f) "01-")
                             (map memberLink l) = map memberLink l).
    { induction l as [|m l IH]; [done|]. cbn [map List.filter].
      change (HasPrefix (Name (memberLink m)) "01-") with true. by rewrite IH. }
    rewrite Hi. cbn [app].
    induction (Bonds cfg) as [|b bs IH]; [done|].
    cbn [map concat]. by rewrite List.filter_app, Hm, IH.
  - rewrite length_app, length_map. f_equal.
    induction (Bonds cfg) as [|b bs IH]; [done|].
    cbn [map concat list_sum]. by rewrite length_app, length_map, IH.
  - intros member _. split; reflexivity.
Qed.

Lemma generateNetworkFileContents_none cfg :
  generateNetworkFileContents cfg = None <-> exists b, In b (Bonds cfg) /\ lacksMAC b.
Proof.
  unfold generateNetworkFileContents.
  destruct (foldl _ (Some _) (Bonds cfg)) as [ret|] eqn:Hbonds; simpl.
  - split; [done|]. intros (b & Hb & Hlacks%bondMacAddr_none).
    assert (Hf : foldl (fun acc b => ret ← acc; mac ← bondMacAddr b;
                                     Some (ret ++ bondNetworks cfg b mac))
                   (Some (foldl (fun ret i => ret ++ interfaceNetworks cfg i) []
                                (Interfaces cfg))) (Bonds cfg) = None).
    { apply foldl_option_append_none. right. eauto. }
    congruence.
  - split; [|done]. intros _.
    apply foldl_option_append_none in Hbonds as [?|(b & Hb & Hb')]; [done|].
    exists b. by rewrite <- bondMacAddr_none.
Qed.

Lemma list_sum_const {A} (l : list A) (n : nat) :
  list_sum (map (fun _ => n) l) = (n * length l)%nat.
Proof. induction l as [|x l IH]; simpl; lia. Qed.

Lemma length_concat_pairs {A B} (f : A -> list B) (l : list A) :
  (forall x, length (f x) = 2%nat) ->
  length (concat (map f l)) = (2 * length l)%nat.
Proof.
  intros Hf. induction l as [|x l IH]; [done|].
  cbn [map concat]. rewrite length_app, Hf, IH. simpl. lia.
Qed.

(** X2: rendering the virtual devices panics exactly when some bond has
    neither an address override nor a member; otherwise it yields one file
    per interface, two per bond and one per VLAN. *)
Theorem netdev_files_panic_or_count (cfg : SystemNetworkConfig) :
  (generateNetdevFileContents cfg = None
   <-> exists b, In b (Bonds cfg) /\ lacksMAC b)
  /\ (forall files,
        generateNetdevFileContents cfg = Some files ->
        length files
        = (length (Interfaces cfg) + 2 * length (Bonds cfg) + length (VLANs cfg))%nat).
Proof.
  split; [apply generateNetdevFileContents_none|].
  unfold generateNetdevFileContents. rewrite foldl_append_one. cbn [app].
  intros files Hfiles.
  destruct (foldl _ (Some _) (Bonds cfg)) as [ret|] eqn:Hbonds; [|done].
  simpl in Hfiles.
  apply (foldl_option_append_length _ _ (fun _ => 1%nat)) in Hfiles; [|done].
  apply (foldl_option_append_length _ _ (fun _ => 2%nat)) in Hbonds; [|done].
  rewrite Hfiles, Hbonds, length_map, !list_sum_const. lia.
Qed.

(** X3: rendering the network policies panics under the same condition as
    rendering the virtual devices, so it never panics once those were
    rendered; otherwise it yields two files per interface, two per bond
    plus one per bond member, and two per VLAN. *)
Theorem network_files_panic_or_count (cfg : SystemNetworkConfig) :
  (generateNetworkFileContents cfg = None
   <-> exists b, In b (Bonds cfg) /\ lacksMAC b)
  /\ (generateNetworkFileContents cfg = None <-> generateNetdevFileContents cfg = None)
  /\ (forall files,
        generateNetworkFileContents cfg = Some files ->
        length files
        = (2 * length (Interfaces cfg)
           + list_sum (map (fun b => 2 + length (bMembers b)) (Bonds cfg))
           + 2 * length (VLANs cfg))%nat).
Proof.
  split; [apply generateNetworkFileContents_none|]. split.
  - by rewrite generateNetworkFileContents_none, generateNetdevFileContents_none.
  - intros files Hfiles. unfold generateNetworkFileContents in Hfiles.
    destruct (foldl _ (Some _) (Bonds cfg)) as [ret|] eqn:Hbonds; [|done].
    simpl in Hfiles. injection Hfiles as <-.
    apply (foldl_option_append_length _ _ (fun b => (2 + length (bMembers b))%nat))
      in Hbonds.
    2:{ intros b mac. unfold bondNetworks. by rewrite length_app, length_imap. }
    rewrite foldl_append_many in Hbonds. cbn [app] in Hbonds.
    rewrite foldl_append_many, length_app, Hbonds.
    rewrite !length_concat_pairs by done. lia.
Qed.

Lemma prefixed_lines_loop (pre : string) (l : list string) (ret : string) :
  foldl (fun ret x => ret +:+ pre +:+ x +:+ LF) ret l
  = ret +:+ unlines (map (fun x => pre +:+ x) l).
Proof.
  revert ret. induction l as [|x l IH]; intros ret; simpl.
  - by rewrite append_nil_r.
  - by rewrite IH, !append_assoc.
Qed.

Lemma unlines_empty ls : unlines ls = "" <-> ls = [].
Proof.
  destruct ls as [|l ls]; [done|]. split; [|done].
  simpl. by destruct l.
Qed.

Lemma processRoutes_loop (routes : list SystemNetworkRoute) (ret : string) :
  foldl (fun ret route =>
           let ret := ret +:+ LF +:+ "[Route]" +:+ LF in
           let ret :=
             if String.eqb (Via route) "dhcp4" then ret +:+ "Gateway=_dhcp4" +:+ LF
             else if String.eqb (Via route) "slaac" then ret +:+ "Gateway=_ipv6ra" +:+ LF
             else ret +:+ "Gateway=" +:+ Via route +:+ LF in
           ret +:+ "Destination=" +:+ To route +:+ LF)
        ret routes
  = ret +:+ unlines (concat (map routeLines routes)).
Proof.
  revert ret. induction routes as [|route routes IH]; intros ret.
  - simpl. by rewrite append_nil_r.
  - cbn [foldl map concat]. cbv zeta. rewrite IH. unfold routeLines, routeGateway.
    destruct (String.eqb (Via route) "dhcp4"); [|destruct (String.eqb (Via route) "slaac")];
      cbn [app unlines foldr]; by rewrite !append_assoc.
Qed.

Lemma processRoutes_lines routes :
  processRoutes routes = unlines (concat (map routeLines routes)).
Proof. unfold processRoutes. by rewrite processRoutes_loop. Qed.

Lemma route_headers routes :
  length (List.filter (String.eqb "[Route]") (concat (map routeLines routes)))
  = length routes.
Proof.
  induction routes as [|r rs IH]; [done|].
  cbn [map concat]. rewrite List.filter_app, length_app, IH.
  assert (Hone : length (List.filter (String.eqb "[Route]") (routeLines r)) = 1%nat).
  { unfold routeLines, routeGateway.
    destruct (String.eqb (Via r) "dhcp4"); [done|].
    by destruct (String.eqb (Via r) "slaac"). }
  rewrite Hone. cbn [length]. lia.
Qed.

(** X4: a route list renders as one block per route, in order: an empty
    line, the [[Route]] header, the gateway ([_dhcp4] for [dhcp4], [_ipv6ra]
    for [slaac], else the literal) and the destination; rendering is
    compatible with concatenation, and when no field holds a line feed the
    output has exactly one [[Route]] header per route. *)
Theorem routes_render_as_blocks (routes : list SystemNetworkRoute) :
  processRoutes routes = unlines (concat (map routeLines routes))
  /\ (forall routes',
        processRoutes (routes ++ routes') = processRoutes routes +:+ processRoutes routes')
  /\ (Forall (fun r => Contains (Via r) LF = false /\ Contains (To r) LF = false) routes ->
      lines (processRoutes routes) = concat (map routeLines routes) ++ [""]
      /\ length (List.filter (String.eqb "[Route]") (lines (processRoutes routes)))
         = length routes).
Proof.
  split; [apply processRoutes_lines|]. split.
  - intros routes'. rewrite !processRoutes_lines, map_app, concat_app.
    apply unlines_app.
  - intros Hclean. rewrite processRoutes_lines.
    assert (Hlines : Forall (fun l => Contains l LF = false)
                            (concat (map routeLines routes))).
    { induction Hclean as [|r rs [Hvia Hto] _ IH]; [constructor|].
      cbn [map concat]. apply Forall_app. split; [|done].
      unfold routeLines, routeGateway.
      repeat constructor.
      - destruct (String.eqb (Via r) "dhcp4"); [done|].
        destruct (String.eqb (Via r) "slaac"); [done|].
        by rewrite Contains_append_LF, Hvia.
      - by rewrite Contains_append_LF, Hto. }
    rewrite (lines_unlines _ Hlines). split; [done|].
    rewrite List.filter_app, length_app, route_headers.
    replace (List.filter (String.eqb "[Route]") [""]) with (@nil string) by reflexivity.
    cbn [length]. lia.
Qed.

Lemma generateNetworkSectionContents_lines dns ntp :
  generateNetworkSectionContents dns ntp = unlines (networkSectionLines dns ntp).
Proof.
  unfold generateNetworkSectionContents, networkSectionLines.
  rewrite unlines_app.
  assert (Hntp : forall ret,
             match ntp with
             | Some ntp => foldl (fun ret ts => ret +:+ "NTP=" +:+ ts +:+ LF) ret
                                 (Timeservers ntp)
             | None => ret
             end
             = ret +:+ unlines match ntp with
                               | Some ntp => map (fun ts => "NTP=" +:+ ts) (Timeservers ntp)
                               | None => []
                               end).
  { intros ret. destruct ntp as [ntp|]; [apply prefixed_lines_loop|].
    by rewrite append_nil_r. }
  rewrite Hntp. f_equal.
  destruct dns as [dns|]; [|done].
  rewrite prefixed_lines_loop, unlines_app.
  by destruct (SearchDomains dns).
Qed.

(** X5: the name-resolution part of a [[Network]] section is one line per
    item: a single [Domains=] line with the search domains joined by spaces
    (none when there is no search domain), one [DNS=] line per nameserver
    and one [NTP=] line per timeserver, in declaration order; it is empty
    exactly when none of the three is configured. *)
Theorem network_section_lines (dns : option SystemNetworkDNS)
  (ntp : option SystemNetworkNTP) :
  generateNetworkSectionContents dns ntp = unlines (networkSectionLines dns ntp)
  /\ (generateNetworkSectionContents dns ntp = ""
      <-> (forall d, dns = Some d -> SearchDomains d = [] /\ Nameservers d = [])
          /\ (forall n, ntp = Some n -> Timeservers n = []))
  /\ (Forall (fun l => Contains l LF = false) (networkSectionLines dns ntp) ->
      lines (generateNetworkSectionContents dns ntp) = networkSectionLines dns ntp ++ [""]).
Proof.
  rewrite generateNetworkSectionContents_lines. split; [done|]. split.
  - rewrite unlines_empty. unfold networkSectionLines. split.
    + intros [Hd Hn]%app_eq_nil. split.
      * intros d ->. apply app_eq_nil in Hd as [Hs Hns].
        split; [by destruct (SearchDomains d)|by apply map_eq_nil in Hns].
      * intros n ->. by apply map_eq_nil in Hn.
    + intros [Hd Hn].
      destruct dns as [d|]; [destruct (Hd d eq_refl) as [-> ->]|];
        (destruct ntp as [n|]; [by rewrite (Hn n eq_refl)|done]).
  - apply lines_unlines.
Qed.

(** X6: a bridge gets no [[BridgeVLAN]] block at all exactly when it has no
    primary VLAN, no additional tag and no VLAN parented to it. *)
Theorem bridge_without_tags bridgeName specificVLAN additionalVLANTags vlans :
  generateBridgeVLANContents bridgeName specificVLAN additionalVLANTags vlans = ""
  <-> specificVLAN = 0 /\ additionalVLANTags = []
      /\ forall vlan, In vlan vlans -> vParent vlan <> bridgeName.
Proof.
  rewrite generateBridgeVLANContents_blocks.
  destruct (bridgeVLANTags_spec bridgeName specificVLAN additionalVLANTags vlans)
    as [_ Hin].
  split.
  - intros Hempty.
    destruct (Z.eqb_spec specificVLAN 0) as [Hzero|_]; [|done].
    destruct (bridgeVLANTags _ _ _ _) as [|t tags]; [|done].
    split; [done|]. split.
    + destruct additionalVLANTags as [|a l]; [done|].
      destruct (proj2 (Hin a)). right. left. by left.
    + intros vlan Hvlan Hparent.
      destruct (proj2 (Hin (vID vlan))). right. right. by exists vlan.
  - intros (-> & -> & Hnone).
    destruct (bridgeVLANTags _ _ _ _) as [|t tags]; [done|].
    destruct (proj1 (Hin t)) as [[_ ?]|[[]|(vlan & Hvlan & Hparent & _)]];
      [by left|done|].
    by destruct (Hnone vlan Hvlan).
Qed.

Lemma existsb_same_elements {A} (p : A -> bool) (l l' : list A) :
  (forall a, In a l <-> In a l') -> existsb p l = existsb p l'.
Proof.
  intros Hsame. apply eq_true_iff_eq. rewrite !existsb_exists.
  split; intros (a & Ha & Hp); exists a; (split; [by apply Hsame|done]).
Qed.

(** X7: the online requirement of a device depends on its address entries
    only as a set, and its addressing policy only on the sequence of its
    literal entries and on which of the tokens occur: repeating or moving a
    token changes nothing. *)
Theorem address_entries_as_sets (addresses addresses' : list string) :
  ((forall addr, In addr addresses <-> In addr addresses') ->
   generateLinkSectionContents addresses = generateLinkSectionContents addresses')
  /\ (List.filter isLiteral addresses = List.filter isLiteral addresses' ->
      (forall token, isLiteral token = false ->
                     (In token addresses <-> In token addresses')) ->
      processAddresses addresses = processAddresses addresses').
Proof.
  split.
  - intros Hsame. unfold generateLinkSectionContents.
    rewrite !link_section_flags. cbn [orb].
    rewrite (existsb_same_elements wantsIPv4 _ _ Hsame),
      (existsb_same_elements wantsIPv6 _ _ Hsame).
    destruct addresses as [|a l], addresses' as [|a' l']; [done| | |done].
    + destruct (proj2 (Hsame a')). by left.
    + destruct (proj1 (Hsame a)). by left.
  - intros Hliterals Htokens. rewrite !processAddresses_lines. f_equal.
    unfold policyLines. rewrite Hliterals.
    assert (Hflag : forall token, isLiteral token = false ->
               existsb (String.eqb token) addresses
               = existsb (String.eqb token) addresses').
    { intros token Htoken. apply eq_true_iff_eq.
      rewrite !existsb_eqb_In. by apply Htokens. }
    rewrite !Hflag by done. f_equal.
    assert (Hnil : forall l l' : list string,
               List.filter isLiteral l = List.filter isLiteral l' ->
               (forall token, isLiteral token = false -> (In token l <-> In token l')) ->
               l = [] -> l' = []).
    { intros l l' Hl Ht ->. destruct l' as [|a l']; [done|].
      destruct (isLiteral a) eqn:Ha.
      - simpl in Hl. by rewrite Ha in Hl.
      - destruct (proj2 (Ht a Ha)). by left. }
    destruct addresses as [|a l], addresses' as [|a' l']; [done| | |done].
    + by specialize (Hnil _ _ Hliterals Htokens eq_refl).
    + by specialize (Hnil _ _ (eq_sym Hliterals)
                       (fun t Ht => iff_sym (Htokens t Ht)) eq_refl).
Qed.

Lemma lower_char_idempotent c : lower_char (lower_char c) = lower_char c.
Proof. by destruct c as [[] [] [] [] [] [] [] []]. Qed.

Lemma lower_char_colon c : Ascii.eqb (lower_char c) ":" = Ascii.eqb c ":".
Proof. by destruct c as [[] [] [] [] [] [] [] []]. Qed.

Lemma RemoveColons_ToLower s : RemoveColons (ToLower s) = ToLower (RemoveColons s).
Proof.
  induction s as [|c s IH]; [done|].
  cbn [ToLower RemoveColons]. rewrite lower_char_colon.
  destruct (Ascii.eqb c ":"); [done|]. cbn [ToLower]. by rewrite IH.
Qed.

Lemma ToLower_idempotent s : ToLower (ToLower s) = ToLower s.
Proof.
  induction s as [|c s IH]; [done|].
  cbn [ToLower]. by rewrite lower_char_idempotent, IH.
Qed.

Lemma RemoveColons_idempotent s : RemoveColons (RemoveColons s) = RemoveColons s.
Proof.
  induction s as [|c s IH]; [done|]. cbn [RemoveColons].
  destruct (Ascii.eqb c ":") eqn:Hc; [done|].
  cbn [RemoveColons]. by rewrite Hc, IH.
Qed.

Lemma lower_char_ascii c :
  (nat_of_ascii c <? 128)%nat = true -> (nat_of_ascii (lower_char c) <? 128)%nat = true.
Proof. by destruct c as [[] [] [] [] [] [] [] []]. Qed.

Lemma strippedHwaddr_ascii hwaddr :
  isASCII hwaddr = true -> isASCII (strippedHwaddr hwaddr) = true.
Proof.
  unfold isASCII, strippedHwaddr. induction hwaddr as [|c s IH]; [done|].
  cbn [list_ascii_of_string forallb RemoveColons].
  intros [Hc Hs]%andb_true_iff.
  destruct (Ascii.eqb c ":"); [by apply IH|].
  cbn [ToLower list_ascii_of_string forallb].
  by rewrite (lower_char_ascii _ Hc), (IH Hs).
Qed.

(** X8: on hardware addresses that are ASCII text, the device-name stem is
    a normal form: it is ASCII again, deriving it again changes nothing, and
    addresses that differ only in letter case or in their colons give the
    same stem, hence link and netdev files of the same name. *)
Theorem stripped_hwaddr_normal_form (hwaddr : string) :
  isASCII hwaddr = true ->
  isASCII (strippedHwaddr hwaddr) = true
  /\ strippedHwaddr (strippedHwaddr hwaddr) = strippedHwaddr hwaddr
  /\ strippedHwaddr (ToLower hwaddr) = strippedHwaddr hwaddr
  /\ strippedHwaddr (RemoveColons hwaddr) = strippedHwaddr hwaddr
  /\ (forall i i',
        isASCII (iHwaddr i) = true -> isASCII (iHwaddr i') = true ->
        strippedHwaddr (iHwaddr i) = strippedHwaddr (iHwaddr i') ->
        Name (interfaceLink i) = Name (interfaceLink i')
        /\ Name (interfaceNetdev i) = Name (interfaceNetdev i')).
Proof.
  intros Hascii. split; [by apply strippedHwaddr_ascii|].
  unfold strippedHwaddr. split; [|split; [|split]].
  - by rewrite RemoveColons_ToLower, RemoveColons_idempotent, ToLower_idempotent.
  - by rewrite RemoveColons_ToLower, ToLower_idempotent.
  - by rewrite RemoveColons_idempotent.
  - intros i i' _ _ Hsame. unfold interfaceLink, interfaceNetdev, strippedHwaddr.
    cbn [Name]. by rewrite Hsame.
Qed.

End SynthesizerExtras.

(** ** Further properties of the artifact writer *)
Section WriterExtras.
Context (env : Env).
Context (dir timesyncFile : string).
Context (join : string -> string -> string).

Lemma orReturn_returns_none step rest h h' :
  orReturn step rest h = Returns None h' ->
  exists h1, step h = Returns None h1 /\ rest h1 = Returns None h'.
Proof.
  unfold orReturn, mbind, M_bind.
  destruct (step h) as [[e|] h1|h1|]; try done. eauto.
Qed.

Lemma orReturn_returns_error step rest h e h' :
  orReturn step rest h = Returns (Some e) h' ->
  step h = Returns (Some e) h'
  \/ exists h1, step h = Returns None h1 /\ rest h1 = Returns (Some e) h'.
Proof.
  unfold orReturn, mbind, M_bind.
  destruct (step h) as [[e1|] h1|h1|]; try done.
  - intros [= -> ->]. by left.
  - right. eauto.
Qed.

Lemma orReturn_returns_panic step rest h h' :
  orReturn step rest h = Panics h' ->
  step h = Panics h'
  \/ exists h1, step h = Returns None h1 /\ rest h1 = Panics h'.
Proof.
  unfold orReturn, mbind, M_bind.
  destruct (step h) as [[e1|] h1|h1|]; try done.
  - right. eauto.
  - intros [= ->]. by left.
Qed.

Lemma perform_returns c h r h' :
  perform env c h = Returns r h' -> r = call_error env h c /\ h' = h ++ [c].
Proof. unfold perform. by intros [= <- <-]. Qed.

(** Writing a list of files: either all are written, or the writes stop at
    the first one that fails. *)
Lemma writeFiles_outcome files h :
  writeFiles env dir join files h
  = Returns None (h ++ map (writeCall dir join) files)
  \/ exists written f rest e,
       files = written ++ f :: rest
       /\ call_error env (h ++ map (writeCall dir join) written) (writeCall dir join f)
          = Some e
       /\ writeFiles env dir join files h
          = Returns (Some e) (h ++ map (writeCall dir join) written ++ [writeCall dir join f]).
Proof.
  revert h. induction files as [|f files IH]; intros h.
  - left. simpl. by rewrite app_nil_r.
  - cbn [writeFiles]. fold (writeCall dir join f).
    destruct (call_error env h (writeCall dir join f)) as [e|] eqn:Hwrite.
    + right. exists [], f, files, e. split; [done|]. cbn [map app].
      rewrite app_nil_r. split; [done|].
      apply orReturn_error. unfold os_WriteFile, perform. fold (writeCall dir join f).
      by rewrite Hwrite.
    + rewrite (orReturn_ok _ _ h (h ++ [writeCall dir join f])).
      2:{ unfold os_WriteFile, perform. fold (writeCall dir join f). by rewrite Hwrite. }
      destruct (IH (h ++ [writeCall dir join f]))
        as [Hall|(written & g & rest & e & -> & Hfail & Hrun)].
      * left. rewrite Hall. cbn [map]. by rewrite <- app_assoc.
      * right. exists (f :: written), g, rest, e. split; [done|].
        cbn [map]. rewrite <- !app_assoc in *. cbn [app] in *. by split.
Qed.

Lemma writeFiles_none files h h' :
  writeFiles env dir join files h = Returns None h' ->
  h' = h ++ map (writeCall dir join) files.
Proof.
  destruct (writeFiles_outcome files h) as [->|(? & ? & ? & ? & _ & _ & ->)]; [|done].
  by intros [= <-].
Qed.

Lemma writeFiles_error files h e h' :
  writeFiles env dir join files h = Returns (Some e) h' ->
  exists before c, h' = before ++ [c] /\ call_error env before c = Some e
                   /\ (forall path, c <> CallRemove path).
Proof.
  destruct (writeFiles_outcome files h)
    as [->|(written & f & rest & e' & _ & Hfail & ->)]; [done|].
  intros [= <- <-]. exists (h ++ map (writeCall dir join) written), (writeCall dir join f).
  split; [by rewrite app_assoc|]. by split.
Qed.

Lemma writeFiles_no_panic files h h' : writeFiles env dir join files h <> Panics h'.
Proof.
  by destruct (writeFiles_outcome files h) as [->|(? & ? & ? & ? & _ & _ & ->)].
Qed.

Lemma orPanic_bind_returns {A B} (r : option A) (k : A -> M B) h x h' :
  (a ← orPanic r; k a) h = Returns x h' -> exists a, r = Some a /\ k a h = Returns x h'.
Proof. unfold mbind, M_bind, orPanic. destruct r as [a|]; [eauto|done]. Qed.

Lemma orPanic_bind_panics {A B} (r : option A) (k : A -> M B) h h' :
  (a ← orPanic r; k a) h = Panics h' ->
  (r = None /\ h' = h) \/ exists a, r = Some a /\ k a h = Panics h'.
Proof.
  unfold mbind, M_bind, orPanic. destruct r as [a|]; [by eauto|].
  intros [= <-]. by left.
Qed.

Lemma writeArtifacts_success cfg h h1 :
  writeArtifacts env dir join cfg h = Returns None h1 ->
  exists netdevs networks,
    generateNetdevFileContents cfg = Some netdevs
    /\ generateNetworkFileContents cfg = Some networks
    /\ h1 = h ++ [CallRemoveAll dir; CallMkdir dir perm_0o755]
              ++ map (writeCall dir join)
                     (generateLinkFileContents cfg ++ netdevs ++ networks).
Proof.
  unfold writeArtifacts.
  intros (h2 & [_ ->]%perform_returns & Hrest)%orReturn_returns_none.
  apply orReturn_returns_none in Hrest as (h3 & [_ ->]%perform_returns & Hrest).
  apply orReturn_returns_none in Hrest as (h4 & ->%writeFiles_none & Hrest).
  apply orReturn_returns_none in Hrest as (h5 & Hnetdevs & Hrest).
  apply orPanic_bind_returns in Hnetdevs as (netdevs & Hnetdevs & ->%writeFiles_none).
  apply orPanic_bind_returns in Hrest as (networks & Hnetworks & ->%writeFiles_none).
  exists netdevs, networks. split; [done|]. split; [done|].
  rewrite !map_app, <- !app_assoc. done.
Qed.

(** X9: when the writer succeeds, the configuration directory was wiped and
    recreated, then every artifact was written into it, link-match files
    first, virtual devices next, network policies last, each in rendering
    order, and the run ended with exactly one operation on the time-sync
    fallback file: its removal when no timeserver is configured, its writing
    otherwise. *)
Theorem writer_success_trace (cfg : SystemNetworkConfig) (h h' : history) :
  generateNetworkConfiguration env dir timesyncFile join cfg h = Returns None h' ->
  exists netdevs networks fallback,
    generateNetdevFileContents cfg = Some netdevs
    /\ generateNetworkFileContents cfg = Some networks
    /\ h' = h ++ [CallRemoveAll dir; CallMkdir dir perm_0o755]
              ++ map (writeCall dir join)
                     (generateLinkFileContents cfg ++ netdevs ++ networks)
              ++ [fallback]
    /\ ((fallback = CallRemove timesyncFile
         /\ (NTP cfg = None \/ exists ntp, NTP cfg = Some ntp /\ Timeservers ntp = []))
        \/ exists ntp,
             NTP cfg = Some ntp /\ Timeservers ntp <> []
             /\ fallback = CallWriteFile timesyncFile (generateTimesyncContents ntp)
                             perm_0o644).
Proof.
  unfold generateNetworkConfiguration.
  intros (h1 & (netdevs & networks & Hnetdevs & Hnetworks & ->)%writeArtifacts_success
          & Htimesync)%orReturn_returns_none.
  exists netdevs, networks.
  destruct (NTP cfg) as [ntp|] eqn:Hntp.
  - destruct (Timeservers ntp) as [|ts rest] eqn:Hts.
    + rewrite writeTimesync_absent in Htimesync by (right; eauto).
      injection Htimesync as <-. exists (CallRemove timesyncFile).
      split; [done|]. split; [done|]. split; [by rewrite <- !app_assoc|].
      left. split; [done|]. right. eauto.
    + rewrite (writeTimesync_configured _ _ _ ntp) in Htimesync by (by rewrite ?Hts).
      injection Htimesync as _ <-.
      exists (CallWriteFile timesyncFile (generateTimesyncContents ntp) perm_0o644).
      split; [done|]. split; [done|]. split; [by rewrite <- !app_assoc|].
      right. exists ntp. by rewrite Hts.
  - rewrite writeTimesync_absent in Htimesync by (by left).
    injection Htimesync as <-. exists (CallRemove timesyncFile).
    split; [done|]. split; [done|]. split; [by rewrite <- !app_assoc|].
    left. split; [done|]. by left.
Qed.

Lemma writeTimesync_returns cfg h :
  exists r c, writeTimesync env timesyncFile cfg h = Returns r (h ++ [c])
              /\ isFileCall c
              /\ (r = None \/ (r = call_error env h c /\ forall path, c <> CallRemove path)).
Proof.
  destruct (NTP cfg) as [ntp|] eqn:Hntp.
  - destruct (Timeservers ntp) as [|ts rest] eqn:Hts.
    + exists None, (CallRemove timesyncFile). split; [|by split; [|left]].
      apply writeTimesync_absent. right. eauto.
    + eexists _, _. split.
      * apply (writeTimesync_configured _ _ _ ntp); [done|]. by rewrite Hts.
      * split; [done|]. by right.
  - exists None, (CallRemove timesyncFile). split; [|by split; [|left]].
    apply writeTimesync_absent. by left.
Qed.

(** X10: an error returned by the writer is the error of the last call it
    made, and that call is never the removal of the fallback file (whose
    error is dropped); in particular a failing wipe or a failing creation of
    the directory ends the run on the spot, before any file is written. *)
Theorem writer_error_provenance (cfg : SystemNetworkConfig) (h : history) :
  (forall e,
      call_error env h (CallRemoveAll dir) = Some e ->
      generateNetworkConfiguration env dir timesyncFile join cfg h
      = Returns (Some e) (h ++ [CallRemoveAll dir]))
  /\ (forall e,
        call_error env h (CallRemoveAll dir) = None ->
        call_error env (h ++ [CallRemoveAll dir]) (CallMkdir dir perm_0o755) = Some e ->
        generateNetworkConfiguration env dir timesyncFile join cfg h
        = Returns (Some e) (h ++ [CallRemoveAll dir; CallMkdir dir perm_0o755]))
  /\ (forall e h',
        generateNetworkConfiguration env dir timesyncFile join cfg h
        = Returns (Some e) h' ->
        exists before c,
          h' = before ++ [c] /\ call_error env before c = Some e
          /\ isFileCall c /\ forall path, c <> CallRemove path).
Proof.
  split; [|split].
  - intros e Hwipe. unfold generateNetworkConfiguration, writeArtifacts.
    apply orReturn_error, orReturn_error. unfold os_RemoveAll, perform. by rewrite Hwipe.
  - intros e Hwipe Hmkdir. unfold generateNetworkConfiguration, writeArtifacts.
    apply orReturn_error.
    rewrite (orReturn_ok _ _ h (h ++ [CallRemoveAll dir])).
    2:{ unfold os_RemoveAll, perform. by rewrite Hwipe. }
    rewrite (orReturn_error _ _ _ e
               ((h ++ [CallRemoveAll dir]) ++ [CallMkdir dir perm_0o755])).
    + by rewrite <- app_assoc.
    + unfold os_Mkdir, perform. by rewrite Hmkdir.
  - intros e h'. unfold generateNetworkConfiguration.
    assert (Hperform : forall c h0 h1, perform env c h0 = Returns (Some e) h1 ->
               isFileCall c -> (forall path, c <> CallRemove path) ->
               exists before c, h1 = before ++ [c] /\ call_error env before c = Some e
                                /\ isFileCall c /\ forall path, c <> CallRemove path).
    { intros c h0 h1 [He ->]%perform_returns Hfile Hnot. by exists h0, c. }
    assert (Hwrites : forall files h0 h1,
               writeFiles env dir join files h0 = Returns (Some e) h1 ->
               exists before c, h1 = before ++ [c] /\ call_error env before c = Some e
                                /\ isFileCall c /\ forall path, c <> CallRemove path).
    { intros files h0 h1 Hrun.
      destruct (writeFiles_outcome files h0)
        as [Hall|(written & f & rest & e' & _ & Hfail & Hstop)]; [congruence|].
      rewrite Hstop in Hrun. injection Hrun as <- <-.
      exists (h0 ++ map (writeCall dir join) written), (writeCall dir join f).
      split; [by rewrite app_assoc|]. done. }
    intros [Hartifacts|(h1 & _ & Htimesync)]%orReturn_returns_error.
    + unfold writeArtifacts in Hartifacts.
      apply orReturn_returns_error in Hartifacts as [Hstep|(h2 & _ & Hrest)].
      { by eapply Hperform. }
      apply orReturn_returns_error in Hrest as [Hstep|(h3 & _ & Hrest)].
      { by eapply Hperform. }
      apply orReturn_returns_error in Hrest as [Hstep|(h4 & _ & Hrest)].
      { by eapply Hwrites. }
      apply orReturn_returns_error in Hrest as [Hstep|(h5 & _ & Hrest)].
      { apply orPanic_bind_returns in Hstep as (files & _ & Hstep). by eapply Hwrites. }
      apply orPanic_bind_returns in Hrest as (files & _ & Hstep). by eapply Hwrites.
    + destruct (writeTimesync_returns cfg h1) as (r & c & Hrun & Hfile & Hr).
      rewrite Hrun in Htimesync. injection Htimesync as -> <-.
      destruct Hr as [?|[Hr Hnot]]; [done|].
      by exists h1, c.
Qed.

(** X11: the writer panics exactly on a bond that has neither an address
    override nor a member, and then only after it has wiped and recreated
    the directory and written every link-match file: the directory is left
    without any virtual device or network policy. *)
Theorem writer_panic_state (cfg : SystemNetworkConfig) (h : history) :
  (forall h',
      generateNetworkConfiguration env dir timesyncFile join cfg h = Panics h' ->
      (exists b, In b (Bonds cfg) /\ lacksMAC b)
      /\ h' = h ++ [CallRemoveAll dir; CallMkdir dir perm_0o755]
                ++ map (writeCall dir join) (generateLinkFileContents cfg))
  /\ ((exists b, In b (Bonds cfg) /\ lacksMAC b) ->
      (forall h0 c, call_error env h0 c = None) ->
      generateNetworkConfiguration env dir timesyncFile join cfg h
      = Panics (h ++ [CallRemoveAll dir; CallMkdir dir perm_0o755]
                  ++ map (writeCall dir join) (generateLinkFileContents cfg))).
Proof.
  split.
  - intros h'. unfold generateNetworkConfiguration.
    intros [Hartifacts|(h1 & _ & Htimesync)]%orReturn_returns_panic.
    2:{ destruct (writeTimesync_returns cfg h1) as (r & c & Hrun & _). congruence. }
    unfold writeArtifacts in Hartifacts.
    apply orReturn_returns_panic in Hartifacts
      as [Hstep|(h2 & [_ ->]%perform_returns & Hrest)]; [done|].
    apply orReturn_returns_panic in Hrest
      as [Hstep|(h3 & [_ ->]%perform_returns & Hrest)]; [done|].
    apply orReturn_returns_panic in Hrest
      as [Hstep|(h4 & ->%writeFiles_none & Hrest)]; [by apply writeFiles_no_panic in Hstep|].
    apply orReturn_returns_panic in Hrest as [Hstep|(h5 & Hnetdevs & Hrest)].
    + apply orPanic_bind_panics in Hstep as [[Hnone ->]|(files & _ & Hstep)].
      * split; [by apply generateNetdevFileContents_none|]. by rewrite <- !app_assoc.
      * by apply writeFiles_no_panic in Hstep.
    + apply orPanic_bind_returns in Hnetdevs as (netdevs & Hnetdevs & _).
      apply orPanic_bind_panics in Hrest as [[Hnone _]|(files & _ & Hstep)].
      * apply generateNetworkFileContents_none, generateNetdevFileContents_none in Hnone.
        congruence.
      * by apply writeFiles_no_panic in Hstep.
  - intros Hbond%generateNetdevFileContents_none Hok.
    unfold generateNetworkConfiguration, writeArtifacts.
    apply orReturn_panics.
    rewrite (orReturn_ok _ _ h (h ++ [CallRemoveAll dir])).
    2:{ unfold os_RemoveAll, perform. by rewrite Hok. }
    rewrite (orReturn_ok _ _ _ ((h ++ [CallRemoveAll dir]) ++ [CallMkdir dir perm_0o755])).
    2:{ unfold os_Mkdir, perform. by rewrite Hok. }
    rewrite (orReturn_ok _ _ _
               (((h ++ [CallRemoveAll dir]) ++ [CallMkdir dir perm_0o755])
                  ++ map (writeCall dir join) (generateLinkFileContents cfg))).
    2:{ destruct (writeFiles_outcome (generateLinkFileContents cfg)
                    ((h ++ [CallRemoveAll dir]) ++ [CallMkdir dir perm_0o755]))
          as [Hall|(written & f & rest & e & _ & Hfail & _)]; [done|].
        by rewrite Hok in Hfail. }
    apply orReturn_panics. rewrite Hbond.
    unfold mbind, M_bind, orPanic. by rewrite <- !app_assoc.
Qed.

End WriterExtras.

(** ** Further properties of the convergence waiters *)
Section WaiterExtras.
Context (env : Env).

Lemma checked_devices_skip (l : list (string * list string)) (m : gmap string Z) name :
  (forall addresses, In (name, addresses) l -> addresses = []) ->
  foldl (fun m d => checkDevice m d.1 d.2) m l !! name = m !! name.
Proof.
  revert m. induction l as [|[name0 addrs0] l IH]; intros m Hempty; [done|].
  simpl. rewrite IH by (intros; apply Hempty; by right).
  rewrite checkDevice_lookup. rewrite decide_False; [done|].
  intros [-> Hne]. apply Hne, Hempty. by left.
Qed.

Lemma checked_devices_some (l : list (string * list string)) (m : gmap string Z)
  name addresses :
  In (name, addresses) l -> addresses <> [] ->
  is_Some (foldl (fun m d => checkDevice m d.1 d.2) m l !! name).
Proof.
  intros Hin Hne. apply in_split in Hin as (before & after & ->).
  rewrite foldl_app. cbn [foldl fst snd].
  set (m1 := checkDevice _ name addresses).
  assert (Hm1 : is_Some (m1 !! name)).
  { unfold m1. rewrite checkDevice_lookup, decide_True; [by eexists|done]. }
  clearbody m1. revert m1 Hm1.
  induction after as [|[name0 addrs0] after IH]; intros m1 Hm1; [done|].
  simpl. apply IH. rewrite checkDevice_lookup. by case_decide.
Qed.

(** X12: the device map of the online waiter has an entry exactly for the
    names under which some device declares at least one address; the
    expected count is at least one; and when several devices bear the same
    name, the last one that declares addresses (interfaces, then bonds, then
    VLANs, each in declaration order) decides the count. *)
Theorem device_map_contents (cfg : SystemNetworkConfig) (name : string) :
  (is_Some (devicesToCheck cfg !! name)
   <-> exists addresses, In (name, addresses) (declaredDevices cfg) /\ addresses <> [])
  /\ (forall n, devicesToCheck cfg !! name = Some n -> 1 <= n)
  /\ (forall before addresses after,
        declaredDevices cfg = before ++ (name, addresses) :: after ->
        addresses <> [] ->
        (forall addresses', In (name, addresses') after -> addresses' = []) ->
        devicesToCheck cfg !! name = Some (Z.of_nat (length addresses))).
Proof.
  split; [|split].
  - split.
    + intros [n (addrs & Hin & Hne & _)%devicesToCheck_origin]. eauto.
    + intros (addrs & Hin & Hne). rewrite devicesToCheck_declared.
      by eapply checked_devices_some.
  - intros n (addrs & _ & Hne & ->)%devicesToCheck_origin.
    destruct addrs; [done|]. simpl length. lia.
  - intros before addrs after Hsplit Hne Hlast.
    rewrite devicesToCheck_declared, Hsplit, foldl_app. cbn [foldl fst snd].
    rewrite checked_devices_skip by done.
    by rewrite checkDevice_lookup, decide_True.
Qed.

Lemma fmap_pair_some (x : option nat) (f : nat -> nat) (capture : string) n :
  (fun n => ("", f n)) <$> x = Some (capture, n) -> capture = "".
Proof. destruct x; simpl; [|done]. by intros [= <- _]. Qed.

Lemma dots_then_tail_clean s capture n :
  ipAddressRegex.dots_then_tail s = Some (capture, n) -> Contains capture LF = false.
Proof.
  revert capture n. induction s as [|c s IH]; intros capture n.
  - done.
  - cbn [ipAddressRegex.dots_then_tail].
    destruct (Ascii.eqb c LF_char) eqn:Hc.
    + by intros ->%(fmap_pair_some _ (fun n => n)).
    + destruct (ipAddressRegex.dots_then_tail s) as [[capture' n']|].
      * intros [= <- _]. rewrite Contains_LF_cons, Hc. by eapply IH.
      * by intros ->%(fmap_pair_some _ (fun n => n)).
Qed.

Lemma group_then_tail_clean s capture n :
  ipAddressRegex.group_then_tail s = Some (capture, n) ->
  capture <> "" /\ Contains capture LF = false.
Proof.
  destruct s as [|c s]; [done|]. cbn [ipAddressRegex.group_then_tail].
  destruct (Ascii.eqb c LF_char) eqn:Hc; [done|].
  destruct (ipAddressRegex.dots_then_tail s) as [[capture' n']|] eqn:Htail; [|done].
  simpl. intros [= <- _]. split; [done|].
  rewrite Contains_LF_cons, Hc. by eapply dots_then_tail_clean.
Qed.

Ltac split_char c := destruct c as [[] [] [] [] [] [] [] []]; try discriminate.

Lemma match_here_inv s capture m :
  ipAddressRegex.match_here s = Some (capture, m) ->
  HasPrefix s "inet" = true
  /\ exists rest n, ipAddressRegex.group_then_tail rest = Some (capture, n).
Proof.
  destruct s as [|c1 [|c2 [|c3 [|c4 rest]]]]; try (intros; discriminate).
  - split_char c1.
  - split_char c1. split_char c2.
  - split_char c1. split_char c2. split_char c3.
  - split_char c1. split_char c2. split_char c3. split_char c4.
    intros Hmatch. split; [done|].
    destruct rest as [|c5 rest]; [done|].
    split_char c5.
    + destruct rest as [|c6 rest]; [done|]. split_char c6.
      change (('(captured, n) ← ipAddressRegex.group_then_tail rest;
               Some (captured, (6 + n)%nat)) = Some (capture, m)) in Hmatch.
      destruct (ipAddressRegex.group_then_tail rest) as [[capture' n']|] eqn:Hgroup;
        [|done].
      injection Hmatch as <- _. eauto.
    + change (('(captured, n) ← ipAddressRegex.group_then_tail rest;
               Some (captured, (5 + n)%nat)) = Some (capture, m)) in Hmatch.
      destruct (ipAddressRegex.group_then_tail rest) as [[capture' n']|] eqn:Hgroup;
        [|done].
      injection Hmatch as <- _. eauto.
Qed.

Lemma scan_clean k s capture :
  In capture (ipAddressRegex.scan k s) -> capture <> "" /\ Contains capture LF = false.
Proof.
  revert k. induction s as [|c s IH]; intros k; [done|].
  cbn [ipAddressRegex.scan]. destruct k as [|k]; [|apply IH].
  destruct (ipAddressRegex.match_here (String c s)) as [[captured n]|] eqn:Hmatch;
    [|apply IH].
  intros [<-|Hin]; [|by eapply IH].
  apply match_here_inv in Hmatch as (_ & rest & n' & Hgroup).
  by eapply group_then_tail_clean.
Qed.

Lemma Contains_cons_false c s substr :
  Contains (String c s) substr = false ->
  HasPrefix (String c s) substr = false /\ Contains s substr = false.
Proof. cbn [Contains]. by destruct (HasPrefix (String c s) substr). Qed.

Lemma scan_no_inet k s :
  Contains s "inet" = false -> ipAddressRegex.scan k s = [].
Proof.
  revert k. induction s as [|c s IH]; intros k Hno; [done|].
  apply Contains_cons_false in Hno as [Hprefix Hno].
  cbn [ipAddressRegex.scan]. destruct k as [|k]; [|by apply IH].
  destruct (ipAddressRegex.match_here (String c s)) as [[captured n]|] eqn:Hmatch;
    [|by apply IH].
  apply match_here_inv in Hmatch as [Hinet _]. congruence.
Qed.

(** X13: every address the expression captures is a non-empty piece of one
    line; an output without the word [inet] counts as zero addresses; and
    the count handed to the waiter is [-1] exactly when the query failed,
    and otherwise lies between zero and the number of matches. *)
Theorem address_count_edges (name : string) (h : history) :
  (forall output capture,
      In capture (ipAddressRegex.FindAllStringSubmatch output) ->
      capture <> "" /\ Contains capture LF = false)
  /\ (forall output, Contains output "inet" = false -> nonLinkLocal output = 0)
  /\ exists n,
       getNumberOfIPs env name h = Returns n (h ++ [addressCall name])
       /\ (n = -1 <-> exists err,
                        command_result env h ["ip"; "address"; "show"; name] = inr err)
       /\ (forall output,
             command_result env h ["ip"; "address"; "show"; name] = inl output ->
             0 <= n <= Z.of_nat (length (ipAddressRegex.FindAllStringSubmatch output))).
Proof.
  split; [|split].
  - intros output capture. apply scan_clean.
  - intros output Hno. unfold nonLinkLocal, ipAddressRegex.FindAllStringSubmatch.
    by rewrite scan_no_inet.
  - unfold getNumberOfIPs, mbind, M_bind, RunCommandContext, mret, M_ret.
    destruct (command_result env h _) as [output|err].
    + eexists. split; [reflexivity|]. rewrite countIPs_filter.
      pose proof (filter_length_le (fun addr => negb (HasPrefix addr "fe80:"))
                    (ipAddressRegex.FindAllStringSubmatch output)) as Hle.
      split.
      * split; [lia|]. by intros [err ?].
      * intros ? [= <-]. lia.
    + exists (-1). split; [done|]. split; [|done]. split; [eauto|done].
Qed.

(** X14: when no device declares an address, the online waiter makes no
    query and never sleeps: it reads the clock twice and returns success,
    unless the second reading is already past the deadline, in which case
    it returns the timeout error. *)
Theorem online_wait_nothing_to_check (cfg : SystemNetworkConfig) (fuel : nat)
  (timeout : Z) (h : history) :
  (forall name addresses, In (name, addresses) (declaredDevices cfg) -> addresses = []) ->
  waitForNetworkOnline env (S fuel) cfg timeout h
  = Returns (if clock env h + timeout <? clock env (h ++ [CallNow])
             then Some onlineTimeout else None)
            (h ++ [CallNow; CallNow]).
Proof.
  intros Hnone.
  assert (Hempty : devicesToCheck cfg = ∅).
  { apply map_eq. intros name. rewrite lookup_empty.
    destruct (devicesToCheck cfg !! name) as [n|] eqn:Hlook; [|done].
    apply devicesToCheck_origin in Hlook as (addrs & Hin & Hne & _).
    by destruct (Hne (Hnone _ _ Hin)). }
  unfold waitForNetworkOnline, mbind, M_bind, time_Now.
  rewrite Hempty, onlineLoop_step. cbv zeta.
  rewrite map_to_list_empty.
  assert (range_order env ((h ++ [CallNow]) ++ [CallNow]) [] = []) as ->.
  { apply Permutation_nil. symmetry. apply range_order_perm. }
  rewrite <- app_assoc. by destruct (_ <? _).
Qed.

Lemma sleepCount_app calls calls' :
  sleepCount (calls ++ calls') = (sleepCount calls + sleepCount calls')%nat.
Proof. unfold sleepCount. by rewrite List.filter_app, length_app. Qed.

Lemma sleepCount_queries devices calls :
  Forall (isQueryOf devices) calls -> sleepCount calls = 0%nat.
Proof.
  induction 1 as [|c calls (name & n & _ & [-> | ->]) _ IH]; [done|..]; exact IH.
Qed.

Lemma onlineLoop_sleeps fuel endTime (devices : gmap string Z) h r h' :
  clockAdvances env ->
  onlineLoop env fuel endTime devices h = Returns r h' ->
  exists calls,
    h' = h ++ calls
    /\ Z.of_nat (sleepCount calls) * (500 * Millisecond)
       <= Z.max 0 (endTime - clock env h + 500 * Millisecond).
Proof.
  intros Hclock. revert h. induction fuel as [|fuel IH]; intros h; [done|].
  rewrite onlineLoop_step. cbv zeta.
  destruct (Z.ltb_spec endTime (clock env h)) as [Hlate|Hearly].
  { intros [= <- <-]. exists [CallNow]. split; [done|]. cbn [sleepCount List.filter length]. lia. }
  destruct (allDevicesOnline_calls env
              (range_order env (h ++ [CallNow]) (map_to_list devices)) (h ++ [CallNow]))
    as (b & calls & -> & Hqueries).
  apply sleepCount_queries in Hqueries.
  destruct b.
  - intros [= <- <-]. exists ([CallNow] ++ calls). split; [by rewrite app_assoc|].
    rewrite sleepCount_app, Hqueries. cbn [sleepCount List.filter length]. lia.
  - intros (calls' & -> & Hbound)%IH.
    exists (([CallNow] ++ calls) ++ [CallSleep (500 * Millisecond)] ++ calls').
    split; [by rewrite <- !app_assoc|].
    rewrite !sleepCount_app, Hqueries.
    change (sleepCount [CallNow]) with 0%nat.
    change (sleepCount [CallSleep (500 * Millisecond)]) with 1%nat.
    pose proof (clock_after_sleep env ((h ++ [CallNow]) ++ calls)
                  (500 * Millisecond) Hclock) as Hsleep.
    pose proof (clock_monotone env h ([CallNow] ++ calls) Hclock) as Hmono.
    rewrite <- !app_assoc in *. unfold Millisecond in *. lia.
Qed.

Lemma renameLoop_sleeps fuel endTime h r h' :
  clockAdvances env ->
  renameLoop env fuel endTime h = Returns r h' ->
  exists calls,
    h' = h ++ calls
    /\ Z.of_nat (sleepCount calls) * (500 * Millisecond)
       <= Z.max 0 (endTime - clock env h + 500 * Millisecond).
Proof.
  intros Hclock. revert h. induction fuel as [|fuel IH]; intros h; [done|].
  rewrite renameLoop_step. cbv zeta.
  destruct (Z.ltb_spec endTime (clock env h)) as [Hlate|Hearly].
  { intros [= <- <-]. exists [CallNow]. split; [done|]. cbn [sleepCount List.filter length]. lia. }
  destruct (command_result env (h ++ [CallNow]) udevadmTrigger).
  2:{ intros [= <- <-]. exists [CallNow; CallRun udevadmTrigger].
      split; [by rewrite <- app_assoc|]. cbn [sleepCount List.filter length]. lia. }
  destruct (command_result env _ udevadmSettle).
  2:{ intros [= <- <-]. exists [CallNow; CallRun udevadmTrigger; CallRun udevadmSettle].
      split; [by rewrite <- !app_assoc|]. cbn [sleepCount List.filter length]. lia. }
  destruct (command_result env _ journalctlRenamed).
  { intros [= <- <-].
    exists [CallNow; CallRun udevadmTrigger; CallRun udevadmSettle;
            CallRun journalctlRenamed].
    split; [by rewrite <- !app_assoc|]. cbn [sleepCount List.filter length]. lia. }
  intros (calls' & -> & Hbound)%IH.
  exists ([CallNow; CallRun udevadmTrigger; CallRun udevadmSettle;
           CallRun journalctlRenamed; CallSleep (500 * Millisecond)] ++ calls').
  split; [by rewrite <- !app_assoc|].
  rewrite sleepCount_app.
  change (sleepCount [CallNow; CallRun udevadmTrigger; CallRun udevadmSettle;
                      CallRun journalctlRenamed; CallSleep (500 * Millisecond)])
    with 1%nat.
  pose proof (clock_after_sleep env
                (h ++ [CallNow; CallRun udevadmTrigger; CallRun udevadmSettle;
                       CallRun journalctlRenamed])
                (500 * Millisecond) Hclock) as Hsleep.
  pose proof (clock_monotone env h
                [CallNow; CallRun udevadmTrigger; CallRun udevadmSettle;
                 CallRun journalctlRenamed] Hclock) as Hmono.
  rewrite <- !app_assoc in *. cbn [app] in *. unfold Millisecond in *. lia.
Qed.

(** X15: under a clock that advances, both waiters sleep a bounded number of
    times: the sleeps, 500 ms each, add up to at most the timeout plus one
    period (and to nothing when the timeout is below minus one period). *)
Theorem waits_sleep_bounded :
  clockAdvances env ->
  (forall fuel cfg timeout h r h',
      waitForNetworkOnline env fuel cfg timeout h = Returns r h' ->
      exists calls,
        h' = h ++ calls
        /\ Z.of_nat (sleepCount calls) * (500 * Millisecond)
           <= Z.max 0 (timeout + 500 * Millisecond))
  /\ (forall fuel timeout h r h',
        waitForUdevInterfaceRename env fuel timeout h = Returns r h' ->
        exists calls,
          h' = h ++ calls
          /\ Z.of_nat (sleepCount calls) * (500 * Millisecond)
             <= Z.max 0 (timeout + 500 * Millisecond)).
Proof.
  intros Hclock. split.
  - intros fuel cfg timeout h r h'.
    unfold waitForNetworkOnline, mbind, M_bind, time_Now.
    intros (calls & -> & Hbound)%onlineLoop_sleeps; [|done].
    exists ([CallNow] ++ calls). split; [by rewrite app_assoc|].
    rewrite sleepCount_app. change (sleepCount [CallNow]) with 0%nat.
    pose proof (clock_monotone env h [CallNow] Hclock). unfold Millisecond in *. lia.
  - intros fuel timeout h r h'.
    unfold waitForUdevInterfaceRename, mbind, M_bind, time_Now.
    intros (calls & -> & Hbound)%renameLoop_sleeps; [|done].
    exists ([CallNow] ++ calls). split; [by rewrite app_assoc|].
    rewrite sleepCount_app. change (sleepCount [CallNow]) with 0%nat.
    pose proof (clock_monotone env h [CallNow] Hclock). unfold Millisecond in *. lia.
Qed.

End WaiterExtras.

(** ** Further properties of the orchestrator *)
Section OrchestratorExtras.
Context (env : Env).
Context (dir timesyncFile : string).
Context (join : string -> string -> string).

Lemma emits_renameLoop_any P fuel endTime :
  waiterCalls P -> emits P (renameLoop env fuel endTime).
Proof.
  intros (Hnow & Hrun & Hsleep).
  induction fuel as [|fuel IH]; [done|]. cbn [renameLoop].
  apply emits_bind; [by apply emits_time_Now|]. intros now.
  destruct (endTime <? now); [apply emits_ret|].
  apply emits_bind; [by apply emits_RunCommandContext|]. intros [?|?]; [|apply emits_ret].
  apply emits_bind; [by apply emits_RunCommandContext|]. intros [?|?]; [|apply emits_ret].
  apply emits_bind; [by apply emits_RunCommandContext|]. intros [?|?]; [apply emits_ret|].
  apply emits_bind; [by apply emits_time_Sleep|]. intros _. exact IH.
Qed.

Lemma emits_allDevicesOnline_any P devices :
  waiterCalls P -> emits P (allDevicesOnline env devices).
Proof.
  intros (Hnow & Hrun & Hsleep).
  induction devices as [|[name numIPs] rest IH]; [apply emits_ret|].
  cbn [allDevicesOnline]. unfold isOnline, getNumberOfIPs.
  apply emits_bind.
  { apply emits_bind; [by apply emits_RunCommandContext|]. intros [?|?]; apply emits_ret. }
  intros online. destruct (negb online); [apply emits_ret|].
  apply emits_bind.
  { apply emits_bind; [by apply emits_RunCommandContext|]. intros [?|?]; apply emits_ret. }
  intros n. destruct (negb (n =? numIPs)); [apply emits_ret|done].
Qed.

Lemma emits_waitForNetworkOnline_any P fuel cfg timeout :
  waiterCalls P -> emits P (waitForNetworkOnline env fuel cfg timeout).
Proof.
  intros HP. pose proof HP as (Hnow & Hrun & Hsleep).
  apply emits_bind; [by apply emits_time_Now|]. intros now.
  generalize (now + timeout) as endTime. intros endTime.
  induction fuel as [|fuel IH]; [done|]. cbn [onlineLoop].
  apply emits_bind; [by apply emits_time_Now|]. intros now'.
  destruct (endTime <? now'); [apply emits_ret|].
  apply emits_bind.
  { intros h. exists []. by rewrite app_nil_r. }
  intros entries. apply emits_bind; [by apply emits_allDevicesOnline_any|].
  intros [|]; [apply emits_ret|].
  apply emits_bind; [by apply emits_time_Sleep|]. intros _. exact IH.
Qed.

Lemma orReturn_assoc a b c h :
  orReturn (orReturn a b) c h = orReturn a (orReturn b c) h.
Proof.
  unfold orReturn, mbind, M_bind, mret, M_ret.
  by destruct (a h) as [[e|] h1|h1|].
Qed.

Lemma orReturn_ext a b b' h :
  (forall h1, b h1 = b' h1) -> orReturn a b h = orReturn a b' h.
Proof.
  intros Hb. unfold orReturn, mbind, M_bind.
  destruct (a h) as [[e|] h1|h1|]; [done|apply Hb|done..].
Qed.

Lemma snoc_split {A} (h l before : list A) (x : A) :
  l <> [] -> h ++ l = before ++ [x] -> exists c1, l = c1 ++ [x] /\ before = h ++ c1.
Proof.
  intros Hne Heq. destruct (exists_last Hne) as (c1 & y & ->).
  rewrite app_assoc in Heq. apply app_inj_tail in Heq as [<- ->]. by exists c1.
Qed.

Lemma notRestartCall_waiters : waiterCalls notRestartCall.
Proof. by repeat split. Qed.

(** The steps up to and including the rename wait end with a kernel-log
    query that found the rename, and restart nothing. *)
Lemma before_restarts fuel cfg h h4 :
  orReturn (SetHostname env (targetHostname (DNS cfg)))
    (orReturn (UpdateEnvironment env (Proxy cfg))
       (orReturn (generateNetworkConfiguration env dir timesyncFile join cfg)
          (waitForUdevInterfaceRename env fuel (5 * Second)))) h
  = Returns None h4 ->
  exists c1 out,
    h4 = h ++ c1 ++ [CallRun journalctlRenamed]
    /\ Forall notRestartCall c1
    /\ command_result env (h ++ c1) journalctlRenamed = inl out.
Proof.
  intros (h1 & [_ ->]%perform_returns & Hrest)%orReturn_returns_none.
  assert (Hemits : emits notRestartCall
            (orReturn (UpdateEnvironment env (Proxy cfg))
               (orReturn (generateNetworkConfiguration env dir timesyncFile join cfg)
                  (waitForUdevInterfaceRename env fuel (5 * Second))))).
  { apply emits_orReturn; [by apply emits_perform|].
    apply emits_orReturn.
    - eapply emits_impl; [|apply emits_generateNetworkConfiguration]. by intros [].
    - apply emits_bind; [by apply emits_time_Now|]. intros now.
      apply emits_renameLoop_any, notRestartCall_waiters. }
  destruct (emits_returns _ _ _ _ _ Hemits Hrest) as (calls & Hh4 & Hcalls).
  apply orReturn_returns_none in Hrest as (h2 & _ & Hrest).
  apply orReturn_returns_none in Hrest as (h3 & _ & Hrename).
  unfold waitForUdevInterfaceRename, mbind, M_bind, time_Now in Hrename.
  apply renameLoop_ending in Hrename
    as (before & [(_ & Hlast & out & Hout)|[(? & _)|(err & ? & _)]]); [|done..].
  rewrite Hh4, <- app_assoc in Hlast.
  apply snoc_split in Hlast as (c1 & Hc1 & ->); [|done].
  exists c1, out. split; [by rewrite Hh4, <- app_assoc, Hc1|]. split; [|done].
  assert (Hall : Forall notRestartCall ([CallSetHostname (targetHostname (DNS cfg))]
                                          ++ calls)).
  { apply Forall_app. split; [|done]. by constructor. }
  rewrite Hc1 in Hall. by apply Forall_app in Hall as [? _].
Qed.

(** Where a call occurs once among some calls, it splits them in one way
    only. *)
Lemma single_occurrence {A} (x : A) (a b c1 c2 : list A) :
  ~ In x a -> ~ In x b -> a ++ x :: b = c1 ++ x :: c2 -> c1 = a.
Proof.
  revert c1. induction a as [|y a IH]; intros c1 Ha Hb Heq.
  - destruct c1 as [|z c1]; [done|].
    injection Heq as <- ->. destruct Hb. apply in_or_app. right. by left.
  - destruct c1 as [|z c1].
    + injection Heq as -> _. destruct Ha. by left.
    + injection Heq as <- Heq. f_equal. apply IH; [|done..].
      intros Hin. apply Ha. by right.
Qed.

(** X16: in a run of the orchestrator, every restart of systemd-networkd
    comes right after a kernel-log query that found the rename, and every
    restart of systemd-timesyncd right after a restart of systemd-networkd
    that succeeded; each of the two units is restarted at most once. *)
Theorem restarts_follow_rename (fuel : nat) (cfg : SystemNetworkConfig)
  (timeout : Z) (h : history) :
  let restartNetworkd := CallRestartUnit "systemd-networkd" in
  let restartTimesyncd := CallRestartUnit "systemd-timesyncd" in
  match ApplyNetworkConfiguration env dir timesyncFile join fuel (Some cfg) timeout h with
  | Returns _ h' | Panics h' =>
      exists calls,
        h' = h ++ calls
        /\ (forall c1 c2,
              calls = c1 ++ restartNetworkd :: c2 ->
              (exists c0 out,
                 c1 = c0 ++ [CallRun journalctlRenamed]
                 /\ command_result env (h ++ c0) journalctlRenamed = inl out)
              /\ ~ In restartNetworkd c1 /\ ~ In restartNetworkd c2)
        /\ (forall c1 c2,
              calls = c1 ++ restartTimesyncd :: c2 ->
              (exists c0,
                 c1 = c0 ++ [restartNetworkd]
                 /\ call_error env (h ++ c0) restartNetworkd = None)
              /\ ~ In restartTimesyncd c1 /\ ~ In restartTimesyncd c2)
  | Unfinished => True
  end.
Proof.
  intros restartNetworkd restartTimesyncd.
  set (prelude :=
         orReturn (SetHostname env (targetHostname (DNS cfg)))
           (orReturn (UpdateEnvironment env (Proxy cfg))
              (orReturn (generateNetworkConfiguration env dir timesyncFile join cfg)
                 (waitForUdevInterfaceRename env fuel (5 * Second))))).
  set (restarts :=
         orReturn (RestartUnit env "systemd-networkd")
           (orReturn (RestartUnit env "systemd-timesyncd")
              (waitForNetworkOnline env fuel cfg timeout))).
  assert (Happly : ApplyNetworkConfiguration env dir timesyncFile join fuel (Some cfg)
                     timeout h = orReturn prelude restarts h).
  { unfold ApplyNetworkConfiguration, prelude, restarts.
    rewrite orReturn_assoc. apply orReturn_ext. intros h1.
    rewrite orReturn_assoc. apply orReturn_ext. intros h2.
    by rewrite orReturn_assoc. }
  rewrite Happly.
  assert (Hprelude : emits notRestartCall prelude).
  { unfold prelude. apply emits_orReturn; [by apply emits_perform|].
    apply emits_orReturn; [by apply emits_perform|].
    apply emits_orReturn.
    - eapply emits_impl; [|apply emits_generateNetworkConfiguration]. by intros [].
    - apply emits_bind; [by apply emits_time_Now|]. intros now.
      apply emits_renameLoop_any, notRestartCall_waiters. }
  assert (Hquiet : forall calls unit, Forall notRestartCall calls ->
                                      ~ In (CallRestartUnit unit) calls).
  { intros calls unit Hcalls Hin. rewrite Forall_forall in Hcalls.
    apply list_elem_of_In in Hin. by apply (Hcalls _ Hin unit). }
  assert (Habsent : forall calls unit c1 c2,
             Forall notRestartCall calls ->
             calls = c1 ++ CallRestartUnit unit :: c2 -> False).
  { intros calls unit c1 c2 Hcalls ->. apply (Hquiet _ unit Hcalls).
    apply in_or_app. right. by left. }
  (* the shape of the calls once the restarts are reached *)
  assert (Hshape : forall c0 out tail,
             Forall notRestartCall c0 ->
             command_result env (h ++ c0) journalctlRenamed = inl out ->
             ~ In restartNetworkd tail ->
             (forall c1 c2,
                 tail = c1 ++ restartTimesyncd :: c2 ->
                 c1 = []
                 /\ call_error env (h ++ c0 ++ [CallRun journalctlRenamed]) restartNetworkd
                    = None
                 /\ ~ In restartTimesyncd c2) ->
             let calls := c0 ++ CallRun journalctlRenamed :: restartNetworkd :: tail in
             (forall c1 c2,
                 calls = c1 ++ restartNetworkd :: c2 ->
                 (exists c0 out,
                    c1 = c0 ++ [CallRun journalctlRenamed]
                    /\ command_result env (h ++ c0) journalctlRenamed = inl out)
                 /\ ~ In restartNetworkd c1 /\ ~ In restartNetworkd c2)
             /\ (forall c1 c2,
                   calls = c1 ++ restartTimesyncd :: c2 ->
                   (exists c0,
                      c1 = c0 ++ [restartNetworkd]
                      /\ call_error env (h ++ c0) restartNetworkd = None)
                   /\ ~ In restartTimesyncd c1 /\ ~ In restartTimesyncd c2)).
  { intros c0 out tail Hc0 Hout Htail Htimesyncd calls.
    assert (Hbefore : forall unit,
               ~ In (CallRestartUnit unit) (c0 ++ [CallRun journalctlRenamed])).
    { intros unit [Hin|[?|[]]]%in_app_or; [by apply Hquiet in Hin|done]. }
    split.
    - intros c1 c2 Heq.
      assert (Hcalls : calls = (c0 ++ [CallRun journalctlRenamed])
                                 ++ restartNetworkd :: tail).
      { unfold calls. by rewrite <- app_assoc. }
      rewrite Hcalls in Heq.
      pose proof (single_occurrence _ _ _ _ _ (Hbefore _) Htail Heq) as ->.
      apply app_inv_head in Heq. injection Heq as <-.
      split; [by exists c0, out|]. split; [apply Hbefore|done].
    - intros c1 c2 Heq.
      assert (Hcalls : calls = (c0 ++ [CallRun journalctlRenamed; restartNetworkd])
                                 ++ tail).
      { unfold calls. by rewrite <- app_assoc. }
      assert (Hprefix : ~ In restartTimesyncd
                          (c0 ++ [CallRun journalctlRenamed; restartNetworkd])).
      { intros [Hin|[?|[?|[]]]]%in_app_or; [by apply Hquiet in Hin|done..]. }
      assert (Hin : In restartTimesyncd tail).
      { assert (Hin : In restartTimesyncd calls).
        { rewrite Heq. apply in_or_app. right. by left. }
        rewrite Hcalls in Hin. by apply in_app_or in Hin as [?|?]. }
      apply in_split in Hin as (t1 & t2 & Htl).
      destruct (Htimesyncd t1 t2 Htl) as (-> & Hok & Ht2).
      cbn [app] in Htl. rewrite Hcalls, Htl in Heq.
      pose proof (single_occurrence _ _ _ _ _ Hprefix Ht2 Heq) as ->.
      apply app_inv_head in Heq. injection Heq as <-.
      split; [|done].
      exists (c0 ++ [CallRun journalctlRenamed]).
      split; [by rewrite <- app_assoc|done]. }
  specialize (Hprelude h).
  destruct (prelude h) as [[err|] h4|h4|] eqn:Hrun.
  - rewrite (orReturn_error _ _ _ _ _ Hrun).
    destruct Hprelude as (calls & -> & Hcalls). exists calls.
    split; [done|]. split; intros c1 c2 Heq; by destruct (Habsent _ _ _ _ Hcalls Heq).
  - rewrite (orReturn_ok _ _ _ _ Hrun). clear Hprelude.
    apply before_restarts in Hrun as (c1 & out & -> & Hc1 & Hout).
    set (h4 := h ++ c1 ++ [CallRun journalctlRenamed]).
    unfold restarts.
    destruct (call_error env h4 restartNetworkd) as [err|] eqn:Hnetworkd.
    + rewrite (orReturn_error _ _ h4 err (h4 ++ [restartNetworkd])).
      2:{ unfold RestartUnit, perform. fold restartNetworkd. by rewrite Hnetworkd. }
      exists (c1 ++ CallRun journalctlRenamed :: restartNetworkd :: []).
      split; [unfold h4; by rewrite <- !app_assoc|].
      apply (Hshape c1 out []); [done..| |].
      * by intros [].
      * intros t1 t2 Heq. by destruct t1.
    + rewrite (orReturn_ok _ _ h4 (h4 ++ [restartNetworkd])).
      2:{ unfold RestartUnit, perform. fold restartNetworkd. by rewrite Hnetworkd. }
      destruct (call_error env (h4 ++ [restartNetworkd]) restartTimesyncd)
        as [err|] eqn:Htimesyncd.
      * rewrite (orReturn_error _ _ _ err ((h4 ++ [restartNetworkd]) ++ [restartTimesyncd])).
        2:{ unfold RestartUnit, perform. fold restartTimesyncd. by rewrite Htimesyncd. }
        exists (c1 ++ CallRun journalctlRenamed :: restartNetworkd :: [restartTimesyncd]).
        split; [unfold h4; by rewrite <- !app_assoc|].
        apply (Hshape c1 out [restartTimesyncd]); [done..| |].
        -- by intros [?|[]].
        -- intros t1 t2 Heq.
           destruct t1 as [|t t1]; [|by destruct t1].
           injection Heq as <-. split; [done|]. split; [exact Hnetworkd|by intros []].
      * rewrite (orReturn_ok _ _ _ ((h4 ++ [restartNetworkd]) ++ [restartTimesyncd])).
        2:{ unfold RestartUnit, perform. fold restartTimesyncd. by rewrite Htimesyncd. }
        pose proof (emits_waitForNetworkOnline_any notRestartCall fuel cfg timeout
                      notRestartCall_waiters
                      ((h4 ++ [restartNetworkd]) ++ [restartTimesyncd])) as Honline.
        assert (Hafter : forall calls7, Forall notRestartCall calls7 ->
                  let calls :=
                    c1 ++ CallRun journalctlRenamed :: restartNetworkd
                       :: restartTimesyncd :: calls7 in
                  (forall c1 c2,
                      calls = c1 ++ restartNetworkd :: c2 ->
                      (exists c0 out,
                         c1 = c0 ++ [CallRun journalctlRenamed]
                         /\ command_result env (h ++ c0) journalctlRenamed = inl out)
                      /\ ~ In restartNetworkd c1 /\ ~ In restartNetworkd c2)
                  /\ (forall c1 c2,
                        calls = c1 ++ restartTimesyncd :: c2 ->
                        (exists c0,
                           c1 = c0 ++ [restartNetworkd]
                           /\ call_error env (h ++ c0) restartNetworkd = None)
                        /\ ~ In restartTimesyncd c1 /\ ~ In restartTimesyncd c2)).
        { intros calls7 Hcalls7.
          apply (Hshape c1 out (restartTimesyncd :: calls7)); [done..| |].
          - intros [?|Hin]; [done|]. by apply Hquiet in Hin.
          - intros t1 t2 Heq.
            assert (Hsingle : t1 = []).
            { apply (single_occurrence restartTimesyncd [] calls7 t1 t2);
                [by intros []|by apply Hquiet|done]. }
            subst t1. injection Heq as <-.
            split; [done|]. split; [exact Hnetworkd|by apply Hquiet]. }
        destruct (waitForNetworkOnline env fuel cfg timeout _) as [r h7|h7|]; [| |done];
          destruct Honline as (calls7 & -> & Hcalls7);
          exists (c1 ++ CallRun journalctlRenamed :: restartNetworkd
                     :: restartTimesyncd :: calls7);
          (split; [unfold h4; by rewrite <- !app_assoc|]); by apply Hafter.
  - rewrite (orReturn_panics _ _ _ _ Hrun).
    destruct Hprelude as (calls & -> & Hcalls). exists calls.
    split; [done|]. split; intros c1 c2 Heq; by destruct (Habsent _ _ _ _ Hcalls Heq).
  - by rewrite (orReturn_unfinished _ _ _ Hrun).
Qed.

End OrchestratorExtras.

(** ** The further properties on the samples *)

Lemma bond_member_links_witness :
  Name (memberLink "AA:BB:CC:DD:EE:FF") = "01-enaabbccddeeff.link".
Proof.
  destruct (bond_member_links exampleConfig) as (_ & _ & Hmember).
  destruct (Hmember "AA:BB:CC:DD:EE:FF" eq_refl) as [Hname _]. exact Hname.
Defined.

Lemma netdev_files_panic_or_count_witness :
  generateNetdevFileContents exampleBrokenConfig = None.
Proof.
  destruct (netdev_files_panic_or_count exampleBrokenConfig) as [[_ Hpanic] _].
  apply Hpanic. exists exampleBrokenBond. split; [simpl; tauto|]. by split.
Defined.

Lemma network_files_panic_or_count_witness :
  generateNetworkFileContents exampleBrokenConfig = None.
Proof.
  destruct (network_files_panic_or_count exampleBrokenConfig) as [[_ Hpanic] _].
  apply Hpanic. exists exampleBrokenBond. split; [simpl; tauto|]. by split.
Defined.

Lemma routes_render_as_blocks_witness :
  length (List.filter (String.eqb "[Route]") (lines (processRoutes exampleRoutes)))
  = 2%nat.
Proof.
  destruct (routes_render_as_blocks exampleRoutes) as (_ & _ & Hclean).
  apply Hclean. repeat constructor.
Defined.

Lemma network_section_lines_witness :
  generateNetworkSectionContents (Some exampleDNS) None = "".
Proof.
  destruct (network_section_lines (Some exampleDNS) None) as (_ & [_ Hempty] & _).
  apply Hempty. split.
  - intros d Hd. injection Hd as <-. by split.
  - intros n Hn. discriminate Hn.
Defined.

Lemma bridge_without_tags_witness :
  generateBridgeVLANContents "bond0" 0 [] [exampleTaggedVLAN] = "".
Proof.
  apply (proj2 (bridge_without_tags "bond0" 0 [] [exampleTaggedVLAN])).
  split; [reflexivity|]. split; [reflexivity|].
  intros vlan [<-|[]]. discriminate.
Defined.

Lemma address_entries_as_sets_witness :
  generateLinkSectionContents ["dhcp4"; "slaac"; "dhcp4"]
  = generateLinkSectionContents ["slaac"; "dhcp4"].
Proof.
  apply (proj1 (address_entries_as_sets ["dhcp4"; "slaac"; "dhcp4"] ["slaac"; "dhcp4"])).
  intros addr. simpl. tauto.
Defined.

Lemma stripped_hwaddr_normal_form_witness :
  Name (interfaceLink exampleInterface)
  = Name (interfaceLink {| iName := "br1"; iHwaddr := "001122334455"; iMTU := 0;
                           iAddresses := []; iRoutes := []; iLLDP := false;
                           iVLAN := 0; iVLANTags := [] |}).
Proof.
  destruct (stripped_hwaddr_normal_form "00:11:22:33:44:55" eq_refl)
    as (_ & _ & _ & _ & Hsame).
  apply Hsame; reflexivity.
Defined.

Lemma writer_success_trace_witness :
  exists h' netdevs networks,
    generateNetworkConfiguration exampleRenamedEnv exampleConfigPath exampleTimesyncFile
      exampleJoin exampleConfig [] = Returns None h'
    /\ generateNetdevFileContents exampleConfig = Some netdevs
    /\ generateNetworkFileContents exampleConfig = Some networks
    /\ length (generateLinkFileContents exampleConfig ++ netdevs ++ networks) = 15%nat
    /\ h' = [] ++ [CallRemoveAll exampleConfigPath; CallMkdir exampleConfigPath perm_0o755]
               ++ map (writeCall exampleConfigPath exampleJoin)
                      (generateLinkFileContents exampleConfig ++ netdevs ++ networks)
               ++ [CallRemove exampleTimesyncFile].
Proof.
  destruct (generateNetworkConfiguration exampleRenamedEnv exampleConfigPath
              exampleTimesyncFile exampleJoin exampleConfig [])
    as [[e|] h'|h'|] eqn:Hrun; try (vm_compute in Hrun; discriminate Hrun).
  destruct (writer_success_trace exampleRenamedEnv exampleConfigPath exampleTimesyncFile
              exampleJoin exampleConfig [] h' Hrun)
    as (netdevs & networks & fallback & Hnetdevs & Hnetworks & Htrace & Hfallback).
  exists h', netdevs, networks.
  split; [reflexivity|]. split; [exact Hnetdevs|]. split; [exact Hnetworks|].
  assert (Hremove : fallback = CallRemove exampleTimesyncFile).
  { destruct Hfallback as [[Hf _]|(ntp & Hntp & _)]; [exact Hf|discriminate Hntp]. }
  rewrite Hremove in Htrace. split; [|exact Htrace].
  vm_compute in Hnetdevs. injection Hnetdevs as <-.
  vm_compute in Hnetworks. injection Hnetworks as <-.
  reflexivity.
Defined.

Lemma writer_error_provenance_witness :
  generateNetworkConfiguration exampleReadOnlyEnv exampleConfigPath exampleTimesyncFile
    exampleJoin exampleConfig []
  = Returns (Some (external_error "read-only file system"))
      [CallRemoveAll exampleConfigPath; CallMkdir exampleConfigPath perm_0o755].
Proof.
  destruct (writer_error_provenance exampleReadOnlyEnv exampleConfigPath
              exampleTimesyncFile exampleJoin exampleConfig []) as (_ & Hmkdir & _).
  apply Hmkdir; reflexivity.
Defined.

Lemma writer_panic_state_witness :
  generateNetworkConfiguration exampleRenamedEnv exampleConfigPath exampleTimesyncFile
    exampleJoin exampleBrokenConfig []
  = Panics [ CallRemoveAll exampleConfigPath; CallMkdir exampleConfigPath perm_0o755;
             writeCall exampleConfigPath exampleJoin (interfaceLink exampleInterface) ].
Proof.
  destruct (writer_panic_state exampleRenamedEnv exampleConfigPath exampleTimesyncFile
              exampleJoin exampleBrokenConfig []) as [_ Hpanic].
  apply Hpanic.
  - exists exampleBrokenBond. split; [simpl; tauto|]. by split.
  - intros h0 c. reflexivity.
Defined.

Lemma device_map_contents_witness :
  devicesToCheck exampleDuplicateConfig !! "br0" = Some 2.
Proof.
  destruct (device_map_contents exampleDuplicateConfig "br0") as (_ & _ & Hlast).
  apply (Hlast [("br0", ["dhcp4"])] ["dhcp4"; "slaac"] []).
  - reflexivity.
  - discriminate.
  - intros addresses' [].
Defined.

Lemma address_count_edges_witness :
  "10.0.0.5" <> "" /\ Contains "10.0.0.5" LF = false.
Proof.
  destruct (address_count_edges exampleRenamedEnv "br0" []) as (Hcapture & _).
  apply (Hcapture ("    inet 10.0.0.5/24 scope global" +:+ LF)).
  vm_compute. tauto.
Defined.

Lemma online_wait_nothing_to_check_witness :
  waitForNetworkOnline exampleReadOnlyEnv 1 exampleIdleConfig (3 * Second) []
  = Returns None [CallNow; CallNow].
Proof.
  apply (online_wait_nothing_to_check exampleReadOnlyEnv exampleIdleConfig 0
           (3 * Second) []).
  intros name addresses [Hbond|[Hvlan|[]]].
  - by injection Hbond as _ <-.
  - by injection Hvlan as _ <-.
Defined.

Lemma waits_sleep_bounded_witness :
  (waitForNetworkOnline exampleReadOnlyEnv 5 exampleConfig (1 * Second) []
   = Returns (Some onlineTimeout)
       [ CallNow;
         CallNow; statusCall "br0"; CallSleep (500 * Millisecond);
         CallNow; statusCall "br0"; CallSleep (500 * Millisecond);
         CallNow; statusCall "br0"; CallSleep (500 * Millisecond);
         CallNow ]
   /\ exists calls,
        [ CallNow;
          CallNow; statusCall "br0"; CallSleep (500 * Millisecond);
          CallNow; statusCall "br0"; CallSleep (500 * Millisecond);
          CallNow; statusCall "br0"; CallSleep (500 * Millisecond);
          CallNow ] = [] ++ calls
        /\ sleepCount calls = 3%nat
        /\ Z.of_nat (sleepCount calls) * (500 * Millisecond)
           <= Z.max 0 (1 * Second + 500 * Millisecond))
  /\ (waitForUdevInterfaceRename exampleOnlineEnv 5 (1 * Second) []
      = Returns (Some renameTimeout) ((CallNow :: failedCycles 3) ++ [CallNow])
      /\ exists calls,
           (CallNow :: failedCycles 3) ++ [CallNow] = [] ++ calls
           /\ sleepCount calls = 3%nat
           /\ Z.of_nat (sleepCount calls) * (500 * Millisecond)
              <= Z.max 0 (1 * Second + 500 * Millisecond)).
Proof.
  split.
  - split; [reflexivity|].
    destruct (waits_sleep_bounded exampleReadOnlyEnv pausedClock_advances) as [Honline _].
    destruct (Honline 5%nat exampleConfig (1 * Second) [] _ _ eq_refl)
      as (calls & Hcalls & Hbound).
    exists calls. split; [exact Hcalls|]. split; [|exact Hbound].
    cbn [app] in Hcalls. rewrite <- Hcalls. reflexivity.
  - split; [reflexivity|].
    destruct (waits_sleep_bounded exampleOnlineEnv pausedClock_advances) as [_ Hrename].
    destruct (Hrename 5%nat (1 * Second) [] _ _ eq_refl) as (calls & Hcalls & Hbound).
    exists calls. split; [exact Hcalls|]. split; [|exact Hbound].
    cbn [app] in Hcalls. rewrite <- Hcalls. reflexivity.
Defined.

Lemma restarts_follow_rename_witness :
  exists h' c0 out,
    ApplyNetworkConfiguration exampleRenamedEnv exampleConfigPath exampleTimesyncFile
      exampleJoin 4 (Some exampleConfig) (3 * Second) [] = Returns None h'
    /\ h' = (c0 ++ [CallRun journalctlRenamed])
              ++ CallRestartUnit "systemd-networkd"
              :: [ CallRestartUnit "systemd-timesyncd";
                   CallNow; CallNow; statusCall "br0"; addressCall "br0" ]
    /\ command_result exampleRenamedEnv ([] ++ c0) journalctlRenamed = inl out
    /\ (25 < length h')%nat.
Proof.
  pose proof (restarts_follow_rename exampleRenamedEnv exampleConfigPath
                exampleTimesyncFile exampleJoin 4 exampleConfig (3 * Second) [])
    as Hrun.
  cbv zeta in Hrun.
  destruct (ApplyNetworkConfiguration exampleRenamedEnv exampleConfigPath
              exampleTimesyncFile exampleJoin 4 (Some exampleConfig) (3 * Second) [])
    as [[e|] h'|h'|] eqn:Happly; try (vm_compute in Happly; discriminate Happly).
  destruct Hrun as (calls & Hcalls & Hnetworkd & _).
  cbn [app] in Hcalls. subst calls.
  assert (Hsplit : h' = firstn 25 h' ++ CallRestartUnit "systemd-networkd"
                                     :: skipn 26 h').
  { vm_compute in Happly. injection Happly as <-. reflexivity. }
  destruct (Hnetworkd _ _ Hsplit) as [(c0 & out & Hc0 & Hout) _].
  exists h', c0, out. split; [reflexivity|]. split; [|split; [exact Hout|]].
  - rewrite <- Hc0. rewrite Hsplit at 1. f_equal. f_equal.
    vm_compute in Happly. injection Happly as <-. reflexivity.
  - vm_compute in Happly. injection Happly as <-. vm_compute. lia.
Defined.
